(** * Board-game booking bot: reservation, wizard and reminder engine

    A shallow embedding of [src/main.py] (a chat bot that lets users create
    board-game sessions, book seats, cancel, delete and be reminded), with the
    properties of the specification stated and settled against it.

    Layout: part I holds the definitions (time and parsing, the relational
    store, the messages, the creation wizard, booking / cancellation /
    deletion, the reminder scheduler, the event loop and the cooperative
    scheduling of [book_game] coroutines); part II holds the lemmas and the
    theorems. *)

From Stdlib Require Import ZArith List String Ascii Bool Lia.
From Stdlib Require Import Sorting.Sorted Sorting.Permutation.
Import ListNotations.
Open Scope string_scope.
Open Scope list_scope.
Open Scope Z_scope.

(* ================================================================== *)
(** * Part I - definitions                                             *)
(* ================================================================== *)

(** ** Time

    A naive [datetime.datetime] with zero microseconds is a point on the
    proleptic Gregorian calendar; it is represented by the number of seconds
    since 0001-01-01 00:00:00 shifted by one day (Python's ordinal, where
    0001-01-01 has ordinal 1).  Comparison of datetimes is comparison of these
    numbers and subtracting a [timedelta] is subtraction.  The store keeps a
    start time as text in the canonical format [DATE_FORMAT]; a row of the
    model keeps the datetime, and [strftime_canonical] gives what the
    comparisons of the queries see of its text.  For years from 1000 on that
    text orders as the time does and parses back to the same datetime; for
    an earlier year it does neither, because [strftime] writes the year
    without padding.  The clock the process reads
    ([datetime.datetime.now()]) and the clock the store reads
    ([datetime('now')]) are one clock: the specification has a single
    implicit time zone. *)
Module Time.

Definition datetime := Z.

Definition is_leap (y : Z) : bool :=
  (y mod 4 =? 0) && (negb (y mod 100 =? 0) || (y mod 400 =? 0)).

Definition days_in_month (y m : Z) : Z :=
  if m =? 2 then (if is_leap y then 29 else 28)
  else if (m =? 4) || (m =? 6) || (m =? 9) || (m =? 11) then 30
  else 31.

Definition days_before_year (y : Z) : Z :=
  let y' := y - 1 in y' * 365 + y' / 4 - y' / 100 + y' / 400.

Fixpoint days_before_month_aux (y : Z) (n : nat) : Z :=
  match n with
  | O => 0
  | S k => days_before_month_aux y k + days_in_month y (Z.of_nat n)
  end.

Definition days_before_month (y m : Z) : Z :=
  days_before_month_aux y (Z.to_nat (m - 1)).

Definition ymd2ord (y m d : Z) : Z :=
  days_before_year y + days_before_month y m + d.

(** [datetime.datetime(y, m, d, hh, mm)]: [None] stands for the [ValueError]
    raised on a field out of range. *)
Definition mk_datetime (y m d hh mm : Z) : option datetime :=
  if (1 <=? y) && (y <=? 9999) && (1 <=? m) && (m <=? 12)
     && (1 <=? d) && (d <=? days_in_month y m)
     && (0 <=? hh) && (hh <=? 23) && (0 <=? mm) && (mm <=? 59)
  then Some (ymd2ord y m d * 86400 + hh * 3600 + mm * 60)
  else None.

(** [datetime.timedelta(days=n)] and [datetime.timedelta(hours=n)], in seconds. *)
Definition timedelta_days (n : Z) : Z := n * 86400.
Definition timedelta_hours (n : Z) : Z := n * 3600.

(** The first second of year [y]. *)
Definition year_start (y : Z) : datetime := ymd2ord y 1 1 * 86400.

(** The year of a datetime, as [datetime] computes it from the ordinal
    (cycles of 400, 100, 4 and 1 years; the last day of a leap cycle belongs
    to the year before). *)
Definition year_of (t : datetime) : Z :=
  let n := t / 86400 - 1 in
  let n400 := n / 146097 in
  let r := n mod 146097 in
  let n100 := r / 36524 in
  let r2 := r mod 36524 in
  let n4 := r2 / 1461 in
  let r3 := r2 mod 1461 in
  let n1 := r3 / 365 in
  let y := 400 * n400 + 100 * n100 + 4 * n4 + n1 + 1 in
  if (n1 =? 4) || (n100 =? 4) then y - 1 else y.

Definition digit (d : Z) : ascii := ascii_of_nat (48 + Z.to_nat d).

(** The four decimal digits of a year from 1 to 9999. *)
Definition year_digits (y : Z) : list Z :=
  [y / 1000; (y / 100) mod 10; (y / 10) mod 10; y mod 10].

Fixpoint drop_zeros (ds : list Z) : list Z :=
  match ds with
  | d :: (_ :: _) as rest => if d =? 0 then drop_zeros rest else ds
  | _ => ds
  end.

(** The year of a date text with the dash that follows it. *)
Definition year_dash (ds : list Z) : string :=
  string_of_list_ascii (map digit ds) ++ "-".

(** A date text ['<year>-MM-DD HH:MM:SS'] as far as comparing two such texts
    goes: the year with its dash, as text, and the rest, whose fields have
    fixed widths and therefore order as the seconds since the start of the
    year do. *)
Record DateText := mkText {
  text_year : string;
  text_rest : Z
}.

(** [t.strftime(DATE_FORMAT)]: the directive [%Y] writes the year without
    padding (['999-01-01 10:00:00']). *)
Definition strftime_canonical (t : datetime) : DateText :=
  mkText (year_dash (drop_zeros (year_digits (year_of t))))
         (t - year_start (year_of t)).

(** SQLite's [datetime('now')] at the moment [t]: the year has four
    digits. *)
Definition sqlite_datetime (t : datetime) : DateText :=
  mkText (year_dash (year_digits (year_of t))) (t - year_start (year_of t)).

(** Comparison of two date texts as SQLite compares text: character by
    character. *)
Definition text_compare (a b : DateText) : comparison :=
  match String.compare (text_year a) (text_year b) with
  | Eq => text_rest a ?= text_rest b
  | c => c
  end.

(** A datetime of the years 1000 to 9999: its canonical text has a year of
    four digits, which is what [strptime] wants for [%Y]. *)
Definition four_digit_year (t : datetime) : bool :=
  (year_start 1000 <=? t) && (t <? year_start 10000).

End Time.

(** ** Text: the parts of [str] the handlers use

    A text is kept as its bytes.  [lower], [python_int] and
    [strptime_display] are [str.lower], [int] and [strptime] on ASCII text;
    on other text (a letter such as the Kelvin sign, the digits of another
    script) the library does more than they do. *)
Module Text.

Definition code (c : ascii) : Z := Z.of_nat (nat_of_ascii c).

Definition is_digit (c : ascii) : bool := (48 <=? code c) && (code c <=? 57).

Definition digit_val (c : ascii) : Z := code c - 48.

(** The characters [\s] and [str.strip] treat as white space, within ASCII. *)
Definition is_space (c : ascii) : bool :=
  (code c =? 32) || ((9 <=? code c) && (code c <=? 13)).

(** [str.lower] on ASCII letters. *)
Definition lower_ascii (c : ascii) : ascii :=
  if (65 <=? code c) && (code c <=? 90)
  then ascii_of_nat (nat_of_ascii c + 32) else c.

Fixpoint lower (s : string) : string :=
  match s with
  | EmptyString => EmptyString
  | String c r => String (lower_ascii c) (lower r)
  end.

(** Leading run of decimal digits and the rest of the text. *)
Fixpoint span_digits (s : list ascii) : list ascii * list ascii :=
  match s with
  | c :: r =>
      if is_digit c then let (ds, rest) := span_digits r in (c :: ds, rest)
      else ([], s)
  | [] => ([], [])
  end.

Fixpoint drop_spaces (s : list ascii) : list ascii :=
  match s with
  | c :: r => if is_space c then drop_spaces r else s
  | [] => []
  end.

Definition digits_value (ds : list ascii) : Z :=
  fold_left (fun acc c => acc * 10 + digit_val c) ds 0.

(** A numeric field of one or two digits (the directives [%d], [%m], [%H],
    [%M] of [strptime]). *)
Definition field12 (ds : list ascii) : option Z :=
  match ds with
  | [_] | [_; _] => Some (digits_value ds)
  | _ => None
  end.

(** [datetime.datetime.strptime(text, '%d.%m.%Y %H:%M')]: day and month of one
    or two digits (the day may also be padded with one space), a year of
    exactly four digits, at least one white-space character, hour and minute
    of one or two digits, nothing after the minute.  [None] stands for
    [ValueError] (no match, or a date that does not exist). *)
Definition strptime_display (text : string) : option Time.datetime :=
  let s := list_ascii_of_string text in
  let padded := match s with
                | c :: d :: _ => (code c =? 32) && is_digit d
                | _ => false
                end in
  let (dd, s1) := span_digits (if padded then tl s else s) in
  match s1 with
  | "."%char :: s2 =>
      if padded && negb (List.length dd =? 1)%nat then None else
      let (mo, s3) := span_digits s2 in
      match s3 with
      | "."%char :: s4 =>
          match s4 with
          | y1 :: y2 :: y3 :: y4 :: (sp :: _) as s5 =>
              if is_digit y1 && is_digit y2 && is_digit y3 && is_digit y4
                 && is_space sp
              then
                let (hh, s6) := span_digits (drop_spaces s5) in
                match s6 with
                | ":"%char :: s7 =>
                    let (mi, s8) := span_digits s7 in
                    match s8, field12 dd, field12 mo, field12 hh, field12 mi with
                    | [], Some d, Some m, Some h, Some i =>
                        Time.mk_datetime (digits_value [y1; y2; y3; y4]) m d h i
                    | _, _, _, _, _ => None
                    end
                | _ => None
                end
              else None
          | _ => None
          end
      | _ => None
      end
  | _ => None
  end.

Fixpoint rstrip_rev (s : list ascii) : list ascii :=
  match s with
  | c :: r => if is_space c then rstrip_rev r else s
  | [] => []
  end.

Definition strip (s : list ascii) : list ascii :=
  rev (rstrip_rev (rev (drop_spaces s))).

(** Digits with single underscores allowed between digits, as [int] accepts;
    [prev] tells whether the previous character was a digit. *)
Fixpoint int_digits (s : list ascii) (prev : bool) (acc : Z) : option Z :=
  match s with
  | [] => if prev then Some acc else None
  | c :: r =>
      if is_digit c then int_digits r true (acc * 10 + digit_val c)
      else if (code c =? 95) && prev then int_digits r false acc
      else None
  end.

(** [int(text)]: surrounding white space is dropped, one sign is allowed.
    [None] stands for [ValueError]. *)
Definition python_int (text : string) : option Z :=
  match strip (list_ascii_of_string text) with
  | "-"%char :: r => option_map Z.opp (int_digits r false 0)
  | "+"%char :: r => int_digits r false 0
  | r => int_digits r false 0
  end.

End Text.


(** ** The store: the three tables of [DatabaseManager._init_db]

    Rows are kept in insertion order.  The column [players.join_date] is
    written by its default and never read, so it is left out.  [games_seq] is
    the counter SQLite keeps for an [AUTOINCREMENT] key: a new identifier is
    one more than the largest identifier ever handed out. *)
Module Store.

Record GameRow := mkGame {
  game_id : Z;
  game_name : string;
  game_date : Time.datetime;
  creator_id : Z;
  max_players : Z;
  description : string;
  photo_id : option string
}.

Record PlayerRow := mkPlayer {
  player_game : Z;
  player_user : Z;
  username : option string
}.

Record ReminderRow := mkReminder {
  reminder_game : Z;
  reminder_user : Z;
  reminded : bool
}.

Record Database := mkDb {
  games : list GameRow;
  players : list PlayerRow;
  reminders : list ReminderRow;
  games_seq : Z
}.

Definition empty_db : Database := mkDb [] [] [] 0.

Definition find_game (d : Database) (gid : Z) : option GameRow :=
  find (fun g => game_id g =? gid) (games d).

Definition players_of (d : Database) (gid : Z) : list PlayerRow :=
  filter (fun p => player_game p =? gid) (players d).

(** [SELECT COUNT( * ) FROM players WHERE game_id = ?] *)
Definition count_players (d : Database) (gid : Z) : Z :=
  Z.of_nat (List.length (players_of d gid)).

Definition find_player (d : Database) (gid uid : Z) : option PlayerRow :=
  find (fun p => (player_game p =? gid) && (player_user p =? uid)) (players d).

(** The tuple [get_game_info] returns: positions 0 to 6. *)
Record GameInfo := mkInfo {
  info_name : string;
  info_date : Time.datetime;
  info_max_players : Z;
  info_description : string;
  info_photo_id : option string;
  info_current_players : Z;
  info_creator_name : option string
}.

(** [get_game_info]: the game row, the number of its player rows and, by the
    left join on the creator's own player row, the creator's user name. *)
Definition get_game_info (d : Database) (gid : Z) : option GameInfo :=
  match find_game d gid with
  | None => None
  | Some g =>
      Some (mkInfo (game_name g) (game_date g) (max_players g) (description g)
              (photo_id g) (count_players d gid)
              (match find_player d gid (creator_id g) with
               | Some p => username p
               | None => None
               end))
  end.

(** [get_game_participants]: [(user_id, username)] of every player row. *)
Definition get_game_participants (d : Database) (gid : Z)
  : list (Z * option string) :=
  map (fun p => (player_user p, username p)) (players_of d gid).

(** [is_user_creator]: [result and result[0] == user_id]. *)
Definition is_user_creator (d : Database) (gid uid : Z) : bool :=
  match find_game d gid with
  | None => false
  | Some g => creator_id g =? uid
  end.

(** [is_user_joined] *)
Definition is_user_joined (d : Database) (gid uid : Z) : bool :=
  match find_player d gid uid with
  | Some _ => true
  | None => false
  end.

Definition max_rowid (gs : list GameRow) : Z :=
  fold_right (fun g m => Z.max (game_id g) m) 0 gs.

(** The identifier [INSERT INTO games] assigns ([cursor.lastrowid]). *)
Definition next_game_id (d : Database) : Z :=
  Z.max (games_seq d) (max_rowid (games d)) + 1.

(** An integer SQLite can hold: the binding raises [OverflowError] on any
    other ("Python int too large to convert to SQLite INTEGER"). *)
Definition fits_int64 (n : Z) : bool :=
  (- 2 ^ 63 <=? n) && (n <? 2 ^ 63).

(** [INSERT INTO games (...) VALUES (...)], with the new identifier.  [None]
    is the [OverflowError] on a capacity that is no 64-bit integer: the
    statement is not run and the table is as before.  (The identifiers of
    users are the transport's and fit.) *)
Definition insert_game (d : Database) (name : string) (date : Time.datetime)
  (creator maxp : Z) (descr : string) (photo : option string)
  : option (Z * Database) :=
  if fits_int64 maxp then
    let gid := next_game_id d in
    Some (gid, mkDb (games d ++ [mkGame gid name date creator maxp descr photo])
                 (players d) (reminders d) gid)
  else None.

(** [INSERT INTO players (game_id, user_id, username)]: the primary key
    [(game_id, user_id)] makes a second row for the same pair an
    [IntegrityError], here [None]. *)
Definition insert_player (d : Database) (gid uid : Z) (uname : option string)
  : option Database :=
  if is_user_joined d gid uid then None
  else Some (mkDb (games d) (players d ++ [mkPlayer gid uid uname])
               (reminders d) (games_seq d)).

(** [DELETE FROM players WHERE game_id = ? AND user_id = ?] *)
Definition delete_player (d : Database) (gid uid : Z) : Database :=
  mkDb (games d)
       (filter (fun p => negb ((player_game p =? gid) && (player_user p =? uid)))
          (players d))
       (reminders d) (games_seq d).

(** [DELETE FROM games WHERE id = ?] *)
Definition delete_game_row (d : Database) (gid : Z) : Database :=
  mkDb (filter (fun g => negb (game_id g =? gid)) (games d))
       (players d) (reminders d) (games_seq d).

(** [DELETE FROM players WHERE game_id = ?] *)
Definition delete_players_of (d : Database) (gid : Z) : Database :=
  mkDb (games d) (filter (fun p => negb (player_game p =? gid)) (players d))
       (reminders d) (games_seq d).

(** [DELETE FROM reminders WHERE game_id = ?] *)
Definition delete_reminders_of (d : Database) (gid : Z) : Database :=
  mkDb (games d) (players d)
       (filter (fun r => negb (reminder_game r =? gid)) (reminders d))
       (games_seq d).

(** The column [game_date] of a row: the text [create_game_in_db] stored. *)
Definition stored_date (g : GameRow) : Time.DateText :=
  Time.strftime_canonical (game_date g).

(** [a <= b] on the stored texts. *)
Definition stored_date_leb (g h : GameRow) : bool :=
  match Time.text_compare (stored_date g) (stored_date h) with
  | Gt => false
  | _ => true
  end.

(** [ORDER BY game_date]: by the stored text; rows with equal texts keep
    their table order.  [g] stands before the rows of [l] in the table. *)
Fixpoint insert_by_date (g : GameRow) (l : list GameRow) : list GameRow :=
  match l with
  | [] => [g]
  | h :: t =>
      if stored_date_leb g h then g :: h :: t
      else h :: insert_by_date g t
  end.

Fixpoint order_by_date (l : list GameRow) : list GameRow :=
  match l with
  | [] => []
  | g :: t => insert_by_date g (order_by_date t)
  end.

(** [game_date >= datetime('now')]: a comparison of two texts. *)
Definition not_before (now : Time.datetime) (g : GameRow) : bool :=
  match Time.text_compare (stored_date g) (Time.sqlite_datetime now) with
  | Lt => false
  | _ => true
  end.

(** The query of [show_upcoming_games]:
    [SELECT ... FROM games WHERE game_date >= datetime('now') ORDER BY game_date],
    each row with its number of players. *)
Definition select_upcoming (d : Database) (now : Time.datetime)
  : list (GameRow * Z) :=
  map (fun g => (g, count_players d (game_id g)))
      (order_by_date (filter (not_before now) (games d))).

(** The store after the three deletes of [delete_game]. *)
Definition without (d : Database) (gid : Z) : Database :=
  delete_reminders_of (delete_players_of (delete_game_row d gid) gid) gid.

(** What the key and the foreign key of the tables guarantee: no row is
    ahead of the identifier counter. *)
Definition consistent (d : Database) : Prop :=
  0 <= games_seq d
  /\ (forall g, In g (games d) -> game_id g <= games_seq d)
  /\ (forall p, In p (players d) -> player_game p <= games_seq d).

(** Ascending order of start time. *)
Definition date_le (a b : GameRow) : Prop := game_date a <= game_date b.

End Store.

(** ** What the bot says and to whom *)
Module Chat.

Inductive TimeLeft := one_day | one_hour.

(** The control [game_details] offers, by the role of the viewer. *)
Inductive Control :=
| ctl_delete (gid : Z)
| ctl_cancel (gid : Z)
| ctl_book (gid : Z)
| ctl_no_seats.

(** One constructor per text the source sends; the comment quotes it. *)
Inductive Msg :=
| AskName                 (* "Введите название игры:" *)
| AskDate                 (* "Введите дату и время игры в формате ДД.ММ.ГГГГ ЧЧ:ММ" *)
| BadDate                 (* "Неверный формат даты. Попробуйте еще раз." *)
| AskMaxPlayers           (* "Введите максимальное количество игроков (0 - без ограничений):" *)
| BadNumber               (* "Пожалуйста, введите число (0 - без ограничений):" *)
| AskDescription          (* "Введите описание игры (или /skip чтобы пропустить):" *)
| AskPhoto                (* "Пришлите фото для игры (или /skip чтобы пропустить):" *)
| NeedPhotoOrSkip         (* "Пожалуйста, пришлите фото или /skip чтобы пропустить" *)
| GameCreated (gid : Z)   (* "Игра создана! ID: {game_id}" *)
| CreateError             (* "Произошла ошибка при создании игры." *)
| Menu                    (* "Выберите действие:" with the three menu buttons *)
| NoGames                 (* "Нет запланированных игр. Хотите создать свою?" *)
| UpcomingList (rows : list (Store.GameRow * Z))  (* "Предстоящие игры:" *)
| MyBookings (rows : list (Store.GameRow * Z))    (* "Ваши записи:" or the empty text *)
| DetailsNotFound         (* "Игра не найдена." *)
| Details (gid : Z) (info : Store.GameInfo)
          (participants : list (Z * option string)) (ctl : Control)
| GameNotFound            (* "Игра не найдена!" *)
| NoSeats                 (* "К сожалению, все места уже заняты!" *)
| AlreadyBooked           (* "Вы уже записаны на эту игру!" *)
| Booked                  (* "Вы успешно записались на игру!" *)
| BookError               (* "Произошла ошибка при записи на игру." *)
| NewParticipant (name : string) (who : option string) (count maxp : Z)
| NotBooked               (* "Вы не записаны на эту игру!" *)
| BookingCancelled        (* "Вы отменили запись на игру." *)
| CancelError             (* "Произошла ошибка при отмене записи." *)
| ParticipantLeft (name : string) (who : option string)
| CannotDelete            (* "Вы не можете удалить эту игру!" *)
| GameDeleted             (* "Игра удалена." *)
| DeleteError             (* "Произошла ошибка при удалении игры." *)
| GameCancelled (name : string)
    (* "Игра {name}, на которую вы записались, была отменена создателем." *)
| Reminder (name : string) (left : TimeLeft) (date : Time.datetime).
    (* "Напоминание о игре {name} / Игра начнется через {1 день|1 час}! / Дата: ..." *)

(** The [chat_id] of [bot.send_message]: a user identifier, or (as
    [book_game] and [cancel_booking] pass position 6 of the game tuple) the
    creator's user name. *)
Inductive Target :=
| to_user (uid : Z)
| to_name (name : option string).

(** The calls on the transport, in the order they are made. *)
Inductive Out :=
| reply_text (m : Msg)              (* update.message.reply_text *)
| answer (m : option Msg)           (* query.answer *)
| edit_message_text (m : Msg)       (* query.edit_message_text *)
| send_photo (photo : string) (m : Msg)  (* query.bot.send_photo, then query.delete_message *)
| send_message (chat : Target) (m : Msg). (* bot.send_message *)

(** [update.effective_user] / [query.from_user] / [message.from_user]. *)
Record User := mkUser {
  user_id : Z;
  user_name : option string
}.

(** An incoming message: its text ([None] for a photo message), the file
    identifiers of its photo sizes, its sender. *)
Record Message := mkMessage {
  msg_text : option string;
  msg_photo : list string;
  msg_from : User
}.

(** A plain text message. *)
Definition text_from (user : User) (text : string) : Message :=
  mkMessage (Some text) [] user.

(** The payloads of the inline buttons the bot itself renders, decoded:
    ['upcoming_games'], ['create_game'], ['game_<id>'], ['book_<id>'],
    ['cancel_booking_<id>'], ['delete_game_<id>'], ['my_bookings'],
    ['back_to_menu']. *)
Inductive Callback :=
| cb_upcoming_games
| cb_create_game
| cb_game (gid : Z)
| cb_book (gid : Z)
| cb_cancel_booking (gid : Z)
| cb_delete_game (gid : Z)
| cb_my_bookings
| cb_back_to_menu.

End Chat.

(** ** The reminder scheduler *)
Module Reminders.
Import Store Chat.

Inductive Offset := before_1day | before_1hour.

Definition offset_seconds (k : Offset) : Z :=
  match k with
  | before_1day => Time.timedelta_days 1
  | before_1hour => Time.timedelta_hours 1
  end.

(** A job of the queue: [run_once(callback=send_reminder, when, data, name)].
    The name [f"reminder_1day_{game_id}"] / [f"reminder_1hour_{game_id}"] is
    kept as the pair it encodes. *)
Record Job := mkJob {
  job_when : Time.datetime;
  job_data : Z;
  job_name : Offset * Z
}.

(** The job queue of the transport library: [run_once] adds a job, whatever
    jobs the queue already holds. *)
Definition JobQueue := list Job.

Definition run_once (q : JobQueue) (when : Time.datetime) (data : Z)
  (name : Offset * Z) : JobQueue :=
  q ++ [mkJob when data name].

(** [datetime.datetime.strptime(game[1], DATE_FORMAT)], the first step of
    [schedule_reminders] on a game it has found: the stored text parses
    exactly when its year has four digits.  [false] is the [ValueError],
    which leaves [schedule_reminders] before it has touched the queue. *)
Definition stored_date_parses (d : Database) (gid : Z) : bool :=
  match find_game d gid with
  | Some g => Time.four_digit_year (game_date g)
  | None => true
  end.

(** [schedule_reminders], where [stored_date_parses] holds: the queue it
    leaves.  Its one caller, [create_game_in_db], is modelled with the test
    before the call. *)
Definition schedule_reminders (d : Database) (now : Time.datetime) (gid : Z)
  (job_queue : JobQueue) : JobQueue :=
  match get_game_info d gid with
  | None => job_queue
  | Some game =>
      let game_date := info_date game in
      let reminder_day := game_date - Time.timedelta_days 1 in
      let q1 := if now <? reminder_day
                then run_once job_queue reminder_day gid (before_1day, gid)
                else job_queue in
      let reminder_hour := game_date - Time.timedelta_hours 1 in
      if now <? reminder_hour
      then run_once q1 reminder_hour gid (before_1hour, gid)
      else q1
  end.

(** The jobs one call of [schedule_reminders] adds. *)
Definition armed (d : Database) (now : Time.datetime) (gid : Z) : list Job :=
  match find_game d gid with
  | None => []
  | Some g =>
      (if now <? game_date g - offset_seconds before_1day
       then [mkJob (game_date g - offset_seconds before_1day) gid (before_1day, gid)]
       else [])
      ++ (if now <? game_date g - offset_seconds before_1hour
          then [mkJob (game_date g - offset_seconds before_1hour) gid (before_1hour, gid)]
          else [])
  end.

(** [send_reminder], run for a job with [job.data = gid] at time [now]: the
    messages it attempts to send.  It reads the store and never writes it. *)
Definition send_reminder (d : Database) (now : Time.datetime) (gid : Z)
  : list Out :=
  match get_game_info d gid with
  | None => []
  | Some game =>
      let game_date := info_date game in
      let time_left :=
        if now <? game_date - Time.timedelta_hours 23 then one_day else one_hour in
      map (fun p => send_message (to_user (fst p))
                      (Reminder (info_name game) time_left game_date))
          (get_game_participants d gid)
  end.

End Reminders.

(** ** The handlers

    Each handler is given the decoded update and the context it runs in, and
    returns the calls it makes on the transport together with the context it
    leaves.  The transport is taken to accept every call.  The context a
    handler leaves does not depend on that: every write to the store or to
    [user_data] comes before the call that reports it, and a failed delivery
    of a notification is caught and logged.  Which updates reach
    [handle_message] is decided by the filters [main] registers it with
    ([TEXT & ~COMMAND], [PHOTO]); the handler is modelled for every
    message.  The views ([show_upcoming_games], [game_details],
    [show_my_bookings]) are modelled where [format_date] succeeds on the
    start times they show, that is for start times from the year 1000 on. *)
Module Handlers.
Import Store Chat Reminders.

(** The values of [user_data['action']]. *)
Inductive Action :=
| creating_game
| setting_game_date
| setting_max_players
| setting_description
| setting_photo.

Definition Action_eqb (a b : Action) : bool :=
  match a, b with
  | creating_game, creating_game
  | setting_game_date, setting_game_date
  | setting_max_players, setting_max_players
  | setting_description, setting_description
  | setting_photo, setting_photo => true
  | _, _ => false
  end.

(** [context.user_data], the dictionary of one identity: a key that is absent
    is [None]. *)
Record UserData := mkUserData {
  ud_action : option Action;
  ud_game_name : option string;
  ud_game_date : option Time.datetime;
  ud_max_players : option Z;
  ud_description : option string;
  ud_photo_id : option string
}.

(** [user_data.clear()] *)
Definition cleared : UserData := mkUserData None None None None None None.

Definition set_action (u : UserData) (a : Action) : UserData :=
  mkUserData (Some a) (ud_game_name u) (ud_game_date u) (ud_max_players u)
    (ud_description u) (ud_photo_id u).

Definition set_game_name (u : UserData) (v : string) : UserData :=
  mkUserData (ud_action u) (Some v) (ud_game_date u) (ud_max_players u)
    (ud_description u) (ud_photo_id u).

Definition set_game_date (u : UserData) (v : Time.datetime) : UserData :=
  mkUserData (ud_action u) (ud_game_name u) (Some v) (ud_max_players u)
    (ud_description u) (ud_photo_id u).

Definition set_max_players (u : UserData) (v : Z) : UserData :=
  mkUserData (ud_action u) (ud_game_name u) (ud_game_date u) (Some v)
    (ud_description u) (ud_photo_id u).

Definition set_description (u : UserData) (v : string) : UserData :=
  mkUserData (ud_action u) (ud_game_name u) (ud_game_date u) (ud_max_players u)
    (Some v) (ud_photo_id u).

Definition set_photo_id (u : UserData) (v : string) : UserData :=
  mkUserData (ud_action u) (ud_game_name u) (ud_game_date u) (ud_max_players u)
    (ud_description u) (Some v).

(** What a handler run for one identity can touch: the store (the global
    [db]), that identity's [user_data], and [context.job_queue] ([None] when
    the application was built without a job queue). *)
Record Context := mkContext {
  db : Database;
  user_data : UserData;
  job_queue : option JobQueue
}.

Definition with_db (c : Context) (d : Database) : Context :=
  mkContext d (user_data c) (job_queue c).

Definition with_user_data (c : Context) (u : UserData) : Context :=
  mkContext (db c) u (job_queue c).

(** [menu], reached from a message. *)
Definition menu : list Out := [reply_text Menu].

(** [create_game_step1] *)
Definition create_game_step1 (c : Context) : list Out * Context :=
  ([answer None; edit_message_text AskName],
   with_user_data c (set_action (user_data c) creating_game)).

(** [user_data.get('max_players', 0)] *)
Definition draft_capacity (u : UserData) : Z :=
  match ud_max_players u with Some n => n | None => 0 end.

(** The [try] block of [create_game_in_db]: the store and queue it leaves and
    either the new identifier or the failure.  The two inserts are two
    transactions: when the second fails the first stays, and when
    [schedule_reminders] fails both stay. *)
Inductive CommitError := KeyError | OverflowError | IntegrityError | ValueError.

Definition commit_draft (now : Time.datetime) (user : User) (c : Context)
  : Context * (Z + CommitError) :=
  match ud_game_name (user_data c) with
  | None => (c, inr KeyError)
  | Some name =>
      match ud_game_date (user_data c) with
      | None => (c, inr KeyError)
      | Some date =>
          match
            insert_game (db c) name date (user_id user)
              (draft_capacity (user_data c))
              (match ud_description (user_data c) with Some s => s | None => "" end)
              (ud_photo_id (user_data c))
          with
          | None => (c, inr OverflowError)
          | Some (gid, d1) =>
              match insert_player d1 gid (user_id user) (user_name user) with
              | None => (with_db c d1, inr IntegrityError)
              | Some d2 =>
                  match job_queue c with
                  | None => (mkContext d2 (user_data c) None, inl gid)
                  | Some q =>
                      if stored_date_parses d2 gid
                      then (mkContext d2 (user_data c)
                              (Some (schedule_reminders d2 now gid q)),
                            inl gid)
                      else (mkContext d2 (user_data c) (Some q),
                            inr ValueError)
                  end
              end
          end
      end
  end.

(** The row the commit writes for a draft. *)
Definition drafted (gid : Z) (user : User) (u : UserData) (name : string)
  (date : Time.datetime) : GameRow :=
  mkGame gid name date (user_id user)
    (match ud_max_players u with Some n => n | None => 0 end)
    (match ud_description u with Some s => s | None => "" end)
    (ud_photo_id u).

Definition committed (d : Database) (user : User) (u : UserData)
  (name : string) (date : Time.datetime) : Database :=
  mkDb (games d ++ [drafted (next_game_id d) user u name date])
    (players d ++ [mkPlayer (next_game_id d) (user_id user) (user_name user)])
    (reminders d) (next_game_id d).

(** [create_game_in_db]: [try] / [except Exception] / [finally]. *)
Definition create_game_in_db (now : Time.datetime) (user : User) (c : Context)
  : list Out * Context :=
  let (c1, r) := commit_draft now user c in
  let said := match r with
              | inl gid => [reply_text (GameCreated gid)]
              | inr _ => [reply_text CreateError]
              end in
  (said ++ menu, with_user_data c1 cleared).

Definition action_is (a : option Action) (x : Action) : bool :=
  match a with
  | Some y => Action_eqb y x
  | None => false
  end.

Definition is_skip (lowered : string) : bool := String.eqb lowered "/skip".

(** [handle_message].  [None] is the [AttributeError] of [text.lower()] on a
    message without text (a photo message): the handler stops before it
    touches anything. *)
Definition handle_message (now : Time.datetime) (m : Message) (c : Context)
  : option (list Out * Context) :=
  let action := ud_action (user_data c) in
  match msg_text m with
  | None => None
  | Some raw =>
      let text := Text.lower raw in
      Some (
      if action_is action creating_game then
        ([reply_text AskDate],
         with_user_data c
           (set_action (set_game_name (user_data c) raw) setting_game_date))
      else if action_is action setting_game_date then
        match Text.strptime_display raw with
        | Some game_date =>
            ([reply_text AskMaxPlayers],
             with_user_data c
               (set_action (set_game_date (user_data c) game_date)
                  setting_max_players))
        | None => ([reply_text BadDate], c)
        end
      else if action_is action setting_max_players then
        match Text.python_int raw with
        | Some n =>
            if n <? 0 then ([reply_text BadNumber], c)
            else ([reply_text AskDescription],
                  with_user_data c
                    (set_action (set_max_players (user_data c) n)
                       setting_description))
        | None => ([reply_text BadNumber], c)
        end
      else if action_is action setting_description && negb (is_skip text) then
        ([reply_text AskPhoto],
         with_user_data c
           (set_action (set_description (user_data c) raw) setting_photo))
      else if action_is action setting_photo
              && negb (match msg_photo m with [] => true | _ => false end)
              && negb (is_skip text) then
        create_game_in_db now (msg_from m)
          (with_user_data c
             (set_photo_id (user_data c) (last (msg_photo m) "")))
      else if action_is action setting_photo && negb (is_skip text) then
        ([reply_text NeedPhotoOrSkip], c)
      else
        create_game_in_db now (msg_from m) c)
  end.

(** The text messages [texts] of one user, handled in order. *)
Fixpoint feed (now : Time.datetime) (user : User) (texts : list string)
  (c : Context) : list Out * Context :=
  match texts with
  | [] => ([], c)
  | text :: rest =>
      match handle_message now (text_from user text) c with
      | None => ([], c)
      | Some (out, c') =>
          let (out', c'') := feed now user rest c' in (out ++ out', c'')
      end
  end.

(** The [user_data] that [create_game_step1] leaves when no creation was in
    progress. *)
Definition wizard_started : UserData := set_action cleared creating_game.

(** [show_upcoming_games] *)
Definition show_upcoming_games (now : Time.datetime) (c : Context)
  : list Out :=
  match select_upcoming (db c) now with
  | [] => [answer None; edit_message_text NoGames]
  | rows => [answer None; edit_message_text (UpcomingList rows)]
  end.

(** [show_my_bookings]: the upcoming games the user has a player row in. *)
Definition show_my_bookings (now : Time.datetime) (user : User) (c : Context)
  : list Out :=
  [answer None;
   edit_message_text
     (MyBookings
        (filter (fun r => is_user_joined (db c) (game_id (fst r)) (user_id user))
           (select_upcoming (db c) now)))].

(** [game_details] for a payload whose second [_]-separated piece is the
    identifier (['game_<id>'], ['book_<id>']). *)
Definition game_details (gid : Z) (user : User) (c : Context) : list Out :=
  match get_game_info (db c) gid with
  | None => [answer None; edit_message_text DetailsNotFound]
  | Some game =>
      let ctl :=
        if is_user_creator (db c) gid (user_id user) then ctl_delete gid
        else if is_user_joined (db c) gid (user_id user) then ctl_cancel gid
        else if (info_max_players game =? 0)
                || (info_current_players game <? info_max_players game)
             then ctl_book gid
        else ctl_no_seats in
      let text := Details gid game (get_game_participants (db c) gid) ctl in
      match info_photo_id game with
      | Some photo => [answer None; send_photo photo text]
      | None => [answer None; edit_message_text text]
      end
  end.

(** [book_game] *)
Definition book_game (gid : Z) (user : User) (c : Context)
  : list Out * Context :=
  match get_game_info (db c) gid with
  | None => ([answer None; answer (Some GameNotFound)], c)
  | Some game =>
      let max_players := info_max_players game in
      let current_players := info_current_players game in
      if (0 <? max_players) && (max_players <=? current_players) then
        ([answer None; answer (Some NoSeats)], c)
      else if is_user_joined (db c) gid (user_id user) then
        ([answer None; answer (Some AlreadyBooked)], c)
      else
        match insert_player (db c) gid (user_id user) (user_name user) with
        | None => ([answer None; answer (Some BookError)], c)
        | Some d' =>
            ([answer None;
              send_message (to_name (info_creator_name game))
                (NewParticipant (info_name game) (user_name user)
                   (current_players + 1) max_players);
              answer (Some Booked)]
             ++ game_details gid user (with_db c d'),
             with_db c d')
        end
  end.

(** [cancel_booking].  After the row is deleted the handler calls
    [game_details], which reads the identifier from the second piece of
    ['cancel_booking_<id>'], the word ['booking']: the [ValueError] of [int]
    lands in the handler's own [except]. *)
Definition cancel_booking (gid : Z) (user : User) (c : Context)
  : list Out * Context :=
  if negb (is_user_joined (db c) gid (user_id user)) then
    ([answer None; answer (Some NotBooked)], c)
  else
    let d' := delete_player (db c) gid (user_id user) in
    ([answer None]
     ++ match get_game_info d' gid with
        | Some game =>
            [send_message (to_name (info_creator_name game))
               (ParticipantLeft (info_name game) (user_name user))]
        | None => []
        end
     ++ [answer (Some BookingCancelled); answer None; answer (Some CancelError)],
     with_db c d').

(** [delete_game] *)
Definition delete_game (now : Time.datetime) (gid : Z) (user : User)
  (c : Context) : list Out * Context :=
  if negb (is_user_creator (db c) gid (user_id user)) then
    ([answer None; answer (Some CannotDelete)], c)
  else
    match get_game_info (db c) gid with
    | None => ([answer None; answer (Some GameNotFound)], c)
    | Some game =>
        let participants := map player_user (players_of (db c) gid) in
        let d' :=
          delete_reminders_of
            (delete_players_of (delete_game_row (db c) gid) gid) gid in
        ([answer None; answer (Some GameDeleted)]
         ++ map (fun p => send_message (to_user p) (GameCancelled (info_name game)))
              (filter (fun p => negb (p =? user_id user)) participants)
         ++ show_upcoming_games now (with_db c d'),
         with_db c d')
    end.

(** [button]: the dispatch on the payload's prefix; it answers the query
    before the handler does. *)
Definition button (now : Time.datetime) (cb : Callback) (user : User)
  (c : Context) : list Out * Context :=
  let (out, c') :=
    match cb with
    | cb_upcoming_games => (show_upcoming_games now c, c)
    | cb_create_game => create_game_step1 c
    | cb_game gid => (game_details gid user c, c)
    | cb_book gid => book_game gid user c
    | cb_cancel_booking gid => cancel_booking gid user c
    | cb_delete_game gid => delete_game now gid user c
    | cb_my_bookings => (show_my_bookings now user c, c)
    | cb_back_to_menu => ([edit_message_text Menu], c)
    end in
  (answer None :: out, c').

End Handlers.

(** ** The engine's operations, named as the specification names them

    Each operation is the handler of the source, with the verdict read off
    the text the handler answers with. *)
Module Engine.
Import Store Chat Reminders Handlers.

Inductive JoinResult := Ok | AlreadyJoined | Full | NotFound | JoinFailed.

Definition join_said (m : Msg) : option JoinResult :=
  match m with
  | Booked => Some Ok
  | AlreadyBooked => Some AlreadyJoined
  | NoSeats => Some Full
  | GameNotFound => Some NotFound
  | BookError => Some JoinFailed
  | _ => None
  end.

Inductive CancelResult := CancelOk | NotJoined | CancelNotFound.

Definition cancel_said (m : Msg) : option CancelResult :=
  match m with
  | BookingCancelled => Some CancelOk
  | NotBooked => Some NotJoined
  | _ => None
  end.

Inductive DeleteResult := DeleteOk | NotCreator | DeleteNotFound | DeleteFailed.

Definition delete_said (m : Msg) : option DeleteResult :=
  match m with
  | GameDeleted => Some DeleteOk
  | CannotDelete => Some NotCreator
  | GameNotFound => Some DeleteNotFound
  | DeleteError => Some DeleteFailed
  | _ => None
  end.

(** The first answer with a text that [said] recognises. *)
Fixpoint verdict {R : Type} (said : Msg -> option R) (out : list Out)
  : option R :=
  match out with
  | [] => None
  | answer (Some m) :: rest =>
      match said m with
      | Some r => Some r
      | None => verdict said rest
      end
  | _ :: rest => verdict said rest
  end.

(** The seats are all taken: a positive capacity, reached by the count. *)
Definition is_full (game : GameInfo) : bool :=
  (0 <? info_max_players game)
  && (info_max_players game <=? info_current_players game).

Definition join (gid : Z) (user : User) (c : Context)
  : option JoinResult * Context :=
  let (out, c') := book_game gid user c in (verdict join_said out, c').

Definition cancel (gid : Z) (user : User) (c : Context)
  : option CancelResult * Context :=
  let (out, c') := cancel_booking gid user c in (verdict cancel_said out, c').

Definition deleteEvent (now : Time.datetime) (gid : Z) (user : User)
  (c : Context) : option DeleteResult * Context :=
  let (out, c') := delete_game now gid user c in (verdict delete_said out, c').

Definition getEvent (c : Context) (gid : Z) : option GameInfo :=
  get_game_info (db c) gid.

Definition listUpcoming (c : Context) (now : Time.datetime) : list GameRow :=
  map fst (select_upcoming (db c) now).

(** The users [delete_game] and [send_reminder] write to. *)
Fixpoint notified (out : list Out) : list Z :=
  match out with
  | [] => []
  | send_message (to_user uid) _ :: rest => uid :: notified rest
  | _ :: rest => notified rest
  end.

End Engine.

(** ** The event loop

    One process serves every identity: it keeps the store, one [user_data]
    per identity, the job queue and the clock.  Updates are handled one after
    the other; between them time may pass, and the queue runs the jobs that
    have come due and drops them ([run_once]).  [sys_fired] and [sys_sent]
    only record what happened. *)
Module Loop.
Import Store Chat Reminders Handlers.

Record System := mkSystem {
  sys_db : Database;
  sys_user_data : Z -> UserData;
  sys_job_queue : option JobQueue;
  sys_now : Time.datetime;
  sys_fired : list Job;
  sys_sent : list Out
}.

Inductive Event :=
| ev_message (m : Message)
| ev_callback (user : User) (cb : Callback)
| ev_clock (t : Time.datetime).

Definition boot (with_queue : bool) (t0 : Time.datetime) : System :=
  mkSystem empty_db (fun _ => cleared)
    (if with_queue then Some [] else None) t0 [] [].

Definition context_of (s : System) (uid : Z) : Context :=
  mkContext (sys_db s) (sys_user_data s uid) (sys_job_queue s).

Definition handled (s : System) (uid : Z) (r : list Out * Context) : System :=
  mkSystem (db (snd r))
    (fun u => if u =? uid then user_data (snd r) else sys_user_data s u)
    (job_queue (snd r)) (sys_now s) (sys_fired s) (sys_sent s ++ fst r).

Definition pending (s : System) : JobQueue :=
  match sys_job_queue s with
  | Some q => q
  | None => []
  end.

Definition is_due (t : Time.datetime) (j : Job) : bool := job_when j <=? t.

Definition step (e : Event) (s : System) : System :=
  match e with
  | ev_message m =>
      match handle_message (sys_now s) m (context_of s (user_id (msg_from m))) with
      | Some r => handled s (user_id (msg_from m)) r
      | None => s
      end
  | ev_callback user cb =>
      handled s (user_id user)
        (button (sys_now s) cb user (context_of s (user_id user)))
  | ev_clock t =>
      if t <? sys_now s then s
      else
        let due := filter (is_due t) (pending s) in
        mkSystem (sys_db s) (sys_user_data s)
          (option_map (filter (fun j => negb (is_due t j))) (sys_job_queue s))
          t (sys_fired s ++ due)
          (sys_sent s
           ++ flat_map (fun j => send_reminder (sys_db s) t (job_data j)) due)
  end.

Definition run (events : list Event) (s : System) : System :=
  fold_left (fun acc e => step e acc) events s.

(** A later store relative to an earlier one: the counter has not gone back
    and an identifier handed out before names the row it named, if any. *)
Definition evolves (d d' : Database) : Prop :=
  games_seq d <= games_seq d'
  /\ forall x g, x <= games_seq d ->
                 find_game d' x = Some g -> find_game d x = Some g.

(** What holds of a wizard state at any time: without a pending step it is
    empty, and a capacity it holds is not negative. *)
Definition wizard_ok (u : UserData) : Prop :=
  (ud_action u = None -> u = cleared)
  /\ (forall n, ud_max_players u = Some n -> 0 <= n).

Definition capacities_ok (d : Database) : Prop :=
  forall g, In g (games d) -> 0 <= max_players g.

(** What one handler run does to the part of the system it sees. *)
Definition effect (now : Time.datetime) (c c' : Context) : Prop :=
  consistent (db c) -> wizard_ok (user_data c) -> capacities_ok (db c) ->
  reminders (db c) = [] ->
  consistent (db c') /\ wizard_ok (user_data c') /\ capacities_ok (db c')
  /\ reminders (db c') = [] /\ evolves (db c) (db c')
  /\ (job_queue c' = job_queue c
      \/ exists q gid,
           job_queue c = Some q
           /\ job_queue c' = Some (q ++ armed (db c') now gid)
           /\ games_seq (db c) < gid <= games_seq (db c')).

(** The invariant of the event loop. *)
Record Sound (s : System) : Prop := mkSound {
  sound_store : consistent (sys_db s);
  sound_wizard : forall uid, wizard_ok (sys_user_data s uid);
  sound_capacity : capacities_ok (sys_db s);
  sound_reminders : reminders (sys_db s) = [];
  sound_job_ids :
    forall j, In j (sys_fired s ++ pending s) ->
              snd (job_name j) <= games_seq (sys_db s);
  sound_job_names : NoDup (map job_name (sys_fired s ++ pending s));
  sound_fired_due : forall j, In j (sys_fired s) -> job_when j <= sys_now s;
  sound_job_times :
    forall j g, In j (sys_fired s ++ pending s) ->
                find_game (sys_db s) (snd (job_name j)) = Some g ->
                job_when j = game_date g - offset_seconds (fst (job_name j))
}.

End Loop.

(** ** [book_game] as a coroutine

    The handlers are [async def]: several may be in flight on the one event
    loop, and control passes from one to another only where a handler
    awaits.  [book_game] awaits the transport ([query.answer],
    [bot.send_message], [game_details]) and never the store: the calls on
    [db] are plain synchronous calls.  A task is a call of [book_game]
    stopped at one of its awaits; [resume] runs it to its next await. *)
Module Coroutine.
Import Store Chat Reminders Handlers Engine.

Inductive Point :=
| at_entry                 (* called, nothing run yet *)
| in_first_answer          (* line 350: await query.answer() *)
| in_refusal               (* lines 360, 366, 370: await query.answer(text); return *)
| in_failure               (* line 395, in except: await query.answer(text) *)
| in_notify (game : GameInfo)  (* line 381: await query.bot.send_message(...) *)
| in_success_answer        (* line 390: await query.answer(text) *)
| in_details_answer        (* line 391, in game_details: await query.answer() *)
| in_details_render        (* game_details: await edit_message_text / send_photo *)
| returned.

Record Task := mkTask {
  task_game : Z;
  task_user : User;
  task_point : Point;
  task_out : list Out
}.

Definition spawn (gid : Z) (user : User) : Task :=
  mkTask gid user at_entry [].

Definition moved (t : Task) (p : Point) (out : list Out) : Task :=
  mkTask (task_game t) (task_user t) p (task_out t ++ out).

(** Run [t] from the await it is stopped at to its next await (or to its
    return), on the store [d]. *)
Definition resume (t : Task) (d : Database) : Task * Database :=
  let gid := task_game t in
  let user := task_user t in
  match task_point t with
  | at_entry => (moved t in_first_answer [answer None], d)
  | in_first_answer =>
      match get_game_info d gid with
      | None => (moved t in_refusal [answer (Some GameNotFound)], d)
      | Some game =>
          let max_players := info_max_players game in
          let current_players := info_current_players game in
          if (0 <? max_players) && (max_players <=? current_players) then
            (moved t in_refusal [answer (Some NoSeats)], d)
          else if is_user_joined d gid (user_id user) then
            (moved t in_refusal [answer (Some AlreadyBooked)], d)
          else
            match insert_player d gid (user_id user) (user_name user) with
            | None => (moved t in_failure [answer (Some BookError)], d)
            | Some d' =>
                (moved t (in_notify game)
                   [send_message (to_name (info_creator_name game))
                      (NewParticipant (info_name game) (user_name user)
                         (current_players + 1) max_players)],
                 d')
            end
      end
  | in_refusal => (moved t returned [], d)
  | in_failure => (moved t returned [], d)
  | in_notify _ => (moved t in_success_answer [answer (Some Booked)], d)
  | in_success_answer => (moved t in_details_answer [answer None], d)
  | in_details_answer =>
      (moved t in_details_render
         (tl (game_details gid user (mkContext d cleared None))), d)
  | in_details_render => (moved t returned [], d)
  | returned => (t, d)
  end.

(** The tasks in flight and the store they share. *)
Definition Pool := (Database * list Task)%type.

(** Resume the task at position [i]. *)
Fixpoint resume_at (i : nat) (d : Database) (ts : list Task) : Pool :=
  match ts, i with
  | [], _ => (d, [])
  | t :: rest, O => let (t', d') := resume t d in (d', t' :: rest)
  | t :: rest, S j => let (d', rest') := resume_at j d rest in (d', t :: rest')
  end.

(** An interleaving is the order in which the event loop resumes the tasks. *)
Definition interleave (schedule : list nat) (p : Pool) : Pool :=
  fold_left (fun acc i => resume_at i (fst acc) (snd acc)) schedule p.

Definition task_result (t : Task) : option JoinResult :=
  verdict join_said (task_out t).

Definition has_returned (t : Task) : bool :=
  match task_point t with
  | returned => true
  | _ => false
  end.

Definition JoinResult_eqb (a b : JoinResult) : bool :=
  match a, b with
  | Ok, Ok | AlreadyJoined, AlreadyJoined | Full, Full
  | NotFound, NotFound | JoinFailed, JoinFailed => true
  | _, _ => false
  end.

Definition result_is (r : JoinResult) (t : Task) : bool :=
  match task_result t with
  | Some r' => JoinResult_eqb r r'
  | None => false
  end.

Definition count_result (r : JoinResult) (ts : list Task) : Z :=
  Z.of_nat (List.length (filter (result_is r) ts)).

(** A schedule that runs every task of a pool of [n] tasks to its return:
    eight rounds over all positions. *)
Definition round_robin (n : nat) : list nat :=
  List.concat (repeat (seq 0 n) 8).

(** The number of awaits a task may still have to pass through. *)
Definition steps_left (p : Point) : nat :=
  match p with
  | at_entry => 6
  | in_first_answer => 5
  | in_notify _ => 4
  | in_success_answer => 3
  | in_details_answer => 2
  | in_details_render => 1
  | in_refusal => 1
  | in_failure => 1
  | returned => 0
  end.

Definition total_left (ts : list Task) : nat :=
  list_sum (map (fun t => steps_left (task_point t)) ts).

(** The user of the task has a player row for the task's game. *)
Definition seated (d : Database) (t : Task) : bool :=
  is_user_joined d (task_game t) (user_id (task_user t)).

(** The task has not reached the capacity check yet. *)
Definition waiting (t : Task) : bool :=
  match task_point t with
  | at_entry | in_first_answer => true
  | _ => false
  end.

(** The task has passed the capacity check and was turned away. *)
Definition refused (d : Database) (t : Task) : bool :=
  negb (waiting t) && negb (seated d t).

(** How the place a task is stopped at, what it has answered and the store
    agree, in a race for seats between users who had none. *)
Definition task_ok (d : Database) (t : Task) : Prop :=
  match task_point t with
  | at_entry | in_first_answer => task_result t = None /\ seated d t = false
  | in_notify _ => task_result t = None /\ seated d t = true
  | in_success_answer | in_details_answer | in_details_render =>
      task_result t = Some Ok /\ seated d t = true
  | in_refusal => task_result t = Some Full /\ seated d t = false
  | in_failure => False
  | returned =>
      (task_result t = Some Ok /\ seated d t = true)
      \/ (task_result t = Some Full /\ seated d t = false)
  end.

(** The invariant of a race for the seats of game [gid], whose row is [g]
    and which had [k] participants when the race began. *)
Record Racing (gid : Z) (g : GameRow) (k : Z) (d : Database)
  (ts : list Task) : Prop := mkRacing {
  race_game : find_game d gid = Some g;
  race_tasks : Forall (fun t => task_game t = gid) ts;
  race_distinct : NoDup (map (fun t => user_id (task_user t)) ts);
  race_state : Forall (task_ok d) ts;
  race_count :
    count_players d gid = k + Z.of_nat (List.length (filter (seated d) ts));
  race_bound : count_players d gid <= max_players g;
  race_full : Exists (fun t => refused d t = true) ts ->
              count_players d gid = max_players g
}.

End Coroutine.


(** ** Concrete stores, users and inputs used to exercise the statements *)
Module Scenario.
Import Store Chat Reminders Handlers Engine Loop Coroutine.

(** A game that starts on 31.12.2099 at 18:00, with its creator as only
    player. *)
Definition starting_now : GameRow :=
  mkGame 1 "Chess Night" 66238106400 7 4 "" None.

Definition starting_now_context : Context :=
  mkContext (mkDb [starting_now] [mkPlayer 1 7 None] [] 1) cleared None.

(** A game with a single seat, taken by its creator, user 7: what the
    wizard leaves for the inputs "Go", "31.12.2099 18:00", "1", "/skip". *)
Definition single_seat : GameRow := mkGame 1 "Go" 66238106400 7 1 "" None.

Definition single_seat_context : Context :=
  mkContext (mkDb [single_seat] [mkPlayer 1 7 (Some "ann")] [] 1) cleared None.

Definition ann : User := mkUser 7 (Some "ann").
Definition bob : User := mkUser 8 (Some "bob").
Definition eve : User := mkUser 9 None.

(** A game with four seats of which three are taken, and a reminder row. *)
Definition four_seats : GameRow := mkGame 2 "Catan" 900000 7 4 "bring snacks" None.

Definition four_seats_context : Context :=
  mkContext
    (mkDb [single_seat; four_seats]
       [mkPlayer 1 7 (Some "ann"); mkPlayer 2 7 (Some "ann");
        mkPlayer 2 8 (Some "bob"); mkPlayer 2 9 None]
       [mkReminder 2 8 false] 2)
    cleared None.

(** The five inputs of the "Chess Night" run, and the creation button
    before them. *)
Definition chess_night_inputs (user : User) : list Event :=
  [ev_callback user cb_create_game;
   ev_message (text_from user "Chess Night");
   ev_message (text_from user "31.12.2099 18:00");
   ev_message (text_from user "4");
   ev_message (text_from user "/skip")].

(** 31.12.2099 18:00 and a moment about thirty hours before it. *)
Definition new_year_eve : Time.datetime := 66238106400.
Definition thirty_hours_before : Time.datetime := 66238000000.

(** The game is created thirty hours ahead, then the clock reaches its
    start. *)
Definition reminded_system : System :=
  run (chess_night_inputs ann ++ [ev_clock new_year_eve])
    (boot true thirty_hours_before).


End Scenario.

(** ** The payloads of the inline buttons, as text

    The handlers receive the payload of a pressed button as a string and
    take it apart themselves: [button] picks the handler by prefix, and each
    handler reads the identifier with [int(query.data.split('_')[k])]. *)
Module Router.
Import Store Chat Reminders Handlers.

(** [str(n)] for an integer: decimal digits, a minus sign when negative. *)
Definition digit_char (d : Z) : ascii := ascii_of_nat (48 + Z.to_nat d).

Fixpoint digits_fuel (fuel : nat) (n : Z) (acc : string) : string :=
  match fuel with
  | O => acc
  | S f =>
      if n <? 10 then String (digit_char n) acc
      else digits_fuel f (n / 10) (String (digit_char (n mod 10)) acc)
  end.

Definition str_of_nat_Z (n : Z) : string :=
  digits_fuel (S (Z.to_nat (Z.log2 n))) n "".

Definition str (n : Z) : string :=
  if n <? 0 then String "-" (str_of_nat_Z (- n)) else str_of_nat_Z n.

(** The [callback_data] the keyboards carry: the literals of [menu],
    [show_upcoming_games], [show_my_bookings] and [game_details], and the
    f-strings [f'game_{game_id}'], [f'book_{game_id}'],
    [f'cancel_booking_{game_id}'], [f'delete_game_{game_id}']. *)
Definition payload (cb : Callback) : string :=
  match cb with
  | cb_upcoming_games => "upcoming_games"
  | cb_create_game => "create_game"
  | cb_game gid => "game_" ++ str gid
  | cb_book gid => "book_" ++ str gid
  | cb_cancel_booking gid => "cancel_booking_" ++ str gid
  | cb_delete_game gid => "delete_game_" ++ str gid
  | cb_my_bookings => "my_bookings"
  | cb_back_to_menu => "back_to_menu"
  end.

(** [data.split(sep)]: the pieces between the separators, empty pieces
    included; never an empty list. *)
Fixpoint split (sep : ascii) (s : string) : list string :=
  match s with
  | EmptyString => [EmptyString]
  | String c r =>
      if Ascii.eqb c sep then EmptyString :: split sep r
      else match split sep r with
           | h :: t => String c h :: t
           | [] => [String c EmptyString]
           end
  end.

(** [int(query.data.split('_')[k])]: [None] stands for the [IndexError] of a
    missing piece and for the [ValueError] of [int]. *)
Definition int_piece (k : nat) (data : string) : option Z :=
  match nth_error (split "_" data) k with
  | Some piece => Text.python_int piece
  | None => None
  end.

(** The handlers of [button]. *)
Inductive Route :=
| to_show_upcoming_games
| to_create_game_step1
| to_game_details
| to_book_game
| to_cancel_booking
| to_delete_game
| to_show_my_bookings
| to_menu.

(** The dictionary [handlers] of [button], in its insertion order. *)
Definition handlers : list (string * Route) :=
  [("upcoming_games", to_show_upcoming_games);
   ("create_game", to_create_game_step1);
   ("game_", to_game_details);
   ("book_", to_book_game);
   ("cancel_booking_", to_cancel_booking);
   ("delete_game_", to_delete_game);
   ("my_bookings", to_show_my_bookings);
   ("back_to_menu", to_menu)].

(** The loop of [button]: the first entry whose key the payload starts
    with. *)
Definition route (data : string) : option Route :=
  option_map snd (find (fun h => String.prefix (fst h) data) handlers).

(** [game_details] as it reads the identifier itself: the calls it makes and
    whether it raised (after its first [query.answer()]). *)
Definition game_details_data (data : string) (user : User) (c : Context)
  : list Out * bool :=
  match int_piece 1 data with
  | None => ([answer None], true)
  | Some gid => (game_details gid user c, false)
  end.

(** [book_game] on the raw payload.  The identifier is read before the
    [try]: when that fails the handler stops after its first answer. *)
Definition book_game_data (data : string) (user : User) (c : Context)
  : list Out * Context :=
  match int_piece 1 data with
  | None => ([answer None], c)
  | Some gid =>
      match get_game_info (db c) gid with
      | None => ([answer None; answer (Some GameNotFound)], c)
      | Some game =>
          let max_players := info_max_players game in
          let current_players := info_current_players game in
          if (0 <? max_players) && (max_players <=? current_players) then
            ([answer None; answer (Some NoSeats)], c)
          else if is_user_joined (db c) gid (user_id user) then
            ([answer None; answer (Some AlreadyBooked)], c)
          else
            match insert_player (db c) gid (user_id user) (user_name user) with
            | None => ([answer None; answer (Some BookError)], c)
            | Some d' =>
                let (shown, raised) := game_details_data data user (with_db c d') in
                ([answer None;
                  send_message (to_name (info_creator_name game))
                    (NewParticipant (info_name game) (user_name user)
                       (current_players + 1) max_players);
                  answer (Some Booked)]
                 ++ shown
                 ++ (if raised then [answer (Some BookError)] else []),
                 with_db c d')
            end
      end
  end.

(** [cancel_booking] on the raw payload. *)
Definition cancel_booking_data (data : string) (user : User) (c : Context)
  : list Out * Context :=
  match int_piece 2 data with
  | None => ([answer None], c)
  | Some gid =>
      if negb (is_user_joined (db c) gid (user_id user)) then
        ([answer None; answer (Some NotBooked)], c)
      else
        let d' := delete_player (db c) gid (user_id user) in
        let (shown, raised) := game_details_data data user (with_db c d') in
        ([answer None]
         ++ match get_game_info d' gid with
            | Some game =>
                [send_message (to_name (info_creator_name game))
                   (ParticipantLeft (info_name game) (user_name user))]
            | None => []
            end
         ++ [answer (Some BookingCancelled)]
         ++ shown
         ++ (if raised then [answer (Some CancelError)] else []),
         with_db c d')
  end.

(** [delete_game] on the raw payload. *)
Definition delete_game_data (now : Time.datetime) (data : string)
  (user : User) (c : Context) : list Out * Context :=
  match int_piece 2 data with
  | None => ([answer None], c)
  | Some gid => delete_game now gid user c
  end.

(** [button] on the raw payload: it answers the query, then runs the handler
    of the first matching key, if any. *)
Definition button_data (now : Time.datetime) (data : string) (user : User)
  (c : Context) : list Out * Context :=
  let (out, c') :=
    match route data with
    | None => ([], c)
    | Some to_show_upcoming_games => (show_upcoming_games now c, c)
    | Some to_create_game_step1 => create_game_step1 c
    | Some to_game_details => (fst (game_details_data data user c), c)
    | Some to_book_game => book_game_data data user c
    | Some to_cancel_booking => cancel_booking_data data user c
    | Some to_delete_game => delete_game_data now data user c
    | Some to_show_my_bookings => (show_my_bookings now user c, c)
    | Some to_menu => ([edit_message_text Menu], c)
    end in
  (answer None :: out, c').

End Router.

(** ** Views *)
Module Views.
Import Store Chat Reminders Handlers.

(** The control a rendered game view carries. *)
Fixpoint shown_control (out : list Out) : option Control :=
  match out with
  | [] => None
  | edit_message_text (Details _ _ _ ctl) :: _ => Some ctl
  | send_photo _ (Details _ _ _ ctl) :: _ => Some ctl
  | _ :: rest => shown_control rest
  end.

(** The query of [show_my_bookings]: the games joined with the player rows
    of the user, those not yet started, by start time, each with its number
    of players and whether the user created it. *)
Definition select_my_bookings (d : Database) (uid : Z) (now : Time.datetime)
  : list (GameRow * Z * bool) :=
  map (fun g => (g, count_players d (game_id g), creator_id g =? uid))
    (order_by_date
       (filter (not_before now)
          (flat_map
             (fun g =>
                map (fun _ => g)
                  (filter (fun p => (player_game p =? game_id g)
                                    && (player_user p =? uid))
                     (players d)))
             (games d)))).

(** Position 6 of the tuple of [get_game_info]: the user name in the
    creator's own player row of the game, [None] without such a row. *)
Definition creator_name (d : Database) (gid : Z) (g : GameRow)
  : option string :=
  match find_player d gid (creator_id g) with
  | Some p => username p
  | None => None
  end.

End Views.

(** ** Well-formedness of the store and of the drafts *)
Module Shape.
Import Store Chat Reminders Handlers.

(** The primary key of a player row. *)
Definition player_key (p : PlayerRow) : Z * Z := (player_game p, player_user p).

Definition key_is (gid uid : Z) (p : PlayerRow) : bool :=
  (player_game p =? gid) && (player_user p =? uid).

(** What the code keeps true of the store: no identifier names two games,
    no user has two rows for one game, every player row belongs to a game
    that exists, and no game with a positive capacity holds more
    participants than its capacity. *)
Record Orderly (d : Database) : Prop := mkOrderly {
  ids_unique : NoDup (map game_id (games d));
  keys_unique : NoDup (map player_key (players d));
  no_orphans : forall p, In p (players d) ->
                         find_game d (player_game p) <> None;
  not_oversold : forall gid g, find_game d gid = Some g ->
                               0 < max_players g ->
                               count_players d gid <= max_players g
}.

(** The fields a draft must hold for the step it waits at. *)
Definition draft_ready (u : UserData) : Prop :=
  match ud_action u with
  | Some setting_game_date => ud_game_name u <> None
  | Some setting_max_players | Some setting_description | Some setting_photo =>
      ud_game_name u <> None /\ ud_game_date u <> None
  | Some creating_game | None => True
  end.

(** The step that follows a step. *)
Definition next_step (a : Action) : option Action :=
  match a with
  | creating_game => Some setting_game_date
  | setting_game_date => Some setting_max_players
  | setting_max_players => Some setting_description
  | setting_description => Some setting_photo
  | setting_photo => None
  end.

(** A message as the transport delivers it: one that carries a photo has a
    caption, not a text. *)
Definition delivered (m : Message) : Prop :=
  msg_photo m <> [] -> msg_text m = None.

Definition event_delivered (e : Loop.Event) : Prop :=
  match e with
  | Loop.ev_message m => delivered m
  | _ => True
  end.

(** No photo anywhere: in no draft and in no stored game. *)
Definition photoless (s : Loop.System) : Prop :=
  (forall uid, ud_photo_id (Loop.sys_user_data s uid) = None)
  /\ (forall g, In g (games (Loop.sys_db s)) -> photo_id g = None).

(** Every draft of the system holds what its pending step needs. *)
Definition drafts_ready (s : Loop.System) : Prop :=
  forall uid, draft_ready (Loop.sys_user_data s uid).

(** The photo message of a user, as the transport delivers it. *)
Definition photo_from (user : User) (file_ids : list string) : Message :=
  mkMessage None file_ids user.

End Shape.

(* ================================================================== *)
(** * Part II - properties                                             *)
(* ================================================================== *)

(** ** Time and the text of a stored date *)
Module TimeFacts.
Import Time.

Lemma year_start_eq (y : Z) : year_start y = (days_before_year y + 1) * 86400.
Proof. unfold year_start, ymd2ord, days_before_month. cbn. f_equal. lia. Qed.

Lemma year_start_mono (y y' : Z) : y < y' -> year_start y < year_start y'.
Proof.
  rewrite !year_start_eq. unfold days_before_year. intros H.
  Z.to_euclidean_division_equations; lia.
Qed.

Lemma year_start_le (y y' : Z) : y <= y' -> year_start y <= year_start y'.
Proof.
  intros H. destruct (Z.eq_dec y y') as [->|Hne]; [lia|].
  pose proof (year_start_mono y y'). lia.
Qed.

(** A datetime lies in the year [year_of] gives. *)
Lemma year_of_spec (t : datetime) :
  86400 <= t -> year_start (year_of t) <= t < year_start (year_of t + 1).
Proof.
  intros H. rewrite !year_start_eq. unfold year_of, days_before_year. cbv zeta.
  destruct ((_ =? 4) || (_ =? 4)) eqn:E.
  - apply orb_true_iff in E.
    destruct E as [E|E]; apply Z.eqb_eq in E;
      Z.to_euclidean_division_equations; lia.
  - apply orb_false_iff in E as [E1 E2]. apply Z.eqb_neq in E1, E2.
    Z.to_euclidean_division_equations; lia.
Qed.

Lemma year_of_unique (t : datetime) (y : Z) :
  86400 <= t -> year_start y <= t < year_start (y + 1) -> year_of t = y.
Proof.
  intros Ht Hy. pose proof (year_of_spec t Ht) as Hs.
  destruct (Z.lt_trichotomy (year_of t) y) as [H|[H|H]]; [|exact H|].
  - pose proof (year_start_le (year_of t + 1) y ltac:(lia)). lia.
  - pose proof (year_start_le (y + 1) (year_of t) ltac:(lia)). lia.
Qed.

Lemma days_before_month_bounds (y m d : Z) :
  1 <= m <= 12 -> 1 <= d <= days_in_month y m ->
  1 <= days_before_month y m + d <= (if is_leap y then 366 else 365).
Proof.
  intros Hm Hd.
  assert (E : m = 1 \/ m = 2 \/ m = 3 \/ m = 4 \/ m = 5 \/ m = 6 \/ m = 7
              \/ m = 8 \/ m = 9 \/ m = 10 \/ m = 11 \/ m = 12) by lia.
  revert Hd. unfold days_before_month. clear Hm.
  repeat (destruct E as [->|E]); try subst m;
    match goal with
    | |- context [Z.to_nat ?k] =>
        let n := eval vm_compute in (Z.to_nat k) in
        change (Z.to_nat k) with n
    end;
    cbn [days_before_month_aux Z.of_nat Pos.of_succ_nat Pos.succ];
    unfold days_in_month; cbn [Z.eqb Pos.eqb orb];
    destruct (is_leap y); lia.
Qed.

Lemma year_length (y : Z) :
  year_start (y + 1) - year_start y
  = (if is_leap y then 366 else 365) * 86400.
Proof.
  rewrite !year_start_eq. unfold days_before_year, is_leap. cbv zeta.
  destruct (Z.eqb_spec (y mod 4) 0); destruct (Z.eqb_spec (y mod 100) 0);
    destruct (Z.eqb_spec (y mod 400) 0); cbn [andb orb negb];
    Z.to_euclidean_division_equations; lia.
Qed.

(** The year of a datetime is the year it was built with. *)
Lemma year_of_mk_datetime (y m d hh mm : Z) (t : datetime) :
  mk_datetime y m d hh mm = Some t -> year_of t = y /\ 1 <= y <= 9999.
Proof.
  unfold mk_datetime.
  destruct (_ && _) eqn:E; [|discriminate]. intros H. injection H as <-.
  repeat (apply andb_true_iff in E as [E ?]).
  repeat match goal with H : (_ <=? _) = true |- _ => apply Z.leb_le in H end.
  split; [|lia].
  pose proof (days_before_month_bounds y m d ltac:(lia) ltac:(lia)) as Hb.
  pose proof (year_length y) as Hl.
  assert (Hy0 : 0 <= days_before_year y)
    by (unfold days_before_year; Z.to_euclidean_division_equations; lia).
  apply year_of_unique.
  - unfold ymd2ord. lia.
  - revert Hb Hl. rewrite !year_start_eq. unfold ymd2ord.
    destruct (is_leap y); lia.
Qed.

Lemma four_digit_year_bounds (t : datetime) :
  four_digit_year t = true <-> year_start 1000 <= t < year_start 10000.
Proof.
  unfold four_digit_year. rewrite andb_true_iff, Z.leb_le, Z.ltb_lt. tauto.
Qed.

Lemma year_start_1000 : 86400 <= year_start 1000.
Proof. vm_compute. discriminate. Qed.

Lemma year_of_four_digit (t : datetime) :
  four_digit_year t = true -> 86400 <= t /\ 1000 <= year_of t <= 9999.
Proof.
  intros H. apply four_digit_year_bounds in H as [H1 H2].
  pose proof year_start_1000 as H0.
  assert (Ht : 86400 <= t) by lia.
  pose proof (year_of_spec t Ht) as [Ha Hb].
  split; [exact Ht|]. split.
  - destruct (Z.le_gt_cases 1000 (year_of t)); [assumption|].
    pose proof (year_start_le (year_of t + 1) 1000 ltac:(lia)). lia.
  - destruct (Z.le_gt_cases (year_of t) 9999); [assumption|].
    pose proof (year_start_le 10000 (year_of t) ltac:(lia)). lia.
Qed.

(** A datetime built for a year has a four-digit year exactly when the year
    is 1000 or later. *)
Lemma four_digit_year_mk_datetime (y m d hh mm : Z) (t : datetime) :
  mk_datetime y m d hh mm = Some t -> four_digit_year t = (1000 <=? y).
Proof.
  intros H. destruct (year_of_mk_datetime _ _ _ _ _ _ H) as [Hy Hr].
  assert (Ht : 86400 <= t).
  { revert H. unfold mk_datetime. destruct (_ && _) eqn:E; [|discriminate].
    intros H. injection H as <-.
    repeat (apply andb_true_iff in E as [E ?]).
    repeat match goal with H : (_ <=? _) = true |- _ => apply Z.leb_le in H end.
    pose proof (days_before_month_bounds y m d ltac:(lia) ltac:(lia)).
    assert (0 <= days_before_year y)
      by (unfold days_before_year; Z.to_euclidean_division_equations; lia).
    unfold ymd2ord. lia. }
  pose proof (year_of_spec t Ht) as [Ha Hb]. rewrite Hy in Ha, Hb.
  destruct (Z.leb_spec 1000 y) as [Hle|Hgt].
  - apply four_digit_year_bounds.
    pose proof (year_start_le 1000 y Hle).
    pose proof (year_start_le (y + 1) 10000 ltac:(lia)). lia.
  - destruct (four_digit_year t) eqn:E; [|reflexivity].
    apply four_digit_year_bounds in E.
    pose proof (year_start_le (y + 1) 1000 ltac:(lia)). lia.
Qed.

Lemma digit_compare (a b : Z) :
  0 <= a <= 9 -> 0 <= b <= 9 -> Ascii.compare (digit a) (digit b) = (a ?= b).
Proof.
  intros Ha Hb.
  assert (Ea : a = 0 \/ a = 1 \/ a = 2 \/ a = 3 \/ a = 4 \/ a = 5 \/ a = 6
               \/ a = 7 \/ a = 8 \/ a = 9) by lia.
  assert (Eb : b = 0 \/ b = 1 \/ b = 2 \/ b = 3 \/ b = 4 \/ b = 5 \/ b = 6
               \/ b = 7 \/ b = 8 \/ b = 9) by lia.
  repeat (destruct Ea as [->|Ea]); try subst a;
    repeat (destruct Eb as [->|Eb]); try subst b; reflexivity.
Qed.

(** A year of four digits is written in full by [strftime] too. *)
Lemma drop_zeros_four_digit (y : Z) :
  1000 <= y <= 9999 -> drop_zeros (year_digits y) = year_digits y.
Proof.
  intros H. unfold year_digits. cbn [drop_zeros].
  destruct (Z.eqb_spec (y / 1000) 0) as [E|E]; [|reflexivity].
  exfalso. Z.to_euclidean_division_equations; lia.
Qed.

(** Years of four digits order as text as they do as numbers. *)
Lemma year_dash_compare (x y : Z) :
  1000 <= x <= 9999 -> 1000 <= y <= 9999 ->
  String.compare (year_dash (year_digits x)) (year_dash (year_digits y))
  = (x ?= y).
Proof.
  intros Hx Hy. unfold year_dash, year_digits.
  cbn [map string_of_list_ascii String.append String.compare].
  rewrite !digit_compare by (Z.to_euclidean_division_equations; lia).
  destruct (Z.compare_spec (x / 1000) (y / 1000));
    destruct (Z.compare_spec ((x / 100) mod 10) ((y / 100) mod 10));
    destruct (Z.compare_spec ((x / 10) mod 10) ((y / 10) mod 10));
    destruct (Z.compare_spec (x mod 10) (y mod 10));
    cbn; symmetry;
    first [ apply Z.compare_eq_iff | apply Z.compare_lt_iff
          | apply Z.compare_gt_iff ];
    Z.to_euclidean_division_equations; lia.
Qed.

Lemma text_compare_years (da db : list Z) (a b : datetime) :
  four_digit_year a = true -> four_digit_year b = true ->
  da = year_digits (year_of a) -> db = year_digits (year_of b) ->
  text_compare (mkText (year_dash da) (a - year_start (year_of a)))
               (mkText (year_dash db) (b - year_start (year_of b)))
  = (a ?= b).
Proof.
  intros Ha Hb -> ->.
  pose proof (year_of_four_digit a Ha) as [Hta Hya].
  pose proof (year_of_four_digit b Hb) as [Htb Hyb].
  unfold text_compare. cbn [text_year text_rest].
  rewrite year_dash_compare by assumption.
  pose proof (year_of_spec a Hta) as Hsa.
  pose proof (year_of_spec b Htb) as Hsb.
  destruct (Z.compare_spec (year_of a) (year_of b)) as [E|E|E].
  - rewrite E. destruct (Z.compare_spec a b);
      [apply Z.compare_eq_iff | apply Z.compare_lt_iff | apply Z.compare_gt_iff];
      lia.
  - symmetry. apply Z.compare_lt_iff.
    pose proof (year_start_le (year_of a + 1) (year_of b) ltac:(lia)). lia.
  - symmetry. apply Z.compare_gt_iff.
    pose proof (year_start_le (year_of b + 1) (year_of a) ltac:(lia)). lia.
Qed.

(** The texts of two datetimes with four-digit years order as the datetimes
    do. *)
Lemma stored_texts_order (a b : datetime) :
  four_digit_year a = true -> four_digit_year b = true ->
  text_compare (strftime_canonical a) (strftime_canonical b) = (a ?= b).
Proof.
  intros Ha Hb. unfold strftime_canonical.
  apply text_compare_years; try assumption;
    apply drop_zeros_four_digit, year_of_four_digit; assumption.
Qed.

Lemma stored_text_against_now (a now : datetime) :
  four_digit_year a = true -> four_digit_year now = true ->
  text_compare (strftime_canonical a) (sqlite_datetime now) = (a ?= now).
Proof.
  intros Ha Hb. unfold strftime_canonical, sqlite_datetime.
  apply text_compare_years; try assumption; [|reflexivity].
  apply drop_zeros_four_digit, year_of_four_digit; assumption.
Qed.

(** Before year 1000 the text no longer follows the time: in 2099 the text
    of 01.01.0999 10:00 is above the text of the current time, and above
    the text of a date in 2099. *)
Lemma stored_text_of_year_999 :
  mk_datetime 999 1 1 10 0 = Some 31493959200
  /\ four_digit_year 31493959200 = false
  /\ text_year (strftime_canonical 31493959200) = "999-"
  /\ text_compare (strftime_canonical 31493959200)
       (sqlite_datetime 66238000000) = Gt
  /\ text_compare (strftime_canonical 31493959200)
       (strftime_canonical 66238106400) = Gt.
Proof. vm_compute. repeat split. Qed.

(** A date the wizard's date step accepts is a datetime built by
    [mk_datetime]: its year is from 1 to 9999, and its text has a year of
    four digits exactly when the year is 1000 or later. *)
Lemma strptime_display_year (text : string) (t : datetime) :
  Text.strptime_display text = Some t ->
  1 <= year_of t <= 9999 /\ four_digit_year t = (1000 <=? year_of t).
Proof.
  unfold Text.strptime_display.
  repeat match goal with
         | |- context [match ?x with _ => _ end] =>
             lazymatch x with
             | Time.mk_datetime _ _ _ _ _ => fail
             | _ => destruct x eqn:?
             end
         | |- None = Some _ -> _ => discriminate
         end.
  intros H. pose proof (year_of_mk_datetime _ _ _ _ _ _ H) as [Hy Hr].
  rewrite (four_digit_year_mk_datetime _ _ _ _ _ _ H), Hy. auto.
Qed.

End TimeFacts.

(** ** The store *)
Module StoreFacts.
Import Store TimeFacts.

Lemma find_game_id (d : Database) (gid : Z) (g : GameRow) :
  find_game d gid = Some g -> game_id g = gid /\ In g (games d).
Proof.
  unfold find_game. intros H. apply find_some in H as [Hin Heq].
  split; [lia | exact Hin].
Qed.

Lemma get_game_info_found (d : Database) (gid : Z) (g : GameRow) :
  find_game d gid = Some g ->
  exists i, get_game_info d gid = Some i
            /\ info_name i = game_name g /\ info_date i = game_date g
            /\ info_max_players i = max_players g
            /\ info_current_players i = count_players d gid.
Proof.
  intros H. unfold get_game_info. rewrite H. eexists. split; [reflexivity|].
  simpl. auto.
Qed.

Lemma get_game_info_inv (d : Database) (gid : Z) (i : GameInfo) :
  get_game_info d gid = Some i ->
  exists g, find_game d gid = Some g
            /\ info_name i = game_name g /\ info_date i = game_date g
            /\ info_max_players i = max_players g
            /\ info_current_players i = count_players d gid.
Proof.
  unfold get_game_info. destruct (find_game d gid) as [g|]; [|discriminate].
  intros H. inversion H; subst; clear H. exists g. simpl. auto.
Qed.

Lemma get_game_info_missing (d : Database) (gid : Z) :
  find_game d gid = None <-> get_game_info d gid = None.
Proof.
  unfold get_game_info. destruct (find_game d gid); split; congruence.
Qed.

Lemma find_filter_out {A : Type} (f : A -> bool) (l : list A) :
  find f (filter (fun x => negb (f x)) l) = None.
Proof.
  induction l as [|a l IH]; simpl; [reflexivity|].
  destruct (f a) eqn:E; simpl; [exact IH|]. rewrite E. exact IH.
Qed.

Lemma filter_filter_out {A : Type} (f : A -> bool) (l : list A) :
  filter f (filter (fun x => negb (f x)) l) = [].
Proof.
  induction l as [|a l IH]; simpl; [reflexivity|].
  destruct (f a) eqn:E; simpl; [exact IH|]. rewrite E. exact IH.
Qed.

Lemma insert_by_date_In (g x : GameRow) (l : list GameRow) :
  In x (insert_by_date g l) <-> x = g \/ In x l.
Proof.
  induction l as [|h t IH]; simpl.
  - intuition.
  - destruct (stored_date_leb g h); simpl; [intuition|].
    rewrite IH. intuition.
Qed.

Lemma order_by_date_In (x : GameRow) (l : list GameRow) :
  In x (order_by_date l) <-> In x l.
Proof.
  induction l as [|h t IH]; simpl; [tauto|].
  rewrite insert_by_date_In, IH. intuition.
Qed.

(** A row whose start time has a year of four digits. *)
Lemma stored_date_leb_plain (g h : GameRow) :
  Time.four_digit_year (game_date g) = true ->
  Time.four_digit_year (game_date h) = true ->
  stored_date_leb g h = (game_date g <=? game_date h).
Proof.
  intros Hg Hh. unfold stored_date_leb, stored_date.
  rewrite stored_texts_order by assumption.
  unfold Z.leb. destruct (game_date g ?= game_date h); reflexivity.
Qed.

Lemma not_before_plain (now : Time.datetime) (g : GameRow) :
  Time.four_digit_year now = true ->
  Time.four_digit_year (game_date g) = true ->
  not_before now g = (now <=? game_date g).
Proof.
  intros Hn Hg. unfold not_before, stored_date.
  rewrite stored_text_against_now by assumption.
  rewrite Z.leb_antisym, Z.ltb_compare.
  destruct (game_date g ?= now); reflexivity.
Qed.

Lemma insert_by_date_sorted (g : GameRow) (l : list GameRow) :
  Time.four_digit_year (game_date g) = true ->
  Forall (fun h => Time.four_digit_year (game_date h) = true) l ->
  StronglySorted date_le l -> StronglySorted date_le (insert_by_date g l).
Proof.
  intros Hg Hl. induction 1 as [|h t Hs IH Hall]; simpl.
  - constructor; constructor.
  - apply Forall_cons_iff in Hl as [Hh Ht].
    rewrite stored_date_leb_plain by assumption.
    destruct (game_date g <=? game_date h) eqn:E.
    + apply Z.leb_le in E. constructor.
      * constructor; assumption.
      * constructor; [unfold date_le; lia|].
        eapply Forall_impl; [|exact Hall].
        unfold date_le. intros; lia.
    + apply Z.leb_gt in E. constructor; [exact (IH Ht)|].
      apply Forall_forall. intros x Hx.
      apply insert_by_date_In in Hx as [->|Hx]; [unfold date_le; lia|].
      rewrite Forall_forall in Hall. auto.
Qed.

Lemma order_by_date_sorted (l : list GameRow) :
  Forall (fun h => Time.four_digit_year (game_date h) = true) l ->
  StronglySorted date_le (order_by_date l).
Proof.
  induction l as [|h t IH]; simpl; intros Hl; [constructor|].
  apply Forall_cons_iff in Hl as [Hh Ht].
  apply insert_by_date_sorted; [exact Hh| |exact (IH Ht)].
  apply Forall_forall. intros x Hx. rewrite order_by_date_In in Hx.
  rewrite Forall_forall in Ht. auto.
Qed.

End StoreFacts.

(** ** Listing the upcoming games *)
Module Upcoming.
Import Store Handlers Engine Scenario StoreFacts.

Lemma listUpcoming_eq (c : Context) (now : Time.datetime) :
  listUpcoming c now
  = order_by_date (filter (not_before now) (games (db c))).
Proof.
  unfold listUpcoming, select_upcoming. rewrite map_map. simpl.
  apply map_id.
Qed.

(** C7, as the code has it: where the current time and every stored start
    time lie in the years 1000 to 9999, [listUpcoming] returns exactly the
    stored events whose start time is at or after the moment of the query
    (so never one whose start time is in the past), in ascending order of
    start time.  The query compares and orders the stored texts, and the
    text of an earlier year has a year of fewer than four digits. *)
Theorem listUpcoming_not_past_ascending (c : Context) (now : Time.datetime) :
  Time.four_digit_year now = true ->
  (forall g, In g (games (db c)) -> Time.four_digit_year (game_date g) = true) ->
  (forall g, In g (listUpcoming c now)
             <-> In g (games (db c)) /\ now <= game_date g)
  /\ StronglySorted date_le (listUpcoming c now).
Proof.
  intros Hnow Hall. rewrite listUpcoming_eq. split.
  - intros g. rewrite order_by_date_In, filter_In. split.
    + intros [Hin Hnb]. split; [exact Hin|].
      rewrite not_before_plain in Hnb by auto. apply Z.leb_le. exact Hnb.
    + intros [Hin Hle]. split; [exact Hin|].
      rewrite not_before_plain by auto. apply Z.leb_le. exact Hle.
  - apply order_by_date_sorted. apply Forall_forall. intros g Hg.
    apply filter_In in Hg as [Hg _]. auto.
Qed.

Lemma listUpcoming_not_past_ascending_witness :
  Time.four_digit_year new_year_eve = true
  /\ (forall g, In g (games (db starting_now_context)) ->
                Time.four_digit_year (game_date g) = true)
  /\ (In starting_now (listUpcoming starting_now_context new_year_eve)
      <-> In starting_now (games (db starting_now_context))
          /\ new_year_eve <= game_date starting_now).
Proof.
  assert (H1 : Time.four_digit_year new_year_eve = true)
    by (vm_compute; reflexivity).
  assert (H2 : forall g, In g (games (db starting_now_context)) ->
                         Time.four_digit_year (game_date g) = true)
    by (intros g [<-|[]]; vm_compute; reflexivity).
  split; [exact H1|]. split; [exact H2|].
  exact (proj1 (listUpcoming_not_past_ascending starting_now_context
                  new_year_eve H1 H2) starting_now).
Defined.

(** C7 as stated fails at the boundary: an event that starts at the very
    moment of the query is listed, and its start time is not strictly in the
    future. *)
Lemma listUpcoming_lists_event_starting_now :
  In starting_now (listUpcoming starting_now_context (game_date starting_now))
  /\ ~ (game_date starting_now < game_date starting_now).
Proof.
  split; [vm_compute; left; reflexivity | lia].
Qed.

(** Before year 1000 the query does not follow the time: in 2099 a game of
    the year 999 is listed, after a game of 2099. *)
Lemma listUpcoming_lists_year_999 :
  listUpcoming
    (mkContext
       (mkDb [mkGame 1 "Old" 31493959200 7 0 "" None; starting_now] [] [] 2)
       cleared None)
    thirty_hours_before
  = [starting_now; mkGame 1 "Old" 31493959200 7 0 "" None].
Proof. vm_compute. reflexivity. Qed.

End Upcoming.

(** ** What a reminder job does when it runs *)
Module ReminderRun.
Import Store Chat Reminders Handlers Engine Scenario StoreFacts.

Lemma send_reminder_found (d : Database) (now : Time.datetime) (gid : Z)
  (g : GameRow) :
  find_game d gid = Some g ->
  send_reminder d now gid
  = map (fun p =>
           send_message (to_user (player_user p))
             (Reminder (game_name g)
                (if now <? game_date g - Time.timedelta_hours 23
                 then one_day else one_hour)
                (game_date g)))
      (players_of d gid).
Proof.
  intros H. unfold send_reminder, get_game_info. rewrite H.
  cbn [info_date info_name]. unfold get_game_participants.
  rewrite map_map. reflexivity.
Qed.

Lemma send_reminder_notifies_participants
  (d : Database) (now : Time.datetime) (gid : Z) (g : GameRow) :
  find_game d gid = Some g ->
  notified (send_reminder d now gid) = map player_user (players_of d gid).
Proof.
  intros H. rewrite (send_reminder_found d now gid g H).
  induction (players_of d gid) as [|p l IH]; simpl; [reflexivity|].
  f_equal. exact IH.
Qed.

(** C8: a reminder job that runs for an event that no longer exists sends
    nothing; otherwise it writes to every participant, and the text says
    "1 day" when strictly more than 23 hours remain until the start at the
    moment it runs, "1 hour" otherwise. *)
Theorem send_reminder_checks_event_and_time_left
  (d : Database) (now : Time.datetime) (gid : Z) :
  match find_game d gid with
  | None => send_reminder d now gid = []
  | Some g =>
      send_reminder d now gid
      = map (fun p =>
               send_message (to_user (player_user p))
                 (Reminder (game_name g)
                    (if Time.timedelta_hours 23 <? game_date g - now
                     then one_day else one_hour)
                    (game_date g)))
          (players_of d gid)
  end.
Proof.
  destruct (find_game d gid) as [g|] eqn:Hg.
  - rewrite (send_reminder_found d now gid g Hg).
    assert (E : (now <? game_date g - Time.timedelta_hours 23)
                = (Time.timedelta_hours 23 <? game_date g - now)).
    { destruct (Z.ltb_spec (Time.timedelta_hours 23) (game_date g - now));
        destruct (Z.ltb_spec now (game_date g - Time.timedelta_hours 23));
        try reflexivity; lia. }
    rewrite E. reflexivity.
  - unfold send_reminder. apply get_game_info_missing in Hg. rewrite Hg.
    reflexivity.
Qed.

(** The two texts at the boundary: with exactly 23 hours left the job says
    "1 hour", one second earlier it says "1 day"; a job for a deleted game
    says nothing. *)
Lemma send_reminder_at_the_boundary :
  send_reminder (db single_seat_context) (66238106400 - 82800) 1
  = [send_message (to_user 7) (Reminder "Go" one_hour 66238106400)]
  /\ send_reminder (db single_seat_context) (66238106400 - 82801) 1
     = [send_message (to_user 7) (Reminder "Go" one_day 66238106400)]
  /\ send_reminder (db single_seat_context) 0 2 = [].
Proof. repeat split. Qed.

End ReminderRun.

(** ** Joining *)
Module Joining.
Import Store Chat Reminders Handlers Engine Scenario StoreFacts.

Lemma join_cases (gid : Z) (user : User) (c : Context) :
  join gid user c =
  match get_game_info (db c) gid with
  | None => (Some NotFound, c)
  | Some game =>
      if is_full game then (Some Full, c)
      else if is_user_joined (db c) gid (user_id user)
           then (Some AlreadyJoined, c)
      else (Some Ok,
            with_db c
              (mkDb (games (db c))
                 (players (db c) ++ [mkPlayer gid (user_id user) (user_name user)])
                 (reminders (db c)) (games_seq (db c))))
  end.
Proof.
  unfold join, book_game, is_full.
  destruct (get_game_info (db c) gid) as [game|]; [|reflexivity].
  destruct ((0 <? info_max_players game)
            && (info_max_players game <=? info_current_players game));
    [reflexivity|].
  unfold insert_player.
  destruct (is_user_joined (db c) gid (user_id user)); reflexivity.
Qed.

Lemma is_full_spec (game : GameInfo) :
  is_full game = true
  <-> 0 < info_max_players game
      /\ info_max_players game <= info_current_players game.
Proof.
  unfold is_full. rewrite andb_true_iff, Z.ltb_lt, Z.leb_le. tauto.
Qed.

Lemma count_players_app (d : Database) (gid uid : Z) (n : option string) :
  count_players
    (mkDb (games d) (players d ++ [mkPlayer gid uid n]) (reminders d)
       (games_seq d)) gid
  = count_players d gid + 1.
Proof.
  unfold count_players, players_of. simpl. rewrite filter_app, length_app.
  simpl. rewrite Z.eqb_refl. simpl. lia.
Qed.

(** C6, as the code has it: for a join on an existing event, capacity 0
    never gives [Full]; a positive capacity gives [Full] exactly when the
    count of participants is at least the capacity; a join by an identity
    already recorded inserts no second row and returns [AlreadyJoined] when
    the event is not full, [Full] when it is (the capacity check comes
    first); any other join returns [Ok] and adds one row. *)
Theorem join_capacity_rule (gid : Z) (user : User) (c : Context)
  (game : GameInfo) :
  getEvent c gid = Some game ->
  (info_max_players game = 0 -> fst (join gid user c) <> Some Full)
  /\ (0 < info_max_players game ->
      (fst (join gid user c) = Some Full
       <-> info_max_players game <= info_current_players game))
  /\ (is_user_joined (db c) gid (user_id user) = true ->
      snd (join gid user c) = c
      /\ fst (join gid user c)
         = Some (if is_full game then Full else AlreadyJoined))
  /\ (is_user_joined (db c) gid (user_id user) = false ->
      is_full game = false ->
      fst (join gid user c) = Some Ok
      /\ count_players (db (snd (join gid user c))) gid
         = info_current_players game + 1).
Proof.
  unfold getEvent. intros Hg. rewrite join_cases, Hg.
  pose proof (is_full_spec game) as Hf.
  destruct (is_full game) eqn:Ef;
    destruct (is_user_joined (db c) gid (user_id user)) eqn:Ej; simpl;
    repeat split; intros; try congruence; try discriminate;
    try (apply Hf; reflexivity);
    try (exfalso; destruct Hf as [Hf _]; specialize (Hf eq_refl); lia);
    try (exfalso; destruct Hf as [_ Hf]; assert (true = false) by
           (rewrite <- Ef at 1; symmetry; apply Hf; lia); discriminate).
  - destruct Hf as [_ Hf]. enough (false = true) by discriminate. apply Hf. lia.
  - destruct Hf as [_ Hf]. enough (false = true) by discriminate. apply Hf. lia.
  - rewrite count_players_app. apply get_game_info_inv in Hg.
    destruct Hg as (g & _ & _ & _ & _ & Hc). lia.
Qed.

Lemma join_capacity_rule_witness :
  getEvent four_seats_context 2 = Some (mkInfo "Catan" 900000 4 "bring snacks" None 3 (Some "ann"))
  /\ fst (join 2 eve four_seats_context) = Some AlreadyJoined
  /\ fst (join 2 (mkUser 10 None) four_seats_context) = Some Ok.
Proof.
  split; [reflexivity|].
  pose proof (join_capacity_rule 2 eve four_seats_context _ eq_refl)
    as (_ & _ & H & _).
  pose proof (join_capacity_rule 2 (mkUser 10 None) four_seats_context _ eq_refl)
    as (_ & _ & _ & H').
  split; [exact (proj2 (H eq_refl)) | exact (proj1 (H' eq_refl eq_refl))].
Defined.

(** C6 as stated fails where its two rules meet: the only seat of the event
    is taken by user 7, who joins again; the answer is [Full], not
    [AlreadyJoined]. *)
Lemma join_again_on_full_event_is_Full :
  is_user_joined (db single_seat_context) 1 (user_id ann) = true
  /\ fst (join 1 ann single_seat_context) = Some Full
  /\ fst (join 1 ann single_seat_context) <> Some AlreadyJoined.
Proof.
  repeat split; [reflexivity .. | discriminate].
Qed.

End Joining.

(** ** Deleting *)
Module Deleting.
Import Store Chat Reminders Handlers Engine Scenario StoreFacts Joining.

Lemma notified_app (a b : list Out) :
  notified (a ++ b) = notified a ++ notified b.
Proof.
  induction a as [|o a IH]; simpl; [reflexivity|].
  destruct o as [| | | |[uid|n] m]; simpl; rewrite IH; reflexivity.
Qed.

Lemma notified_send (f : Z -> Msg) (l : list Z) :
  notified (map (fun p => send_message (to_user p) (f p)) l) = l.
Proof.
  induction l as [|x l IH]; simpl; [reflexivity|]. rewrite IH. reflexivity.
Qed.

Lemma notified_show_upcoming (now : Time.datetime) (c : Context) :
  notified (show_upcoming_games now c) = [].
Proof.
  unfold show_upcoming_games. destruct (select_upcoming (db c) now); reflexivity.
Qed.

Lemma find_game_other (l : list GameRow) (gid x : Z) :
  x <> gid ->
  find (fun g => game_id g =? x) (filter (fun g => negb (game_id g =? gid)) l)
  = find (fun g => game_id g =? x) l.
Proof.
  intros Hx. induction l as [|g l IH]; simpl; [reflexivity|].
  destruct (Z.eqb_spec (game_id g) gid) as [E|E]; simpl.
  - destruct (Z.eqb_spec (game_id g) x); [lia | exact IH].
  - rewrite IH. reflexivity.
Qed.

Lemma players_other (l : list PlayerRow) (gid x : Z) :
  x <> gid ->
  filter (fun p => player_game p =? x)
    (filter (fun p => negb (player_game p =? gid)) l)
  = filter (fun p => player_game p =? x) l.
Proof.
  intros Hx. induction l as [|p l IH]; simpl; [reflexivity|].
  destruct (Z.eqb_spec (player_game p) gid) as [E|E]; simpl.
  - destruct (Z.eqb_spec (player_game p) x); [lia | exact IH].
  - rewrite IH. reflexivity.
Qed.

Lemma not_joined_without_rows (d : Database) (gid uid : Z) :
  players_of d gid = [] -> is_user_joined d gid uid = false.
Proof.
  unfold is_user_joined, find_player, players_of. intros H.
  destruct (find _ (players d)) as [p|] eqn:E; [|reflexivity].
  apply find_some in E as [Hin Hp]. apply andb_true_iff in Hp as [Hg _].
  assert (In p (filter (fun p => player_game p =? gid) (players d)))
    by (apply filter_In; split; assumption).
  rewrite H in *. contradiction.
Qed.

Lemma deleteEvent_cases (now : Time.datetime) (gid : Z) (user : User)
  (c : Context) (g : GameRow) :
  find_game (db c) gid = Some g ->
  deleteEvent now gid user c
  = if creator_id g =? user_id user
    then (Some DeleteOk, with_db c (without (db c) gid))
    else (Some NotCreator, c).
Proof.
  intros Hg. unfold deleteEvent, delete_game, is_user_creator, get_game_info.
  rewrite Hg. destruct (creator_id g =? user_id user); reflexivity.
Qed.

(** C5, as the code has it: on an existing event a requester who is not its
    creator gets [NotCreator] and nothing changes; the creator gets [Ok], the
    event, every participant row and every reminder row of it are removed
    (and nothing of any other event), every participant recorded before the
    deletion other than the creator is notified, and afterwards [getEvent]
    and [join] on that identifier report the event as not found while
    [cancel] reports [NotJoined]. *)
Theorem deleteEvent_by_creator_only (now : Time.datetime) (gid : Z)
  (user : User) (c : Context) (g : GameRow) :
  find_game (db c) gid = Some g ->
  (creator_id g <> user_id user ->
   deleteEvent now gid user c = (Some NotCreator, c))
  /\ (creator_id g = user_id user ->
      fst (deleteEvent now gid user c) = Some DeleteOk
      /\ getEvent (snd (deleteEvent now gid user c)) gid = None
      /\ players_of (db (snd (deleteEvent now gid user c))) gid = []
      /\ filter (fun r => reminder_game r =? gid)
           (reminders (db (snd (deleteEvent now gid user c)))) = []
      /\ notified (fst (delete_game now gid user c))
         = filter (fun p => negb (p =? user_id user))
             (map player_user (players_of (db c) gid))
      /\ (forall u, fst (join gid u (snd (deleteEvent now gid user c)))
                    = Some NotFound)
      /\ (forall u, fst (cancel gid u (snd (deleteEvent now gid user c)))
                    = Some NotJoined)
      /\ (forall x, x <> gid ->
            find_game (db (snd (deleteEvent now gid user c))) x
            = find_game (db c) x
            /\ players_of (db (snd (deleteEvent now gid user c))) x
               = players_of (db c) x)).
Proof.
  intros Hg. rewrite (deleteEvent_cases now gid user c g Hg). split.
  - intros Hn. destruct (Z.eqb_spec (creator_id g) (user_id user)); [lia|].
    reflexivity.
  - intros He. rewrite He, Z.eqb_refl. cbn [fst snd].
    assert (Hgone : find_game (without (db c) gid) gid = None)
      by (unfold find_game; simpl; apply find_filter_out).
    assert (Hrows : players_of (without (db c) gid) gid = [])
      by (unfold players_of; simpl;
          apply (filter_filter_out (fun p => player_game p =? gid))).
    repeat split.
    + unfold getEvent. apply get_game_info_missing. exact Hgone.
    + exact Hrows.
    + simpl. apply (filter_filter_out (fun r => reminder_game r =? gid)).
    + unfold delete_game, is_user_creator, get_game_info. rewrite Hg, He.
      rewrite Z.eqb_refl. cbn [negb fst].
      rewrite !notified_app, notified_show_upcoming, app_nil_r. simpl.
      apply (notified_send (fun _ => GameCancelled (game_name g))).
    + intros u. rewrite join_cases. cbn [db with_db].
      apply get_game_info_missing in Hgone. rewrite Hgone. reflexivity.
    + intros u. unfold cancel, cancel_booking. cbn [db with_db].
      rewrite (not_joined_without_rows _ gid (user_id u) Hrows). reflexivity.
    + unfold find_game. simpl. apply find_game_other. assumption.
    + unfold players_of. simpl. apply players_other. assumption.
Qed.

Lemma deleteEvent_by_creator_only_witness :
  find_game (db four_seats_context) 2 = Some four_seats
  /\ deleteEvent 0 2 bob four_seats_context = (Some NotCreator, four_seats_context)
  /\ notified (fst (delete_game 0 2 ann four_seats_context)) = [8; 9].
Proof.
  split; [reflexivity|].
  pose proof (deleteEvent_by_creator_only 0 2 bob four_seats_context _ eq_refl)
    as [Hb _].
  pose proof (deleteEvent_by_creator_only 0 2 ann four_seats_context _ eq_refl)
    as [_ Ha].
  split.
  - apply Hb. discriminate.
  - destruct (Ha eq_refl) as (_ & _ & _ & _ & Hn & _). exact Hn.
Defined.

(** C5 as stated fails after the deletion: [cancel] on the deleted
    identifier answers that the user has no booking ([NotJoined]); it has no
    answer for a missing event. *)
Lemma cancel_after_delete_is_NotJoined :
  fst (deleteEvent 0 2 ann four_seats_context) = Some DeleteOk
  /\ fst (cancel 2 bob (snd (deleteEvent 0 2 ann four_seats_context)))
     = Some NotJoined
  /\ fst (cancel 2 bob (snd (deleteEvent 0 2 ann four_seats_context)))
     <> Some CancelNotFound.
Proof.
  repeat split; [reflexivity .. | discriminate].
Qed.

(** Not part of C5 as amended: on an identifier that names no event the
    creator check comes first and answers [NotCreator]; the branch that
    answers "not found" is never reached. *)
Lemma deleteEvent_missing_event (now : Time.datetime) (gid : Z) (user : User)
  (c : Context) :
  find_game (db c) gid = None ->
  deleteEvent now gid user c = (Some NotCreator, c).
Proof.
  intros H. unfold deleteEvent, delete_game, is_user_creator. rewrite H.
  reflexivity.
Qed.

End Deleting.

(** ** The creation wizard *)
Module Wizard.
Import Store Chat Reminders Handlers Engine Scenario StoreFacts.

Lemma max_rowid_bound (gs : list GameRow) (g : GameRow) :
  In g gs -> game_id g <= max_rowid gs.
Proof.
  induction gs as [|h t IH]; simpl; [tauto|].
  intros [->|H]; [lia|]. specialize (IH H). lia.
Qed.

Lemma next_game_id_fresh (d : Database) :
  games_seq d < next_game_id d
  /\ forall g, In g (games d) -> game_id g < next_game_id d.
Proof.
  unfold next_game_id. split; [lia|].
  intros g H. apply max_rowid_bound in H. lia.
Qed.

Lemma find_player_none (l : list PlayerRow) (gid uid : Z) :
  (forall p, In p l -> player_game p <> gid) ->
  find (fun p => (player_game p =? gid) && (player_user p =? uid)) l = None.
Proof.
  intros H. induction l as [|p l IH]; simpl; [reflexivity|].
  destruct (Z.eqb_spec (player_game p) gid) as [E|E].
  - exfalso. apply (H p); [left; reflexivity | exact E].
  - simpl. apply IH. intros q Hq. apply H. right. exact Hq.
Qed.

Lemma players_of_none (l : list PlayerRow) (gid : Z) :
  (forall p, In p l -> player_game p <> gid) ->
  filter (fun p => player_game p =? gid) l = [].
Proof.
  intros H. induction l as [|p l IH]; simpl; [reflexivity|].
  destruct (Z.eqb_spec (player_game p) gid) as [E|E].
  - exfalso. apply (H p); [left; reflexivity | exact E].
  - apply IH. intros q Hq. apply H. right. exact Hq.
Qed.

Lemma find_game_app_new (l : list GameRow) (g : GameRow) :
  (forall h, In h l -> game_id h <> game_id g) ->
  find (fun h => game_id h =? game_id g) (l ++ [g]) = Some g.
Proof.
  intros H. induction l as [|h l IH]; simpl.
  - rewrite Z.eqb_refl. reflexivity.
  - destruct (Z.eqb_spec (game_id h) (game_id g)) as [E|E].
    + exfalso. apply (H h); [left; reflexivity | exact E].
    + apply IH. intros k Hk. apply H. right. exact Hk.
Qed.

Lemma participants_of_committed (d : Database) (user : User) (u : UserData)
  (name : string) (date : Time.datetime) :
  consistent d ->
  find_game (committed d user u name date) (next_game_id d)
  = Some (drafted (next_game_id d) user u name date)
  /\ get_game_participants (committed d user u name date) (next_game_id d)
     = [(user_id user, user_name user)].
Proof.
  intros (Hs & Hg & Hp). pose proof (next_game_id_fresh d) as [Hf1 Hf2]. split.
  - unfold find_game, committed. cbn [games].
    apply (find_game_app_new (games d) (drafted (next_game_id d) user u name date)).
    intros h Hh. specialize (Hf2 h Hh). simpl. lia.
  - unfold get_game_participants, players_of, committed. cbn [players].
    rewrite filter_app, players_of_none.
    + simpl. rewrite Z.eqb_refl. reflexivity.
    + intros p Hin. specialize (Hp p Hin). lia.
Qed.

Lemma stored_date_parses_committed (d : Database) (user : User)
  (u : UserData) (name : string) (date : Time.datetime) :
  consistent d ->
  stored_date_parses (committed d user u name date) (next_game_id d)
  = Time.four_digit_year date.
Proof.
  intros Hc. unfold stored_date_parses.
  rewrite (proj1 (participants_of_committed d user u name date Hc)).
  reflexivity.
Qed.

(** The commit of a draft that has a title and a start time, in a store
    whose rows are not ahead of its counter. *)
Lemma commit_draft_cases (now : Time.datetime) (user : User) (c : Context)
  (name : string) (date : Time.datetime) :
  consistent (db c) ->
  ud_game_name (user_data c) = Some name ->
  ud_game_date (user_data c) = Some date ->
  commit_draft now user c
  = if fits_int64 (draft_capacity (user_data c)) then
      match job_queue c with
      | None =>
          (mkContext (committed (db c) user (user_data c) name date)
             (user_data c) None,
           inl (next_game_id (db c)))
      | Some q =>
          if Time.four_digit_year date then
            (mkContext (committed (db c) user (user_data c) name date)
               (user_data c)
               (Some (schedule_reminders
                        (committed (db c) user (user_data c) name date) now
                        (next_game_id (db c)) q)),
             inl (next_game_id (db c)))
          else
            (mkContext (committed (db c) user (user_data c) name date)
               (user_data c) (Some q),
             inr ValueError)
      end
    else (c, inr OverflowError).
Proof.
  intros Hc Hn Hd. pose proof Hc as (Hs & Hg & Hp).
  unfold commit_draft. rewrite Hn, Hd.
  unfold insert_game. fold (draft_capacity (user_data c)).
  destruct (fits_int64 (draft_capacity (user_data c))); [|reflexivity].
  unfold insert_player, is_user_joined, find_player.
  cbn [players games reminders games_seq].
  rewrite find_player_none.
  - change (mkDb _ _ _ _)
      with (committed (db c) user (user_data c) name date).
    destruct (job_queue c) as [q|]; [|reflexivity].
    rewrite stored_date_parses_committed by exact Hc. reflexivity.
  - intros p Hin. specialize (Hp p Hin).
    pose proof (next_game_id_fresh (db c)) as [Hf _]. lia.
Qed.

Lemma commit_draft_complete (now : Time.datetime) (user : User) (c : Context)
  (name : string) (date : Time.datetime) :
  consistent (db c) ->
  ud_game_name (user_data c) = Some name ->
  ud_game_date (user_data c) = Some date ->
  fits_int64 (draft_capacity (user_data c)) = true ->
  job_queue c = None \/ Time.four_digit_year date = true ->
  commit_draft now user c
  = (mkContext (committed (db c) user (user_data c) name date) (user_data c)
       (option_map
          (schedule_reminders (committed (db c) user (user_data c) name date)
             now (next_game_id (db c)))
          (job_queue c)),
     inl (next_game_id (db c))).
Proof.
  intros Hc Hn Hd Hfit Hq.
  rewrite (commit_draft_cases now user c name date Hc Hn Hd), Hfit.
  destruct (job_queue c) as [q|]; [|reflexivity].
  destruct Hq as [Hq| ->]; [discriminate | reflexivity].
Qed.

Lemma commit_draft_incomplete (now : Time.datetime) (user : User)
  (c : Context) :
  ud_game_name (user_data c) = None \/ ud_game_date (user_data c) = None ->
  commit_draft now user c = (c, inr KeyError).
Proof.
  unfold commit_draft. intros [H|H]; rewrite H; [reflexivity|].
  destruct (ud_game_name (user_data c)); reflexivity.
Qed.

(** C9: whatever the draft and the store, and whether the commit succeeds
    or fails, [create_game_in_db] leaves the [user_data] of the identity
    empty: no field of the draft survives.  (It answers with the new
    identifier or with the error text, then with the menu, and the store is
    the one the attempt left.) *)
Theorem create_game_in_db_clears_state (now : Time.datetime) (user : User)
  (c : Context) :
  user_data (snd (create_game_in_db now user c)) = cleared
  /\ fst (create_game_in_db now user c)
     = match snd (commit_draft now user c) with
       | inl gid => [reply_text (GameCreated gid); reply_text Menu]
       | inr _ => [reply_text CreateError; reply_text Menu]
       end
  /\ db (snd (create_game_in_db now user c)) = db (fst (commit_draft now user c)).
Proof.
  unfold create_game_in_db. destruct (commit_draft now user c) as [c1 [gid|e]];
    repeat split.
Qed.

(** Both exits of the commit exist: a complete draft is committed, an
    incomplete one fails; the state is empty after either. *)
Lemma commit_exits_both_clear :
  snd (commit_draft 0 ann (mkContext empty_db cleared None)) = inr KeyError
  /\ user_data (snd (create_game_in_db 0 ann (mkContext empty_db cleared None)))
     = cleared
  /\ snd (commit_draft 0 ann
            (mkContext empty_db (set_game_date (set_game_name cleared "Go") 5000) None))
     = inl 1
  /\ user_data
       (snd (create_game_in_db 0 ann
               (mkContext empty_db (set_game_date (set_game_name cleared "Go") 5000) None)))
     = cleared.
Proof. repeat split. Qed.

(** *** The steps of [handle_message] *)

Lemma step_title (now : Time.datetime) (user : User) (text : string)
  (c : Context) :
  ud_action (user_data c) = Some creating_game ->
  handle_message now (text_from user text) c
  = Some ([reply_text AskDate],
          with_user_data c
            (set_action (set_game_name (user_data c) text) setting_game_date)).
Proof. intros H. unfold handle_message. rewrite H. reflexivity. Qed.

Lemma step_date (now : Time.datetime) (user : User) (text : string)
  (c : Context) :
  ud_action (user_data c) = Some setting_game_date ->
  handle_message now (text_from user text) c
  = Some (match Text.strptime_display text with
          | Some date =>
              ([reply_text AskMaxPlayers],
               with_user_data c
                 (set_action (set_game_date (user_data c) date)
                    setting_max_players))
          | None => ([reply_text BadDate], c)
          end).
Proof. intros H. unfold handle_message. rewrite H. reflexivity. Qed.

Lemma step_capacity (now : Time.datetime) (user : User) (text : string)
  (c : Context) :
  ud_action (user_data c) = Some setting_max_players ->
  handle_message now (text_from user text) c
  = Some (match Text.python_int text with
          | Some n =>
              if n <? 0 then ([reply_text BadNumber], c)
              else ([reply_text AskDescription],
                    with_user_data c
                      (set_action (set_max_players (user_data c) n)
                         setting_description))
          | None => ([reply_text BadNumber], c)
          end).
Proof. intros H. unfold handle_message. rewrite H. reflexivity. Qed.

Lemma step_description (now : Time.datetime) (user : User) (text : string)
  (c : Context) :
  ud_action (user_data c) = Some setting_description ->
  handle_message now (text_from user text) c
  = Some (if is_skip (Text.lower text)
          then create_game_in_db now user c
          else ([reply_text AskPhoto],
                with_user_data c
                  (set_action (set_description (user_data c) text)
                     setting_photo))).
Proof.
  intros H. unfold handle_message. rewrite H. cbn [msg_text text_from].
  cbn [action_is Action_eqb andb msg_photo msg_from negb].
  destruct (is_skip (Text.lower text)); reflexivity.
Qed.

Lemma step_photo_text (now : Time.datetime) (user : User) (text : string)
  (c : Context) :
  ud_action (user_data c) = Some setting_photo ->
  handle_message now (text_from user text) c
  = Some (if is_skip (Text.lower text)
          then create_game_in_db now user c
          else ([reply_text NeedPhotoOrSkip], c)).
Proof.
  intros H. unfold handle_message. rewrite H. cbn [msg_text text_from].
  cbn [action_is Action_eqb andb msg_photo msg_from negb].
  destruct (is_skip (Text.lower text)); reflexivity.
Qed.

Lemma step_no_action (now : Time.datetime) (user : User) (text : string)
  (c : Context) :
  ud_action (user_data c) = None ->
  handle_message now (text_from user text) c
  = Some (create_game_in_db now user c).
Proof. intros H. unfold handle_message. rewrite H. reflexivity. Qed.

Lemma photo_message_stops_the_handler (now : Time.datetime) (m : Message)
  (c : Context) :
  msg_text m = None -> handle_message now m c = None.
Proof. intros H. unfold handle_message. rewrite H. reflexivity. Qed.

(** *** The "Chess Night" run *)

Lemma chess_night_date :
  Text.strptime_display "31.12.2099 18:00" = Some 66238106400.
Proof. reflexivity. Qed.

(** C4, as the code has it: from a freshly started wizard the inputs
    "Chess Night", "31.12.2099 18:00", "4", "/skip", "/skip" leave one new
    event with title "Chess Night", capacity 4, empty description, no media,
    created by the initiating identity, who is its only participant.  The
    event is committed by the first "/skip" (the one at the description
    step), which also empties the wizard state; the second "/skip" finds no
    step pending, is answered with the error text and creates nothing. *)
Theorem chess_night_wizard (now : Time.datetime) (user : User) (d : Database)
  (q : option JobQueue) :
  consistent d ->
  feed now user ["Chess Night"; "31.12.2099 18:00"; "4"; "/skip"]
    (mkContext d wizard_started q)
  = ([reply_text AskDate; reply_text AskMaxPlayers; reply_text AskDescription;
      reply_text (GameCreated (next_game_id d)); reply_text Menu],
     snd (feed now user ["Chess Night"; "31.12.2099 18:00"; "4"; "/skip"; "/skip"]
            (mkContext d wizard_started q)))
  /\ fst (feed now user ["Chess Night"; "31.12.2099 18:00"; "4"; "/skip"; "/skip"]
            (mkContext d wizard_started q))
     = [reply_text AskDate; reply_text AskMaxPlayers; reply_text AskDescription;
        reply_text (GameCreated (next_game_id d)); reply_text Menu;
        reply_text CreateError; reply_text Menu]
  /\ (let c := snd (feed now user
                      ["Chess Night"; "31.12.2099 18:00"; "4"; "/skip"; "/skip"]
                      (mkContext d wizard_started q)) in
      user_data c = cleared
      /\ games (db c)
         = games d ++ [mkGame (next_game_id d) "Chess Night" 66238106400
                         (user_id user) 4 "" None]
      /\ find_game (db c) (next_game_id d)
         = Some (mkGame (next_game_id d) "Chess Night" 66238106400
                   (user_id user) 4 "" None)
      /\ get_game_participants (db c) (next_game_id d)
         = [(user_id user, user_name user)]).
Proof.
  intros Hc.
  set (u3 := mkUserData (Some setting_description) (Some "Chess Night")
               (Some 66238106400) (Some 4) None None).
  pose proof (commit_draft_complete now user (mkContext d u3 q)
                "Chess Night" 66238106400 Hc eq_refl eq_refl eq_refl
                (or_intror eq_refl)) as Hcommit.
  cbn [db user_data job_queue] in Hcommit.
  pose proof (participants_of_committed d user u3 "Chess Night" 66238106400 Hc)
    as [Hfind Hpart].
  assert (H4 : feed now user ["Chess Night"; "31.12.2099 18:00"; "4"; "/skip"]
                 (mkContext d wizard_started q)
               = ([reply_text AskDate; reply_text AskMaxPlayers;
                   reply_text AskDescription;
                   reply_text (GameCreated (next_game_id d)); reply_text Menu],
                  mkContext (committed d user u3 "Chess Night" 66238106400)
                    cleared
                    (option_map
                       (schedule_reminders
                          (committed d user u3 "Chess Night" 66238106400) now
                          (next_game_id d)) q))).
  { cbn [feed]. rewrite step_title by reflexivity.
    rewrite step_date by reflexivity. rewrite chess_night_date.
    rewrite step_capacity by reflexivity.
    change (Text.python_int "4") with (Some 4). cbn [Z.ltb Z.compare].
    rewrite step_description by reflexivity.
    change (is_skip (Text.lower "/skip")) with true. cbv iota.
    unfold create_game_in_db.
    change (commit_draft now user _)
      with (commit_draft now user (mkContext d u3 q)).
    rewrite Hcommit. reflexivity. }
  assert (H5 : feed now user
                 ["Chess Night"; "31.12.2099 18:00"; "4"; "/skip"; "/skip"]
                 (mkContext d wizard_started q)
               = ([reply_text AskDate; reply_text AskMaxPlayers;
                   reply_text AskDescription;
                   reply_text (GameCreated (next_game_id d)); reply_text Menu;
                   reply_text CreateError; reply_text Menu],
                  mkContext (committed d user u3 "Chess Night" 66238106400)
                    cleared
                    (option_map
                       (schedule_reminders
                          (committed d user u3 "Chess Night" 66238106400) now
                          (next_game_id d)) q))).
  { cbn [feed]. rewrite step_title by reflexivity.
    rewrite step_date by reflexivity. rewrite chess_night_date.
    rewrite step_capacity by reflexivity.
    change (Text.python_int "4") with (Some 4). cbn [Z.ltb Z.compare].
    rewrite step_description by reflexivity.
    change (is_skip (Text.lower "/skip")) with true. cbv iota.
    unfold create_game_in_db at 1.
    change (commit_draft now user _)
      with (commit_draft now user (mkContext d u3 q)).
    rewrite Hcommit.
    cbn [with_user_data db user_data job_queue fst snd].
    rewrite step_no_action by reflexivity.
    unfold create_game_in_db. rewrite commit_draft_incomplete by (left; reflexivity).
    reflexivity. }
  rewrite H4, H5. cbn [fst snd db user_data].
  repeat split; assumption.
Qed.

Lemma chess_night_wizard_witness :
  consistent empty_db
  /\ games
       (db (snd (feed 0 ann
                   ["Chess Night"; "31.12.2099 18:00"; "4"; "/skip"; "/skip"]
                   (mkContext empty_db wizard_started None))))
     = [mkGame 1 "Chess Night" 66238106400 7 4 "" None].
Proof.
  assert (H : consistent empty_db).
  { unfold consistent. simpl. repeat split; [lia | tauto | tauto]. }
  split; [exact H|].
  destruct (chess_night_wizard 0 ann empty_db None H) as (_ & _ & _ & Hg & _).
  exact Hg.
Defined.

Lemma single_seat_from_wizard :
  snd (feed 0 ann ["Go"; "31.12.2099 18:00"; "1"; "/skip"]
         (mkContext empty_db wizard_started None))
  = single_seat_context.
Proof. reflexivity. Qed.

(** C4 as stated fails in its last clause: the "/skip" given at the
    description step does not advance to the media step; it commits the event
    at once and leaves no step pending. *)
Lemma skip_at_description_commits_at_once :
  ud_action
    (user_data
       (snd (feed 0 ann ["Chess Night"; "31.12.2099 18:00"; "4"; "/skip"]
               (mkContext empty_db wizard_started None))))
  <> Some setting_photo
  /\ games
       (db (snd (feed 0 ann ["Chess Night"; "31.12.2099 18:00"; "4"; "/skip"]
                   (mkContext empty_db wizard_started None))))
     = [mkGame 1 "Chess Night" 66238106400 7 4 "" None].
Proof.
  split; [discriminate | reflexivity].
Qed.

End Wizard.

(** ** The reminder scheduler *)
Module Scheduling.
Import Store Chat Reminders Handlers StoreFacts.

Lemma schedule_reminders_armed (d : Database) (now : Time.datetime) (gid : Z)
  (q : JobQueue) :
  schedule_reminders d now gid q = q ++ armed d now gid.
Proof.
  unfold schedule_reminders, armed, get_game_info, run_once.
  destruct (find_game d gid) as [g|]; [|rewrite app_nil_r; reflexivity].
  cbn [info_date offset_seconds].
  destruct (now <? game_date g - Time.timedelta_days 1);
    destruct (now <? game_date g - Time.timedelta_hours 1);
    rewrite ?app_nil_r, <- ?app_assoc; reflexivity.
Qed.

(** A job is armed for an offset exactly when the event exists and the
    offset's fire time is strictly after the arming time. *)
Lemma armed_iff (d : Database) (now : Time.datetime) (gid : Z) (j : Job) :
  In j (armed d now gid)
  <-> exists g k, find_game d gid = Some g
                  /\ now < game_date g - offset_seconds k
                  /\ j = mkJob (game_date g - offset_seconds k) gid (k, gid).
Proof.
  unfold armed. destruct (find_game d gid) as [g|].
  - rewrite in_app_iff. split.
    + intros [H|H].
      * destruct (Z.ltb_spec now (game_date g - offset_seconds before_1day));
          [|contradiction]. destruct H as [<-|[]].
        exists g, before_1day. auto.
      * destruct (Z.ltb_spec now (game_date g - offset_seconds before_1hour));
          [|contradiction]. destruct H as [<-|[]].
        exists g, before_1hour. auto.
    + intros (g' & k & Hg & Hlt & ->). inversion Hg; subst g'; clear Hg.
      destruct k; [left|right].
      * destruct (Z.ltb_spec now (game_date g - offset_seconds before_1day));
          [left; reflexivity | lia].
      * destruct (Z.ltb_spec now (game_date g - offset_seconds before_1hour));
          [left; reflexivity | lia].
  - split; [contradiction|]. intros (g & k & Hg & _). discriminate.
Qed.

Lemma armed_names_NoDup (d : Database) (now : Time.datetime) (gid : Z) :
  NoDup (map job_name (armed d now gid)).
Proof.
  unfold armed. destruct (find_game d gid) as [g|]; [|constructor].
  destruct (now <? game_date g - offset_seconds before_1day);
    destruct (now <? game_date g - offset_seconds before_1hour); simpl;
    repeat constructor; simpl; try tauto.
  intros [H|[]]. discriminate.
Qed.

End Scheduling.

(** ** The invariant of the event loop *)
Module LoopFacts.
Import Store Chat Reminders Handlers Engine Loop StoreFacts Wizard Scheduling.

Lemma evolves_refl (d : Database) : evolves d d.
Proof. split; [lia | auto]. Qed.

Lemma evolves_same_games (d d' : Database) :
  games d' = games d -> games_seq d' = games_seq d -> evolves d d'.
Proof.
  intros Hg Hs. split; [lia|]. unfold find_game. rewrite Hg. auto.
Qed.

(** A handler that leaves the store and the queue alone. *)
Lemma effect_local (now : Time.datetime) (c : Context) (u : UserData) :
  (wizard_ok (user_data c) -> wizard_ok u) ->
  effect now c (with_user_data c u).
Proof.
  intros Hu Hc Hw Hcap Hr. cbn [with_user_data db user_data job_queue].
  repeat split; try apply Hc; try apply Hu; try assumption; auto.
  - lia.
Qed.

Lemma effect_none (now : Time.datetime) (c : Context) : effect now c c.
Proof.
  intros Hc Hw Hcap Hr.
  repeat split; try apply Hc; try apply Hw; try assumption; auto. lia.
Qed.

(** A handler that only changes player rows, and only of games that exist
    or are being dropped. *)
Lemma effect_players (now : Time.datetime) (c : Context) (d' : Database) :
  games d' = games (db c) -> games_seq d' = games_seq (db c) ->
  reminders d' = reminders (db c) ->
  (forall p, In p (players d') ->
             In p (players (db c)) \/ player_game p <= games_seq (db c)) ->
  effect now c (with_db c d').
Proof.
  intros Hg Hs Hr Hp (Hc0 & Hc1 & Hc2) Hw Hcap Hrem.
  cbn [with_db db user_data job_queue].
  split; [|split; [exact Hw|split; [|split; [congruence|split]]]].
  - unfold consistent. rewrite Hg, Hs. repeat split; try assumption.
    intros p Hin. destruct (Hp p Hin) as [H|H]; auto.
  - unfold capacities_ok. rewrite Hg. exact Hcap.
  - apply evolves_same_games; assumption.
  - left. reflexivity.
Qed.

Lemma find_game_bound (d : Database) (gid : Z) (g : GameRow) :
  consistent d -> find_game d gid = Some g -> gid <= games_seq d.
Proof.
  intros (_ & Hg & _) H. apply find_game_id in H as [<- Hin]. auto.
Qed.

Lemma effect_book_game (now : Time.datetime) (gid : Z) (user : User)
  (c : Context) :
  effect now c (snd (book_game gid user c)).
Proof.
  unfold book_game. destruct (get_game_info (db c) gid) as [game|] eqn:Hg;
    [|apply effect_none].
  destruct ((0 <? info_max_players game)
            && (info_max_players game <=? info_current_players game));
    [apply effect_none|].
  unfold insert_player.
  destruct (is_user_joined (db c) gid (user_id user)); [apply effect_none|].
  cbn [snd]. intros Hc. revert Hc.
  apply get_game_info_inv in Hg as (g & Hf & _).
  intros Hc. apply effect_players; try reflexivity; try assumption.
  cbn [players]. intros p Hin. apply in_app_or in Hin as [H|[<-|[]]]; [auto|].
  right. simpl. eapply find_game_bound; eassumption.
Qed.

Lemma effect_cancel_booking (now : Time.datetime) (gid : Z) (user : User)
  (c : Context) :
  effect now c (snd (cancel_booking gid user c)).
Proof.
  unfold cancel_booking.
  destruct (negb (is_user_joined (db c) gid (user_id user)));
    [apply effect_none|].
  cbn [snd]. apply effect_players; try reflexivity.
  cbn [delete_player players]. intros p Hin. apply filter_In in Hin as [H _].
  auto.
Qed.

Lemma find_game_without (d : Database) (gid x : Z) (g : GameRow) :
  find_game (without d gid) x = Some g -> find_game d x = Some g.
Proof.
  unfold find_game. cbn [without delete_reminders_of delete_players_of
                         delete_game_row games].
  destruct (Z.eq_dec x gid) as [->|Hne].
  - rewrite find_filter_out. discriminate.
  - rewrite Deleting.find_game_other by assumption. auto.
Qed.

Lemma effect_delete_game (now : Time.datetime) (gid : Z) (user : User)
  (c : Context) :
  effect now c (snd (delete_game now gid user c)).
Proof.
  unfold delete_game.
  destruct (negb (is_user_creator (db c) gid (user_id user)));
    [apply effect_none|].
  destruct (get_game_info (db c) gid) as [game|]; [|apply effect_none].
  cbn [snd]. intros (Hc0 & Hc1 & Hc2) Hw Hcap Hrem.
  cbn [with_db db user_data job_queue].
  split; [|split; [exact Hw|split; [|split; [|split]]]].
  - unfold consistent. simpl. repeat split; try assumption.
    + intros g Hin. apply filter_In in Hin as [H _]. auto.
    + intros p Hin. apply filter_In in Hin as [H _]. auto.
  - intros g Hin. simpl in Hin. apply filter_In in Hin as [H _]. auto.
  - simpl. rewrite Hrem. reflexivity.
  - split; [simpl; lia|]. intros x g _ H.
    eapply find_game_without. exact H.
  - left. reflexivity.
Qed.

Lemma find_game_committed_old (d : Database) (user : User) (u : UserData)
  (name : string) (date : Time.datetime) (x : Z) :
  x <> next_game_id d ->
  find_game (committed d user u name date) x = find_game d x.
Proof.
  intros Hx. unfold find_game, committed. cbn [games].
  induction (games d) as [|h t IH]; simpl.
  - destruct (Z.eqb_spec (next_game_id d) x); [lia | reflexivity].
  - destruct (game_id h =? x); [reflexivity | exact IH].
Qed.

(** The store after a commit, with the queue as it was or with the jobs of
    the new game added. *)
Lemma effect_committed (now : Time.datetime) (user : User) (c : Context)
  (name : string) (date : Time.datetime) (q' : option JobQueue) :
  q' = job_queue c
  \/ (exists q, job_queue c = Some q
                /\ q' = Some (schedule_reminders
                                (committed (db c) user (user_data c) name date)
                                now (next_game_id (db c)) q)) ->
  effect now c
    (mkContext (committed (db c) user (user_data c) name date) cleared q').
Proof.
  intros Hq Hc Hw Hcap Hrem.
  assert (Hcl : wizard_ok cleared) by (split; [reflexivity | discriminate]).
  cbn [db user_data job_queue].
  pose proof (next_game_id_fresh (db c)) as [Hf1 Hf2].
  destruct Hc as (Hc0 & Hc1 & Hc2).
  split; [|split; [exact Hcl|split; [|split; [exact Hrem|split]]]].
  - unfold consistent, committed. cbn [games players games_seq].
    split; [lia|]. split.
    + intros g Hin. apply in_app_or in Hin as [H|[<-|[]]].
      * specialize (Hf2 g H). lia.
      * simpl. lia.
    + intros p Hin. apply in_app_or in Hin as [H|[<-|[]]].
      * specialize (Hc2 p H). lia.
      * simpl. lia.
  - intros g Hin. unfold committed in Hin. cbn [games] in Hin.
    apply in_app_or in Hin as [H|[<-|[]]]; [auto|].
    unfold drafted. cbn [max_players].
    destruct (ud_max_players (user_data c)) as [n|] eqn:E; [|lia].
    apply Hw. exact E.
  - split; [unfold committed; cbn [games_seq]; lia|].
    intros x g Hx H. rewrite find_game_committed_old in H by lia. exact H.
  - destruct Hq as [->|(q & Hq & ->)]; [left; reflexivity|].
    right. exists q, (next_game_id (db c)).
    rewrite schedule_reminders_armed.
    repeat split; [exact Hq | unfold committed; cbn [games_seq]; lia ..].
Qed.

Lemma effect_given (now : Time.datetime) (c c' : Context) :
  (consistent (db c) -> effect now c c') -> effect now c c'.
Proof. intros H Hc. exact (H Hc Hc). Qed.

Lemma effect_create_game_in_db (now : Time.datetime) (user : User)
  (c : Context) :
  effect now c (snd (create_game_in_db now user c)).
Proof.
  apply effect_given. intros Hc.
  assert (Hcl : wizard_ok cleared) by (split; [reflexivity | discriminate]).
  unfold create_game_in_db.
  destruct (ud_game_name (user_data c)) as [name|] eqn:Hn;
    [destruct (ud_game_date (user_data c)) as [date|] eqn:Hd|].
  - rewrite (commit_draft_cases now user c name date Hc Hn Hd).
    destruct (fits_int64 (draft_capacity (user_data c)));
      [|apply (effect_local now c cleared); auto].
    destruct (job_queue c) as [q|] eqn:Hq.
    + destruct (Time.four_digit_year date);
        cbn [snd with_user_data db user_data job_queue].
      * apply effect_committed. right. exists q. auto.
      * apply effect_committed. left. auto.
    + cbn [snd with_user_data db user_data job_queue].
      apply effect_committed. left. auto.
  - rewrite commit_draft_incomplete by (right; exact Hd).
    apply (effect_local now c cleared); auto.
  - rewrite commit_draft_incomplete by (left; exact Hn).
    apply (effect_local now c cleared); auto.
Qed.

Lemma effect_pre (now : Time.datetime) (c : Context) (u : UserData)
  (c' : Context) :
  (wizard_ok (user_data c) -> wizard_ok u) ->
  effect now (with_user_data c u) c' -> effect now c c'.
Proof.
  intros Hu H Hc Hw Hcap Hrem. apply H; auto.
Qed.

Lemma wizard_ok_set_action (u : UserData) (a : Action) :
  (forall n, ud_max_players u = Some n -> 0 <= n) ->
  wizard_ok (set_action u a).
Proof. intros H. split; [discriminate | exact H]. Qed.

Lemma effect_handle_message (now : Time.datetime) (m : Message) (c : Context)
  (r : list Out * Context) :
  handle_message now m c = Some r -> effect now c (snd r).
Proof.
  unfold handle_message. destruct (msg_text m) as [raw|]; [|discriminate].
  intros H. inversion H; subst r; clear H.
  destruct (ud_action (user_data c)) as [[]|] eqn:Ha;
    cbn [action_is Action_eqb andb].
  - apply effect_local. intros [_ Hw]. apply wizard_ok_set_action. exact Hw.
  - destruct (Text.strptime_display raw); [|apply effect_none].
    apply effect_local. intros [_ Hw]. apply wizard_ok_set_action. exact Hw.
  - destruct (Text.python_int raw) as [n|]; [|apply effect_none].
    destruct (Z.ltb_spec n 0); [apply effect_none|].
    apply effect_local. intros [_ Hw]. apply wizard_ok_set_action.
    cbn [set_max_players ud_max_players]. intros k Hk. inversion Hk; subst. lia.
  - destruct (negb (is_skip (Text.lower raw))).
    + apply effect_local. intros [_ Hw]. apply wizard_ok_set_action. exact Hw.
    + apply effect_create_game_in_db.
  - destruct (negb (is_skip (Text.lower raw))); rewrite ?andb_true_r, ?andb_false_r.
    + destruct (negb match msg_photo m with [] => true | _ :: _ => false end).
      * apply (effect_pre now c
                 (set_photo_id (user_data c) (last (msg_photo m) ""))).
        -- intros [_ Hw]. split; [|exact Hw].
           cbn [set_photo_id ud_action]. rewrite Ha. discriminate.
        -- apply effect_create_game_in_db.
      * apply effect_none.
    + apply effect_create_game_in_db.
  - apply effect_create_game_in_db.
Qed.

Lemma effect_button (now : Time.datetime) (cb : Callback) (user : User)
  (c : Context) :
  effect now c (snd (button now cb user c)).
Proof.
  unfold button. destruct cb; cbn [snd].
  - apply effect_none.
  - unfold create_game_step1. cbn [snd]. apply effect_local.
    intros [_ Hw]. apply wizard_ok_set_action. exact Hw.
  - apply effect_none.
  - pose proof (effect_book_game now gid user c) as H.
    destruct (book_game gid user c). exact H.
  - pose proof (effect_cancel_booking now gid user c) as H.
    destruct (cancel_booking gid user c). exact H.
  - pose proof (effect_delete_game now gid user c) as H.
    destruct (delete_game now gid user c). exact H.
  - apply effect_none.
  - apply effect_none.
Qed.

Lemma sound_boot (with_queue : bool) (t0 : Time.datetime) :
  Sound (boot with_queue t0).
Proof.
  assert (Hp : pending (boot with_queue t0) = [])
    by (destruct with_queue; reflexivity).
  constructor; rewrite ?Hp; simpl.
  - unfold consistent. simpl. repeat split; [lia | tauto | tauto].
  - intros _. split; [reflexivity | discriminate].
  - intros g [].
  - reflexivity.
  - intros j [].
  - constructor.
  - intros j [].
  - intros j g [].
Qed.

Lemma sound_handled (s : System) (uid : Z) (r : list Out * Context) :
  Sound s -> effect (sys_now s) (context_of s uid) (snd r) ->
  Sound (handled s uid r).
Proof.
  intros [Hst Hwz Hcap Hrem Hids Hnames Hdue Htimes] He.
  destruct (He Hst (Hwz uid) Hcap Hrem)
    as (Hst' & Hwz' & Hcap' & Hrem' & [Hseq Hold] & Hq).
  cbn [context_of db user_data job_queue] in *.
  assert (Hpend : exists extra,
             pending (handled s uid r) = pending s ++ extra
             /\ NoDup (map job_name extra)
             /\ (forall j, In j extra ->
                   games_seq (sys_db s) < snd (job_name j)
                                        <= games_seq (db (snd r))
                   /\ forall g, find_game (db (snd r)) (snd (job_name j)) = Some g ->
                                job_when j
                                = game_date g - offset_seconds (fst (job_name j)))).
  { unfold pending, handled. cbn [sys_job_queue].
    destruct Hq as [Hq|(q & gid & Hq & Hq' & Hgid)].
    - exists []. rewrite Hq, app_nil_r. repeat split; [constructor | contradiction
                                                       | contradiction | contradiction].
    - exists (armed (db (snd r)) (sys_now s) gid). rewrite Hq, Hq'.
      split; [reflexivity|]. split; [apply armed_names_NoDup|].
      intros j Hj. apply armed_iff in Hj as (g & k & Hg & _ & ->).
      cbn [job_name snd fst job_when]. split; [exact Hgid|].
      intros g' Hg'. congruence. }
  destruct Hpend as (extra & Hp & Hnd & Hextra).
  constructor; rewrite ?Hp; cbn [handled sys_db sys_user_data sys_now sys_fired].
  - exact Hst'.
  - intros u. destruct (u =? uid); [exact Hwz' | apply Hwz].
  - exact Hcap'.
  - exact Hrem'.
  - intros j Hj. rewrite app_assoc in Hj. apply in_app_or in Hj as [Hj|Hj].
    + specialize (Hids j Hj). lia.
    + apply (Hextra j Hj).
  - rewrite app_assoc, map_app. apply NoDup_app; [exact Hnames | exact Hnd |].
    intros a Ha Hb. apply in_map_iff in Ha as (j & <- & Hj).
    apply in_map_iff in Hb as (j' & Heq & Hj').
    specialize (Hids j Hj). destruct (Hextra j' Hj') as [Hlt _].
    rewrite Heq in Hlt. lia.
  - exact Hdue.
  - intros j g Hj Hg. rewrite app_assoc in Hj. apply in_app_or in Hj as [Hj|Hj].
    + apply (Htimes j g Hj). apply Hold; [apply Hids; exact Hj | exact Hg].
    + apply (Hextra j Hj). exact Hg.
Qed.

Lemma partition_Permutation {A : Type} (f : A -> bool) (l : list A) :
  Permutation.Permutation (filter f l ++ filter (fun x => negb (f x)) l) l.
Proof.
  induction l as [|a l IH]; simpl; [constructor|].
  destruct (f a); simpl.
  - constructor. exact IH.
  - apply Permutation.Permutation_sym, Permutation.Permutation_cons_app,
      Permutation.Permutation_sym, IH.
Qed.

Lemma sound_clock (s : System) (t : Time.datetime) :
  Sound s -> Sound (step (ev_clock t) s).
Proof.
  intros H. cbn [step]. destruct (Z.ltb_spec t (sys_now s)); [exact H|].
  destruct H as [Hst Hwz Hcap Hrem Hids Hnames Hdue Htimes].
  set (s' := mkSystem _ _ _ _ _ _).
  assert (Hp : pending s' = filter (fun j => negb (is_due t j)) (pending s)).
  { unfold pending, s'. cbn [sys_job_queue].
    destruct (sys_job_queue s); reflexivity. }
  assert (Hperm : Permutation.Permutation (sys_fired s' ++ pending s')
                    (sys_fired s ++ pending s)).
  { rewrite Hp. unfold s'. cbn [sys_fired]. rewrite <- app_assoc.
    apply Permutation.Permutation_app_head, partition_Permutation. }
  assert (Hin : forall j, In j (sys_fired s' ++ pending s') ->
                          In j (sys_fired s ++ pending s)).
  { intros j. apply Permutation.Permutation_in. exact Hperm. }
  constructor; try assumption.
  - intros j Hj. apply Hids, Hin, Hj.
  - eapply Permutation.Permutation_NoDup; [|exact Hnames].
    apply Permutation.Permutation_map, Permutation.Permutation_sym, Hperm.
  - unfold s'. cbn [sys_fired sys_now]. intros j Hj.
    apply in_app_or in Hj as [Hj|Hj].
    + specialize (Hdue j Hj). lia.
    + apply filter_In in Hj as [_ Hj]. unfold is_due in Hj. lia.
  - intros j g Hj. apply Htimes, Hin, Hj.
Qed.

Lemma sound_step (e : Event) (s : System) : Sound s -> Sound (step e s).
Proof.
  intros H. destruct e as [m|user cb|t].
  - cbn [step].
    destruct (handle_message (sys_now s) m (context_of s (user_id (msg_from m))))
      as [r|] eqn:E; [|exact H].
    apply sound_handled; [exact H|]. eapply effect_handle_message. exact E.
  - cbn [step]. apply sound_handled; [exact H|]. apply effect_button.
  - apply sound_clock. exact H.
Qed.

Lemma sound_run_from (events : list Event) (s : System) :
  Sound s -> Sound (run events s).
Proof.
  revert s. induction events as [|e es IH]; intros s H; [exact H|].
  apply IH, sound_step, H.
Qed.

Lemma sound_run (events : list Event) (with_queue : bool) (t0 : Time.datetime) :
  Sound (run events (boot with_queue t0)).
Proof. apply sound_run_from, sound_boot. Qed.

End LoopFacts.

(** ** Reminders over the life of the system *)
Module ReminderLife.
Import Store Chat Reminders Handlers Engine Loop Scenario.
Import StoreFacts Scheduling LoopFacts.





End ReminderLife.

(** ** What the commit checks *)
Module Validation.
Import Store Chat Reminders Handlers Engine Loop Scenario.
Import StoreFacts Wizard Scheduling LoopFacts.



(** The two failures of a complete draft, on the wizard's own inputs: a
    capacity of 2^63 is accepted by the capacity step and refused by the
    store; a start time in the year 999 is stored, and with a job queue the
    answer is the error text all the same. *)
Lemma complete_drafts_that_fail :
  (let r := feed thirty_hours_before ann
              ["Go"; "31.12.2099 18:00"; "9223372036854775808"; "/skip"]
              (mkContext empty_db wizard_started (Some [])) in
   fst r = [reply_text AskDate; reply_text AskMaxPlayers;
            reply_text AskDescription; reply_text CreateError; reply_text Menu]
   /\ snd r = mkContext empty_db cleared (Some []))
  /\ (let r := feed thirty_hours_before ann
                 ["Old"; "01.01.0999 10:00"; "4"; "/skip"]
                 (mkContext empty_db wizard_started (Some [])) in
      fst r = [reply_text AskDate; reply_text AskMaxPlayers;
               reply_text AskDescription; reply_text CreateError;
               reply_text Menu]
      /\ snd r
         = mkContext
             (mkDb [mkGame 1 "Old" 31493959200 7 4 "" None]
                [mkPlayer 1 7 (Some "ann")] [] 1)
             cleared (Some []))
  /\ (let r := feed thirty_hours_before ann
                 ["Old"; "01.01.0999 10:00"; "4"; "/skip"]
                 (mkContext empty_db wizard_started None) in
      fst r = [reply_text AskDate; reply_text AskMaxPlayers;
               reply_text AskDescription; reply_text (GameCreated 1);
               reply_text Menu]).
Proof. vm_compute. repeat split. Qed.


End Validation.

(** ** Text outside a creation *)
Module StrayText.
Import Store Chat Reminders Handlers Engine Loop Scenario.
Import StoreFacts Wizard Scheduling LoopFacts.

Lemma handle_message_no_action (now : Time.datetime) (m : Message)
  (text : string) (c : Context) :
  msg_text m = Some text -> ud_action (user_data c) = None ->
  handle_message now m c = Some (create_game_in_db now (msg_from m) c).
Proof. intros Ht H. unfold handle_message. rewrite Ht, H. reflexivity. Qed.

(** C10: in any state the system can reach, a text message from an identity
    with no wizard step pending goes to the commit, which fails on the
    missing draft: the handler answers with the error text and then the menu,
    the identity's state is empty afterwards, and the store, the queue and
    every other identity's state are as before, so no event is created. *)
Theorem stray_text_is_answered_with_error (events : list Event)
  (with_queue : bool) (t0 : Time.datetime) (m : Message) (text : string) :
  msg_text m = Some text ->
  ud_action (sys_user_data (run events (boot with_queue t0))
               (user_id (msg_from m))) = None ->
  handle_message (sys_now (run events (boot with_queue t0))) m
    (context_of (run events (boot with_queue t0)) (user_id (msg_from m)))
  = Some ([reply_text CreateError; reply_text Menu],
          context_of (run events (boot with_queue t0)) (user_id (msg_from m)))
  /\ sys_db (step (ev_message m) (run events (boot with_queue t0)))
     = sys_db (run events (boot with_queue t0))
  /\ sys_job_queue (step (ev_message m) (run events (boot with_queue t0)))
     = sys_job_queue (run events (boot with_queue t0))
  /\ (forall uid,
        sys_user_data (step (ev_message m) (run events (boot with_queue t0))) uid
        = sys_user_data (run events (boot with_queue t0)) uid)
  /\ sys_user_data (step (ev_message m) (run events (boot with_queue t0)))
       (user_id (msg_from m)) = cleared
  /\ sys_sent (step (ev_message m) (run events (boot with_queue t0)))
     = sys_sent (run events (boot with_queue t0))
       ++ [reply_text CreateError; reply_text Menu].
Proof.
  intros Ht Ha.
  pose proof (sound_run events with_queue t0) as H.
  set (s := run events (boot with_queue t0)) in *.
  pose proof (proj1 (sound_wizard s H (user_id (msg_from m))) Ha) as Hcl.
  assert (E : handle_message (sys_now s) m (context_of s (user_id (msg_from m)))
              = Some ([reply_text CreateError; reply_text Menu],
                      context_of s (user_id (msg_from m)))).
  { rewrite (handle_message_no_action _ m text) by assumption.
    unfold create_game_in_db.
    rewrite commit_draft_incomplete
      by (left; cbn [context_of user_data]; rewrite Hcl; reflexivity).
    unfold context_of, with_user_data. cbn [db user_data job_queue].
    rewrite Hcl. reflexivity. }
  split; [exact E|]. cbn [step]. rewrite E.
  unfold handled. cbn [sys_db sys_job_queue sys_user_data sys_sent fst snd
                       context_of db job_queue user_data].
  repeat split.
  - intros uid. destruct (Z.eqb_spec uid (user_id (msg_from m))) as [->|];
      reflexivity.
  - rewrite Z.eqb_refl. exact Hcl.
Qed.

Lemma stray_text_is_answered_with_error_witness :
  msg_text (text_from bob "hello") = Some "hello"
  /\ ud_action (sys_user_data reminded_system (user_id bob)) = None
  /\ sys_db (step (ev_message (text_from bob "hello")) reminded_system)
     = sys_db reminded_system.
Proof.
  split; [reflexivity|]. split; [vm_compute; reflexivity|].
  exact (proj1 (proj2
    (stray_text_is_answered_with_error
       (chess_night_inputs ann ++ [ev_clock new_year_eve]) true
       thirty_hours_before (text_from bob "hello") "hello" eq_refl eq_refl))).
Defined.

End StrayText.

(** ** Joins in flight together *)
Module Race.
Import Store Chat Reminders Handlers Engine Coroutine Scenario.
Import StoreFacts Joining.

Lemma verdict_app {R : Type} (said : Msg -> option R) (a b : list Out) :
  verdict said (a ++ b)
  = match verdict said a with
    | Some r => Some r
    | None => verdict said b
    end.
Proof.
  induction a as [|o a IH]; simpl; [reflexivity|].
  destruct o as [m|[m|]|m|ph m|ch m]; try exact IH.
  destruct (said m); [reflexivity | exact IH].
Qed.

Lemma game_details_store (gid : Z) (user : User) (c c' : Context) :
  db c = db c' -> game_details gid user c = game_details gid user c'.
Proof. intros H. unfold game_details. rewrite H. reflexivity. Qed.

Lemma game_details_head (gid : Z) (user : User) (c : Context) :
  game_details gid user c = answer None :: tl (game_details gid user c).
Proof.
  unfold game_details. destruct (get_game_info (db c) gid) as [game|];
    [|reflexivity].
  destruct (info_photo_id game); reflexivity.
Qed.

(** A call of [book_game] that nothing interleaves with is the coroutine
    resumed until it returns. *)
Lemma resume_at_single (d : Database) (t : Task) :
  resume_at 0 d [t] = (snd (resume t d), [fst (resume t d)]).
Proof. cbn [resume_at]. destruct (resume t d). reflexivity. Qed.

Lemma interleave_single (schedule : list nat) (d : Database) (t : Task) :
  interleave (0%nat :: schedule) (d, [t])
  = interleave schedule (snd (resume t d), [fst (resume t d)]).
Proof.
  unfold interleave. cbn [fold_left fst snd]. rewrite resume_at_single.
  reflexivity.
Qed.

Lemma book_game_is_coroutine_alone (gid : Z) (user : User) (c : Context) :
  interleave (repeat 0%nat 8) (db c, [spawn gid user])
  = (db (snd (book_game gid user c)),
     [mkTask gid user returned (fst (book_game gid user c))]).
Proof.
  cbn [repeat]. rewrite interleave_single.
  change (resume (spawn gid user) (db c))
    with (mkTask gid user in_first_answer [answer None], db c).
  cbn [fst snd]. rewrite interleave_single.
  unfold book_game. unfold resume at 1 2. cbn [task_point task_game task_user].
  destruct (get_game_info (db c) gid) as [game|].
  - destruct ((0 <? info_max_players game)
              && (info_max_players game <=? info_current_players game)).
    + cbn [fst snd]. rewrite interleave_single. reflexivity.
    + destruct (is_user_joined (db c) gid (user_id user)).
      * cbn [fst snd]. rewrite interleave_single. reflexivity.
      * destruct (insert_player (db c) gid (user_id user) (user_name user))
          as [d'|].
        -- cbn [fst snd].
           repeat (rewrite interleave_single; unfold resume at 1 2;
                   cbn [moved task_point task_game task_user fst snd]).
           unfold interleave. cbn [fold_left task_out app with_db db].
           rewrite (game_details_head gid user (with_db c d')).
           rewrite (game_details_store gid user (with_db c d')
                      (mkContext d' cleared None)) by reflexivity.
           unfold moved. cbn [task_out task_game task_user app].
           rewrite app_nil_r. reflexivity.
        -- cbn [fst snd]. rewrite interleave_single. reflexivity.
  - cbn [fst snd]. rewrite interleave_single. reflexivity.
Qed.

(** *** Resuming one task of a pool *)

Lemma resume_at_split (i : nat) (d : Database) (ts : list Task) :
  (exists l1 t l2,
     ts = l1 ++ t :: l2 /\ List.length l1 = i
     /\ resume_at i d ts = (snd (resume t d), l1 ++ fst (resume t d) :: l2))
  \/ ((List.length ts <= i)%nat /\ resume_at i d ts = (d, ts)).
Proof.
  revert i. induction ts as [|t ts IH]; intros i.
  - right. split; [simpl; lia | destruct i; reflexivity].
  - destruct i as [|i].
    + left. exists [], t, ts. cbn [resume_at app List.length].
      destruct (resume t d). auto.
    + destruct (IH i) as [(l1 & t0 & l2 & -> & Hl & Hr)|[Hl Hr]].
      * left. exists (t :: l1), t0, l2. cbn [resume_at]. rewrite Hr.
        simpl. rewrite Hl. auto.
      * right. cbn [resume_at]. rewrite Hr. simpl. split; [lia | reflexivity].
Qed.

Lemma interleave_cons (i : nat) (schedule : list nat) (p : Pool) :
  interleave (i :: schedule) p
  = interleave schedule (resume_at i (fst p) (snd p)).
Proof. reflexivity. Qed.

Lemma interleave_app (s1 s2 : list nat) (p : Pool) :
  interleave (s1 ++ s2) p = interleave s2 (interleave s1 p).
Proof. unfold interleave. apply fold_left_app. Qed.

Lemma resume_at_length (i : nat) (d : Database) (ts : list Task) :
  List.length (snd (resume_at i d ts)) = List.length ts.
Proof.
  destruct (resume_at_split i d ts) as [(l1 & t & l2 & -> & _ & ->)|[_ ->]];
    [|reflexivity].
  cbn [snd]. rewrite !length_app. reflexivity.
Qed.

Lemma interleave_length (schedule : list nat) (p : Pool) :
  List.length (snd (interleave schedule p)) = List.length (snd p).
Proof.
  revert p. induction schedule as [|i sch IH]; intros p; [reflexivity|].
  rewrite interleave_cons, IH. apply resume_at_length.
Qed.

(** *** Every task returns *)

Lemma resume_steps_left (t : Task) (d : Database) :
  has_returned t = false ->
  (steps_left (task_point (fst (resume t d))) < steps_left (task_point t))%nat.
Proof.
  unfold has_returned, resume. destruct (task_point t); intros H;
    try discriminate; cbn [fst moved task_point steps_left]; try lia.
  destruct (get_game_info d (task_game t)) as [game|]; [|simpl; lia].
  destruct ((0 <? info_max_players game)
            && (info_max_players game <=? info_current_players game));
    [simpl; lia|].
  destruct (is_user_joined d (task_game t) (user_id (task_user t)));
    [simpl; lia|].
  destruct (insert_player d (task_game t) (user_id (task_user t))
              (user_name (task_user t))); simpl; lia.
Qed.

Lemma total_left_app (l1 l2 : list Task) :
  total_left (l1 ++ l2) = (total_left l1 + total_left l2)%nat.
Proof. unfold total_left. rewrite map_app, list_sum_app. reflexivity. Qed.

Lemma total_left_cons (t : Task) (l : list Task) :
  total_left (t :: l) = (steps_left (task_point t) + total_left l)%nat.
Proof. reflexivity. Qed.

Lemma not_all_returned (ts : list Task) :
  forallb has_returned ts = false ->
  exists l1 t l2, ts = l1 ++ t :: l2 /\ has_returned t = false.
Proof.
  induction ts as [|t ts IH]; simpl; [discriminate|].
  destruct (has_returned t) eqn:E; simpl.
  - intros H. destruct (IH H) as (l1 & t0 & l2 & -> & H0).
    exists (t :: l1), t0, l2. auto.
  - intros _. exists [], t, ts. auto.
Qed.

Lemma resume_at_middle (d : Database) (l1 : list Task) (t : Task)
  (l2 : list Task) :
  resume_at (List.length l1) d (l1 ++ t :: l2)
  = (snd (resume t d), l1 ++ fst (resume t d) :: l2).
Proof.
  induction l1 as [|h l1 IH]; cbn [List.length app resume_at].
  - destruct (resume t d); reflexivity.
  - rewrite IH. reflexivity.
Qed.

(** Whatever has run so far, the pool can be run on until every call has
    returned. *)
Lemma every_call_returns (p : Pool) :
  exists more, forallb has_returned (snd (interleave more p)) = true.
Proof.
  remember (total_left (snd p)) as n eqn:Hn.
  revert p Hn. induction n as [n IH] using lt_wf_ind. intros [d ts] Hn.
  destruct (forallb has_returned ts) eqn:E.
  - exists []. exact E.
  - apply not_all_returned in E as (l1 & t & l2 & -> & Ht).
    pose proof (resume_steps_left t d Ht) as Hlt.
    destruct (IH (total_left (l1 ++ fst (resume t d) :: l2))) with
      (p := (snd (resume t d), l1 ++ fst (resume t d) :: l2)) as [more Hmore].
    + subst n. cbn [snd]. rewrite !total_left_app, !total_left_cons. lia.
    + reflexivity.
    + exists (List.length l1 :: more). rewrite interleave_cons. cbn [fst snd].
      rewrite resume_at_middle. exact Hmore.
Qed.

(** *** The invariant of a race *)

Lemma seated_same (d : Database) (t t' : Task) :
  task_game t' = task_game t -> task_user t' = task_user t ->
  seated d t' = seated d t.
Proof. unfold seated. intros -> ->. reflexivity. Qed.

Lemma task_result_moved (t : Task) (p : Point) (out : list Out) :
  task_result (moved t p out)
  = match task_result t with
    | Some r => Some r
    | None => verdict join_said out
    end.
Proof. unfold task_result, moved. cbn [task_out]. apply verdict_app. Qed.

Lemma find_player_app (l : list PlayerRow) (x : PlayerRow) (gid uid : Z) :
  find (fun p => (player_game p =? gid) && (player_user p =? uid)) (l ++ [x])
  = match find (fun p => (player_game p =? gid) && (player_user p =? uid)) l with
    | Some y => Some y
    | None => if (player_game x =? gid) && (player_user x =? uid)
              then Some x else None
    end.
Proof.
  induction l as [|h l IH]; simpl; [reflexivity|].
  destruct ((player_game h =? gid) && (player_user h =? uid));
    [reflexivity | exact IH].
Qed.

Lemma is_user_joined_insert (d : Database) (gid uid : Z) (n : option string)
  (gid' uid' : Z) :
  is_user_joined
    (mkDb (games d) (players d ++ [mkPlayer gid uid n]) (reminders d)
       (games_seq d)) gid' uid'
  = is_user_joined d gid' uid' || ((gid =? gid') && (uid =? uid')).
Proof.
  unfold is_user_joined, find_player. cbn [players].
  rewrite find_player_app. cbn [player_game player_user].
  destruct (find _ (players d)); [reflexivity|].
  destruct ((gid =? gid') && (uid =? uid')); reflexivity.
Qed.

Lemma task_ok_store (d d' : Database) (t : Task) :
  seated d' t = seated d t -> task_ok d t -> task_ok d' t.
Proof. unfold task_ok. intros ->. auto. Qed.

Lemma filter_same {A : Type} (f f' : A -> bool) (l : list A) :
  Forall (fun x => f' x = f x) l -> filter f' l = filter f l.
Proof.
  induction 1 as [|x l Hx _ IH]; simpl; [reflexivity|].
  rewrite Hx, IH. reflexivity.
Qed.

Lemma Forall_middle {A : Type} (P : A -> Prop) (l1 : list A) (x : A)
  (l2 : list A) :
  Forall P (l1 ++ x :: l2) <-> Forall P l1 /\ P x /\ Forall P l2.
Proof. rewrite Forall_app, Forall_cons_iff. tauto. Qed.

Lemma Exists_middle {A : Type} (P : A -> Prop) (l1 : list A) (x : A)
  (l2 : list A) :
  Exists P (l1 ++ x :: l2) <-> Exists P l1 \/ P x \/ Exists P l2.
Proof. rewrite Exists_app, Exists_cons. tauto. Qed.

Section OneGame.

(** The game raced for, its row, and the number of participants it had when
    the race began. *)
Variables (gid : Z) (g : GameRow) (k : Z).
Hypothesis capacity_positive : 0 < max_players g.

(** A step that leaves the store alone. *)
Lemma racing_replace (d : Database) (l1 : list Task) (t t' : Task)
  (l2 : list Task) :
  Racing gid g k d (l1 ++ t :: l2) ->
  task_game t' = task_game t -> task_user t' = task_user t ->
  task_ok d t' ->
  (refused d t' = true ->
   refused d t = true \/ count_players d gid = max_players g) ->
  Racing gid g k d (l1 ++ t' :: l2).
Proof.
  intros [Hgame Htasks Hdist Hstate Hcount Hbound Hfull] Hg Hu Hok Href.
  pose proof (seated_same d t t' Hg Hu) as Hs.
  apply Forall_middle in Htasks as (Ht1 & Ht & Ht2).
  apply Forall_middle in Hstate as (Hs1 & _ & Hs2).
  constructor; try assumption.
  - apply Forall_middle. repeat split; [exact Ht1 | congruence | exact Ht2].
  - rewrite map_app in *. cbn [map] in *. rewrite Hu. exact Hdist.
  - apply Forall_middle. auto.
  - rewrite Hcount. rewrite !filter_app. cbn [filter]. rewrite Hs.
    rewrite !length_app. destruct (seated d t); reflexivity.
  - intros Hex. apply Exists_middle in Hex as [Hex|[Hex|Hex]].
    + apply Hfull, Exists_middle. left. exact Hex.
    + destruct (Href Hex) as [H|H]; [|exact H].
      apply Hfull, Exists_middle. right. left. exact H.
    + apply Hfull, Exists_middle. right. right. exact Hex.
Qed.

(** The step that takes a seat. *)
Lemma racing_insert (d : Database) (l1 : list Task) (t : Task)
  (l2 : list Task) (game : GameInfo) (out : list Out) :
  Racing gid g k d (l1 ++ t :: l2) ->
  count_players d gid < max_players g ->
  task_game t = gid -> task_result t = None -> seated d t = false ->
  verdict join_said out = None ->
  Racing gid g k
    (mkDb (games d)
       (players d
        ++ [mkPlayer gid (user_id (task_user t)) (user_name (task_user t))])
       (reminders d) (games_seq d))
    (l1 ++ moved t (in_notify game) out :: l2).
Proof.
  intros [Hgame Htasks Hdist Hstate Hcount Hbound Hfull] Hlt Hg Hres Hseat Hout.
  set (d' := mkDb _ _ _ _).
  assert (Hothers : Forall (fun t0 => seated d' t0 = seated d t0) (l1 ++ l2)).
  { rewrite map_app in Hdist. cbn [map] in Hdist.
    apply NoDup_remove_2 in Hdist. rewrite <- map_app in Hdist.
    apply Forall_forall. intros t0 Hin. unfold seated, d'.
    rewrite is_user_joined_insert.
    destruct (Z.eqb_spec (user_id (task_user t)) (user_id (task_user t0)))
      as [E|E]; [|rewrite andb_false_r, orb_false_r; reflexivity].
    exfalso. apply Hdist. rewrite E.
    apply (in_map (fun t => user_id (task_user t))). exact Hin. }
  apply Forall_app in Hothers as [Ho1 Ho2].
  assert (Hnew : seated d' (moved t (in_notify game) out) = true).
  { unfold seated, d', moved. cbn [task_game task_user].
    rewrite is_user_joined_insert, Hg, !Z.eqb_refl. apply orb_true_r. }
  assert (Hnone : ~ Exists (fun t0 => refused d t0 = true) (l1 ++ t :: l2))
    by (intros Hex; specialize (Hfull Hex); lia).
  assert (Hkeep : forall l, Forall (fun t0 => seated d' t0 = seated d t0) l ->
                            Exists (fun t0 => refused d' t0 = true) l ->
                            Exists (fun t0 => refused d t0 = true) l).
  { intros l Ho Hex. apply Exists_exists in Hex as (t0 & Hin & Hr).
    apply Exists_exists. exists t0. split; [exact Hin|].
    rewrite Forall_forall in Ho. unfold refused in *.
    rewrite <- (Ho t0 Hin). exact Hr. }
  apply Forall_middle in Htasks as (Ht1 & _ & Ht2).
  apply Forall_middle in Hstate as (Hs1 & _ & Hs2).
  constructor.
  - exact Hgame.
  - apply Forall_middle. auto.
  - rewrite map_app in *. exact Hdist.
  - apply Forall_middle. repeat split.
    + rewrite Forall_forall in *. intros t0 Hin.
      apply (task_ok_store d d' t0 (Ho1 t0 Hin) (Hs1 t0 Hin)).
    + cbn [moved task_point]. rewrite task_result_moved, Hres. exact Hout.
    + exact Hnew.
    + rewrite Forall_forall in *. intros t0 Hin.
      apply (task_ok_store d d' t0 (Ho2 t0 Hin) (Hs2 t0 Hin)).
  - unfold d'. rewrite count_players_app. fold d'. rewrite Hcount.
    rewrite !filter_app. cbn [filter]. rewrite Hnew, Hseat.
    rewrite (filter_same _ _ l1 Ho1), (filter_same _ _ l2 Ho2).
    rewrite !length_app. cbn [List.length]. lia.
  - unfold d'. rewrite count_players_app. lia.
  - intros Hex. exfalso. apply Hnone, Exists_middle.
    apply Exists_middle in Hex as [Hex|[Hex|Hex]].
    + left. exact (Hkeep l1 Ho1 Hex).
    + unfold refused in Hex. rewrite Hnew, andb_false_r in Hex. discriminate.
    + right. right. exact (Hkeep l2 Ho2 Hex).
Qed.

(** A step of a task that holds a seat: the store stays, the task is still
    seated, what it has answered is kept or becomes [Ok]. *)
Ltac seated_step H d t Hres Hseat :=
  apply (racing_replace _ _ _ _ _ H); try reflexivity;
  [ unfold task_ok; cbn [moved task_point];
    try left; (split; [rewrite task_result_moved, Hres; reflexivity | exact Hseat])
  | unfold refused; rewrite (seated_same d t) by reflexivity;
    rewrite Hseat, andb_false_r; discriminate ].

Lemma racing_resume (d : Database) (l1 : list Task) (t : Task)
  (l2 : list Task) :
  Racing gid g k d (l1 ++ t :: l2) ->
  Racing gid g k (snd (resume t d)) (l1 ++ fst (resume t d) :: l2).
Proof.
  intros H.
  destruct (proj1 (Forall_middle _ _ _ _) (race_tasks _ _ _ _ _ H))
    as (_ & Hg & _).
  destruct (proj1 (Forall_middle _ _ _ _) (race_state _ _ _ _ _ H))
    as (_ & Hok & _).
  unfold resume. unfold task_ok in Hok.
  destruct (task_point t) eqn:Hp; cbn [fst snd].
  - (* at_entry: the first answer is sent *)
    destruct Hok as [Hres Hseat].
    apply (racing_replace _ _ _ _ _ H); try reflexivity.
    + unfold task_ok. cbn [moved task_point]. split; [|exact Hseat].
      rewrite task_result_moved, Hres. reflexivity.
    + discriminate.
  - (* in_first_answer: the capacity check and the insert *)
    destruct Hok as [Hres Hseat]. rewrite Hg.
    destruct (get_game_info_found d gid g (race_game _ _ _ _ _ H))
      as (info & Hinfo & _ & _ & Hmax & Hcur).
    rewrite Hinfo, Hmax, Hcur.
    destruct (Z.ltb_spec 0 (max_players g)) as [_|]; [|lia]. cbn [andb].
    destruct (Z.leb_spec (max_players g) (count_players d gid)) as [Hfull|Hfree].
    + cbn [fst snd].
      apply (racing_replace _ _ _ _ _ H); try reflexivity.
      * unfold task_ok. cbn [moved task_point]. split; [|exact Hseat].
        rewrite task_result_moved, Hres. reflexivity.
      * intros _. right. pose proof (race_bound _ _ _ _ _ H). lia.
    + unfold seated in Hseat. rewrite Hg in Hseat. unfold insert_player.
      rewrite Hseat. cbn [fst snd].
      apply racing_insert; try assumption; try reflexivity.
      unfold seated. rewrite Hg. exact Hseat.
  - (* in_refusal: the call returns *)
    destruct Hok as [Hres Hseat].
    apply (racing_replace _ _ _ _ _ H); try reflexivity.
    + unfold task_ok. cbn [moved task_point]. right. split; [|exact Hseat].
      rewrite task_result_moved, Hres. reflexivity.
    + intros _. left. unfold refused, waiting. rewrite Hp, Hseat. reflexivity.
  - (* in_failure: never reached in a race *)
    contradiction.
  - destruct Hok as [Hres Hseat]. seated_step H d t Hres Hseat.
  - destruct Hok as [Hres Hseat]. seated_step H d t Hres Hseat.
  - destruct Hok as [Hres Hseat]. seated_step H d t Hres Hseat.
  - destruct Hok as [Hres Hseat]. seated_step H d t Hres Hseat.
  - (* returned: nothing to resume *)
    exact H.
Qed.

Lemma racing_interleave (schedule : list nat) (p : Pool) :
  Racing gid g k (fst p) (snd p) ->
  Racing gid g k (fst (interleave schedule p)) (snd (interleave schedule p)).
Proof.
  revert p. induction schedule as [|i sch IH]; intros [d ts] H; [exact H|].
  rewrite interleave_cons. apply IH. cbn [fst snd] in *.
  destruct (resume_at_split i d ts) as [(l1 & t & l2 & -> & _ & ->)|[_ ->]];
    [|exact H].
  cbn [fst snd]. apply racing_resume; assumption.
Qed.

End OneGame.

Lemma filter_none {A : Type} (f : A -> bool) (l : list A) :
  Forall (fun x => f x = false) l -> filter f l = [].
Proof.
  induction 1 as [|x l Hx _ IH]; simpl; [reflexivity|]. rewrite Hx. exact IH.
Qed.

Lemma racing_start (gid : Z) (g : GameRow) (d : Database) (users : list User) :
  find_game d gid = Some g ->
  count_players d gid <= max_players g ->
  NoDup (map user_id users) ->
  Forall (fun u => is_user_joined d gid (user_id u) = false) users ->
  Racing gid g (count_players d gid) d (map (spawn gid) users).
Proof.
  intros Hgame Hbound Hdist Hnew.
  assert (Hnone : Forall (fun t => seated d t = false) (map (spawn gid) users)).
  { apply Forall_map. eapply Forall_impl; [|exact Hnew]. auto. }
  constructor.
  - exact Hgame.
  - apply Forall_map, Forall_forall. reflexivity.
  - rewrite map_map. exact Hdist.
  - apply Forall_map. eapply Forall_impl; [|exact Hnew].
    intros u Hu. split; [reflexivity | exact Hu].
  - rewrite (filter_none _ _ Hnone). simpl. lia.
  - exact Hbound.
  - intros Hex. apply Exists_exists in Hex as (t & Hin & Hr).
    apply in_map_iff in Hin as (u & <- & _). discriminate.
Qed.

(** *** When every call has returned *)

Lemma results_when_returned (d : Database) (ts : list Task) :
  Forall (task_ok d) ts -> forallb has_returned ts = true ->
  filter (result_is Ok) ts = filter (seated d) ts
  /\ filter (result_is Full) ts = filter (fun t => negb (seated d t)) ts.
Proof.
  intros Hok Hret. rewrite forallb_forall in Hret.
  split; apply filter_same, Forall_forall; intros t Hin;
    rewrite Forall_forall in Hok; specialize (Hok t Hin);
    specialize (Hret t Hin); unfold has_returned in Hret;
    unfold task_ok in Hok; destruct (task_point t); try discriminate;
    unfold result_is; destruct Hok as [[-> ->]|[-> ->]]; reflexivity.
Qed.

Lemma filter_lengths {A : Type} (f : A -> bool) (l : list A) :
  (List.length (filter f l) + List.length (filter (fun x => negb (f x)) l)
   = List.length l)%nat.
Proof.
  induction l as [|a l IH]; simpl; [reflexivity|].
  destruct (f a); simpl; lia.
Qed.

Lemma refused_when_returned (d : Database) (ts : list Task) :
  forallb has_returned ts = true ->
  filter (fun t => negb (seated d t)) ts <> [] ->
  Exists (fun t => refused d t = true) ts.
Proof.
  intros Hret Hne.
  destruct (filter (fun t => negb (seated d t)) ts) as [|t l] eqn:E;
    [contradiction|].
  assert (Hin : In t (filter (fun t => negb (seated d t)) ts))
    by (rewrite E; left; reflexivity).
  apply filter_In in Hin as [Hin Hs]. apply Exists_exists. exists t.
  split; [exact Hin|]. rewrite forallb_forall in Hret. specialize (Hret t Hin).
  unfold refused, waiting. unfold has_returned in Hret.
  destruct (task_point t); try discriminate. exact Hs.
Qed.

(** The invariant holds after any interleaving of the calls. *)
Lemma race_invariant (d : Database) (gid : Z) (g : GameRow)
  (users : list User) (schedule : list nat) :
  find_game d gid = Some g ->
  0 < max_players g ->
  count_players d gid <= max_players g ->
  NoDup (map user_id users) ->
  Forall (fun u => is_user_joined d gid (user_id u) = false) users ->
  Racing gid g (count_players d gid)
    (fst (interleave schedule (d, map (spawn gid) users)))
    (snd (interleave schedule (d, map (spawn gid) users))).
Proof.
  intros Hgame Hcap Hbound Hdist Hnew.
  apply (racing_interleave gid g (count_players d gid) Hcap schedule
           (d, map (spawn gid) users)).
  apply racing_start; assumption.
Qed.

(** What the answers are once every call of a race has returned. *)
Lemma race_results (gid : Z) (g : GameRow) (k : Z) (d : Database)
  (ts : list Task) :
  Racing gid g k d ts -> forallb has_returned ts = true ->
  count_result Ok ts = Z.min (Z.of_nat (List.length ts)) (max_players g - k)
  /\ count_result Full ts = Z.of_nat (List.length ts) - count_result Ok ts
  /\ count_players d gid = k + count_result Ok ts.
Proof.
  intros H Hret.
  destruct (results_when_returned d ts (race_state _ _ _ _ _ H) Hret)
    as [Eok Efull].
  unfold count_result. rewrite Eok, Efull.
  pose proof (race_count _ _ _ _ _ H) as Hcount.
  pose proof (race_bound _ _ _ _ _ H) as Hle.
  pose proof (filter_lengths (seated d) ts) as Hsum.
  destruct (filter (fun t => negb (seated d t)) ts) as [|t l] eqn:E.
  - cbn [List.length] in *. repeat split; lia.
  - assert (Hfull : count_players d gid = max_players g).
    { apply (race_full _ _ _ _ _ H).
      apply refused_when_returned; [exact Hret|]. rewrite E. discriminate. }
    cbn [List.length] in *. repeat split; lia.
Qed.

(** C1, as the code has it.  Take an event with capacity C > 0 that holds
    k <= C participants, and N calls of [book_game] on it by distinct
    identities that are not participants, in flight together.  Under every
    order in which the event loop resumes them the participant count never
    exceeds C; once all have returned, exactly min(N, C - k) of them have
    answered [Ok] and all the others [Full], and the count has grown by the
    number of [Ok]; and whatever has run so far, the calls can all be run to
    their return.  (The capacity check and the insert of one call lie between
    two awaits, so no other call runs between them.) *)
Theorem joins_never_oversell (d : Database) (gid : Z) (g : GameRow)
  (users : list User) (schedule : list nat) :
  find_game d gid = Some g ->
  0 < max_players g ->
  count_players d gid <= max_players g ->
  NoDup (map user_id users) ->
  Forall (fun u => is_user_joined d gid (user_id u) = false) users ->
  count_players (fst (interleave schedule (d, map (spawn gid) users))) gid
  <= max_players g
  /\ (forallb has_returned
        (snd (interleave schedule (d, map (spawn gid) users))) = true ->
      count_result Ok (snd (interleave schedule (d, map (spawn gid) users)))
      = Z.min (Z.of_nat (List.length users))
          (max_players g - count_players d gid)
      /\ count_result Full (snd (interleave schedule (d, map (spawn gid) users)))
         = Z.of_nat (List.length users)
           - count_result Ok
               (snd (interleave schedule (d, map (spawn gid) users)))
      /\ count_players (fst (interleave schedule (d, map (spawn gid) users))) gid
         = count_players d gid
           + count_result Ok
               (snd (interleave schedule (d, map (spawn gid) users))))
  /\ exists more,
       forallb has_returned
         (snd (interleave (schedule ++ more) (d, map (spawn gid) users)))
       = true.
Proof.
  intros Hgame Hcap Hbound Hdist Hnew.
  pose proof (race_invariant d gid g users schedule Hgame Hcap Hbound Hdist Hnew)
    as H.
  set (p := interleave schedule (d, map (spawn gid) users)) in *.
  assert (Hlen : List.length (snd p) = List.length users).
  { unfold p. rewrite interleave_length. cbn [snd]. apply length_map. }
  split; [|split].
  - (* safety: the bound is part of the invariant *)
    exact (race_bound _ _ _ _ _ H).
  - (* the answers, once all have returned *)
    intros Hret. rewrite <- Hlen. exact (race_results _ _ _ _ _ H Hret).
  - (* every call does return *)
    destruct (every_call_returns p) as [more Hmore]. exists more.
    rewrite interleave_app. exact Hmore.
Qed.

Lemma joins_never_oversell_witness :
  find_game (db four_seats_context) 2 = Some four_seats
  /\ 0 < max_players four_seats
  /\ count_players (db four_seats_context) 2 <= max_players four_seats
  /\ forallb has_returned
       (snd (interleave [0; 1; 1; 0; 0; 1; 1; 0; 1; 0; 0; 1; 0; 1]%nat
               (db four_seats_context,
                map (spawn 2) [mkUser 10 None; mkUser 11 None]))) = true
  /\ count_result Ok
       (snd (interleave [0; 1; 1; 0; 0; 1; 1; 0; 1; 0; 0; 1; 0; 1]%nat
               (db four_seats_context,
                map (spawn 2) [mkUser 10 None; mkUser 11 None]))) = 1
  /\ count_result Full
       (snd (interleave [0; 1; 1; 0; 0; 1; 1; 0; 1; 0; 0; 1; 0; 1]%nat
               (db four_seats_context,
                map (spawn 2) [mkUser 10 None; mkUser 11 None]))) = 1.
Proof.
  assert (H1 : find_game (db four_seats_context) 2 = Some four_seats)
    by reflexivity.
  assert (H2 : 0 < max_players four_seats) by reflexivity.
  assert (H3 : count_players (db four_seats_context) 2 <= max_players four_seats)
    by (vm_compute; discriminate).
  assert (H4 : NoDup (map user_id [mkUser 10 None; mkUser 11 None])).
  { repeat constructor; simpl; intuition discriminate. }
  assert (H5 : Forall
                 (fun u => is_user_joined (db four_seats_context) 2 (user_id u)
                           = false)
                 [mkUser 10 None; mkUser 11 None])
    by (repeat constructor).
  assert (H6 : forallb has_returned
                 (snd (interleave [0; 1; 1; 0; 0; 1; 1; 0; 1; 0; 0; 1; 0; 1]%nat
                         (db four_seats_context,
                          map (spawn 2) [mkUser 10 None; mkUser 11 None])))
               = true) by reflexivity.
  split; [exact H1|]. split; [exact H2|]. split; [exact H3|].
  split; [exact H6|].
  destruct (joins_never_oversell (db four_seats_context) 2 four_seats
              [mkUser 10 None; mkUser 11 None]
              [0; 1; 1; 0; 0; 1; 1; 0; 1; 0; 0; 1; 0; 1]%nat H1 H2 H3 H4 H5)
    as (_ & Hres & _).
  destruct (Hres H6) as (Hok & Hfull & _).
  split; [exact Hok|]. rewrite Hfull, Hok. reflexivity.
Defined.

(** Two joins in flight when one seat is left: one [Ok], one [Full],
    whatever the interleaving that runs both to their return. *)
Corollary two_joins_one_seat (d : Database) (gid : Z) (g : GameRow)
  (u1 u2 : User) (schedule : list nat) :
  find_game d gid = Some g ->
  count_players d gid + 1 = max_players g ->
  user_id u1 <> user_id u2 ->
  is_user_joined d gid (user_id u1) = false ->
  is_user_joined d gid (user_id u2) = false ->
  forallb has_returned
    (snd (interleave schedule (d, [spawn gid u1; spawn gid u2]))) = true ->
  count_result Ok (snd (interleave schedule (d, [spawn gid u1; spawn gid u2]))) = 1
  /\ count_result Full
       (snd (interleave schedule (d, [spawn gid u1; spawn gid u2]))) = 1.
Proof.
  intros Hg Hone Hne H1 H2 Hret.
  assert (Hpos : 0 <= count_players d gid) by (unfold count_players; lia).
  assert (H : Racing gid g (count_players d gid)
                (fst (interleave schedule (d, map (spawn gid) [u1; u2])))
                (snd (interleave schedule (d, map (spawn gid) [u1; u2])))).
  { apply race_invariant; try assumption; try lia.
    - repeat constructor; simpl; intuition.
    - repeat constructor; assumption. }
  cbn [map] in H.
  destruct (race_results _ _ _ _ _ H Hret) as (Hok & Hfull & _).
  rewrite interleave_length in Hok, Hfull. cbn [snd List.length] in Hok, Hfull.
  lia.
Qed.

(** Why the event loop matters: the store has no capacity constraint of its
    own and runs each statement as its own transaction.  Two inserts that
    were both justified by one and the same reading of the count (three of
    four seats taken) leave five participants.  No interleaving of
    [book_game] calls produces this, because a call reads the count and
    inserts without awaiting in between. *)
Remark store_alone_does_not_guard_capacity :
  is_full (mkInfo "Catan" 900000 4 "bring snacks" None
             (count_players (db four_seats_context) 2) (Some "ann")) = false
  /\ option_map (fun d => count_players d 2)
       (match insert_player (db four_seats_context) 2 10 None with
        | Some d => insert_player d 2 11 None
        | None => None
        end)
     = Some 5.
Proof. split; reflexivity. Qed.

(** C1 as stated fails on the count of [Ok]: an event is created with its
    creator as a participant, so an event of capacity 1 is full from the
    start and the one join that follows is answered [Full]; with N = 1 and
    C = 1 no call returns [Ok]. *)
Lemma join_on_new_single_seat_event_is_Full :
  max_players single_seat = 1
  /\ count_players (db single_seat_context) 1 = 1
  /\ is_user_joined (db single_seat_context) 1 (user_id bob) = false
  /\ forallb has_returned
       (snd (interleave (round_robin 1)
               (db single_seat_context, [spawn 1 bob]))) = true
  /\ count_result Ok
       (snd (interleave (round_robin 1)
               (db single_seat_context, [spawn 1 bob]))) = 0
  /\ count_result Full
       (snd (interleave (round_robin 1)
               (db single_seat_context, [spawn 1 bob]))) = 1.
Proof. repeat split. Qed.

End Race.

(* ================================================================== *)
(** * Part III - further properties of the code                        *)
(* ================================================================== *)

(** ** Payloads: rendering, splitting, reading back *)
Module RouterFacts.
Import Store Chat Reminders Handlers Router.

Lemma digit_char_spec (d : Z) :
  0 <= d < 10 ->
  Text.is_digit (digit_char d) = true /\ Text.digit_val (digit_char d) = d.
Proof.
  intros H.
  assert (E : d = 0 \/ d = 1 \/ d = 2 \/ d = 3 \/ d = 4 \/ d = 5 \/ d = 6
              \/ d = 7 \/ d = 8 \/ d = 9) by lia.
  repeat (destruct E as [->|E]; [split; reflexivity|]).
  subst. split; reflexivity.
Qed.

Lemma pow2_succ (f : nat) : 2 ^ Z.of_nat (S f) = 2 * 2 ^ Z.of_nat f.
Proof. rewrite Nat2Z.inj_succ, Z.pow_succ_r by lia. reflexivity. Qed.

Lemma digits_fuel_S (f : nat) (n : Z) (acc : string) :
  digits_fuel (S f) n acc
  = if n <? 10 then String (digit_char n) acc
    else digits_fuel f (n / 10) (String (digit_char (n mod 10)) acc).
Proof. reflexivity. Qed.

(** Reading the digits [digits_fuel] writes gives the number back. *)
Lemma int_digits_fuel (f : nat) :
  forall (n : Z) (acc : string) (prev : bool),
    0 <= n < 2 ^ Z.of_nat (S f) ->
    Text.int_digits (list_ascii_of_string (digits_fuel (S f) n acc)) prev 0
    = Text.int_digits (list_ascii_of_string acc) true n.
Proof.
  induction f as [|f IH]; intros n acc prev Hn; rewrite digits_fuel_S.
  - change (2 ^ Z.of_nat 1) with 2 in Hn.
    destruct (Z.ltb_spec n 10); [|lia].
    cbn [list_ascii_of_string Text.int_digits].
    destruct (digit_char_spec n) as [-> ->]; [lia|]. reflexivity.
  - destruct (Z.ltb_spec n 10).
    + cbn [list_ascii_of_string Text.int_digits].
      destruct (digit_char_spec n) as [-> ->]; [lia|]. reflexivity.
    + rewrite pow2_succ in Hn.
      assert (Hq : 0 <= n / 10 < 2 ^ Z.of_nat (S f)).
      { split; [apply Z.div_pos; lia|].
        apply Z.div_lt_upper_bound; lia. }
      rewrite (IH (n / 10) _ prev Hq).
      cbn [list_ascii_of_string Text.int_digits].
      destruct (digit_char_spec (n mod 10)) as [-> ->];
        [apply Z.mod_pos_bound; lia|].
      f_equal. pose proof (Z.div_mod n 10). lia.
Qed.

(** Every character [digits_fuel] writes is a digit. *)
Lemma digits_fuel_digits (f : nat) :
  forall (n : Z) (acc : string),
    0 <= n ->
    forallb Text.is_digit (list_ascii_of_string acc) = true ->
    forallb Text.is_digit (list_ascii_of_string (digits_fuel f n acc)) = true.
Proof.
  induction f as [|f IH]; intros n acc Hn Hacc; [exact Hacc|].
  rewrite digits_fuel_S. destruct (Z.ltb_spec n 10).
  - cbn [list_ascii_of_string forallb].
    destruct (digit_char_spec n) as [-> _]; [lia|]. exact Hacc.
  - apply IH; [apply Z.div_pos; lia|].
    cbn [list_ascii_of_string forallb].
    destruct (digit_char_spec (n mod 10)) as [-> _];
      [apply Z.mod_pos_bound; lia|]. exact Hacc.
Qed.

Lemma log2_fuel (n : Z) :
  0 <= n -> 0 <= n < 2 ^ Z.of_nat (S (Z.to_nat (Z.log2 n))).
Proof.
  intros Hn. split; [exact Hn|].
  rewrite Nat2Z.inj_succ, Z2Nat.id by apply Z.log2_nonneg.
  destruct (Z.eq_dec n 0) as [->|Hz]; [reflexivity|].
  apply Z.log2_spec. lia.
Qed.

Lemma str_of_nat_Z_read (n : Z) (prev : bool) :
  0 <= n ->
  Text.int_digits (list_ascii_of_string (str_of_nat_Z n)) prev 0 = Some n
  /\ forallb Text.is_digit (list_ascii_of_string (str_of_nat_Z n)) = true.
Proof.
  intros Hn. unfold str_of_nat_Z. split.
  - rewrite int_digits_fuel by (apply log2_fuel; exact Hn). reflexivity.
  - apply digits_fuel_digits; [exact Hn | reflexivity].
Qed.

(** *** [strip] and the sign test of [int] on such text *)

Lemma digit_is_plain (c : ascii) :
  Text.is_digit c = true ->
  Text.is_space c = false /\ Ascii.eqb c "_" = false
  /\ Ascii.eqb c "-" = false /\ Ascii.eqb c "+" = false.
Proof.
  destruct c as [[] [] [] [] [] [] [] []]; intros H;
    try discriminate H; repeat split.
Qed.

Lemma drop_spaces_plain (l : list ascii) :
  match l with
  | c :: _ => Text.is_space c = false
  | [] => True
  end ->
  Text.drop_spaces l = l.
Proof. destruct l as [|c r]; [reflexivity|]. simpl. intros ->. reflexivity. Qed.

Lemma rstrip_rev_plain (l : list ascii) :
  match l with
  | c :: _ => Text.is_space c = false
  | [] => True
  end ->
  Text.rstrip_rev l = l.
Proof. destruct l as [|c r]; [reflexivity|]. simpl. intros ->. reflexivity. Qed.

Lemma strip_plain (l : list ascii) :
  forallb (fun c => negb (Text.is_space c)) l = true -> Text.strip l = l.
Proof.
  intros H. unfold Text.strip.
  assert (Hall : forall c, In c l -> Text.is_space c = false).
  { intros c Hc. rewrite forallb_forall in H. specialize (H c Hc).
    apply negb_true_iff in H. exact H. }
  assert (H1 : Text.drop_spaces l = l).
  { apply drop_spaces_plain. destruct l as [|c r]; [exact I|].
    apply Hall. left. reflexivity. }
  assert (H2 : Text.rstrip_rev (rev l) = rev l).
  { apply rstrip_rev_plain. destruct (rev l) as [|c r] eqn:E; [exact I|].
    apply Hall, in_rev. rewrite E. left. reflexivity. }
  rewrite H1, H2. apply rev_involutive.
Qed.

Lemma digits_no_space (l : list ascii) :
  forallb Text.is_digit l = true ->
  forallb (fun c => negb (Text.is_space c)) l = true.
Proof.
  induction l as [|c l IH]; [reflexivity|]. cbn [forallb].
  intros H. apply andb_true_iff in H as [Hc Hl].
  destruct (digit_is_plain c Hc) as (-> & _). simpl. apply IH, Hl.
Qed.

(** [int(str(n)) == n]. *)
Lemma python_int_str (n : Z) : Text.python_int (str n) = Some n.
Proof.
  unfold Text.python_int, str. destruct (Z.ltb_spec n 0).
  - destruct (str_of_nat_Z_read (- n) false) as [Hread Hdig]; [lia|].
    cbn [list_ascii_of_string]. rewrite strip_plain.
    + rewrite Hread. simpl. f_equal. lia.
    + cbn [forallb]. apply digits_no_space in Hdig. rewrite Hdig. reflexivity.
  - destruct (str_of_nat_Z_read n false) as [Hread Hdig]; [lia|].
    rewrite strip_plain by (apply digits_no_space, Hdig).
    destruct (list_ascii_of_string (str_of_nat_Z n)) as [|c r] eqn:E;
      [discriminate Hread|].
    cbn [forallb] in Hdig. apply andb_true_iff in Hdig as [Hc _].
    destruct (digit_is_plain c Hc) as (_ & _ & Hm & Hp).
    destruct c as [b0 b1 b2 b3 b4 b5 b6 b7].
    destruct b0, b1, b2, b3, b4, b5, b6, b7;
      try discriminate Hm; try discriminate Hp; exact Hread.
Qed.

(** *** Splitting at the underscores *)

Lemma split_plain (s : string) :
  forallb (fun c => negb (Ascii.eqb c "_")) (list_ascii_of_string s) = true ->
  split "_" s = [s].
Proof.
  induction s as [|c s IH]; [reflexivity|].
  cbn [list_ascii_of_string forallb split]. intros H.
  apply andb_true_iff in H as [Hc Hs]. apply negb_true_iff in Hc.
  rewrite Hc, (IH Hs). reflexivity.
Qed.

Lemma split_append (p r : string) :
  forallb (fun c => negb (Ascii.eqb c "_")) (list_ascii_of_string p) = true ->
  split "_" (p ++ String "_" r)%string = p :: split "_" r.
Proof.
  induction p as [|c p IH]; [reflexivity|].
  cbn [list_ascii_of_string forallb split String.append]. intros H.
  apply andb_true_iff in H as [Hc Hp]. apply negb_true_iff in Hc.
  rewrite Hc, (IH Hp). reflexivity.
Qed.

Lemma str_plain (n : Z) :
  forallb (fun c => negb (Ascii.eqb c "_")) (list_ascii_of_string (str n))
  = true.
Proof.
  assert (Hd : forall l, forallb Text.is_digit l = true ->
                         forallb (fun c => negb (Ascii.eqb c "_")) l = true).
  { induction l as [|c l IH]; [reflexivity|]. cbn [forallb]. intros H.
    apply andb_true_iff in H as [Hc Hl].
    destruct (digit_is_plain c Hc) as (_ & -> & _). simpl. apply IH, Hl. }
  unfold str. destruct (Z.ltb_spec n 0).
  - cbn [list_ascii_of_string forallb]. simpl negb. cbn [andb].
    apply Hd. apply (str_of_nat_Z_read (- n) false). lia.
  - apply Hd. apply (str_of_nat_Z_read n false). lia.
Qed.

(** The pieces of the four payloads that carry an identifier. *)
Lemma split_payload (gid : Z) :
  split "_" (payload (cb_game gid)) = ["game"; str gid]
  /\ split "_" (payload (cb_book gid)) = ["book"; str gid]
  /\ split "_" (payload (cb_cancel_booking gid)) = ["cancel"; "booking"; str gid]
  /\ split "_" (payload (cb_delete_game gid)) = ["delete"; "game"; str gid].
Proof.
  pose proof (split_plain (str gid) (str_plain gid)) as Hs.
  repeat split.
  - change (payload (cb_game gid)) with ("game" ++ String "_" (str gid))%string.
    rewrite split_append, Hs by reflexivity. reflexivity.
  - change (payload (cb_book gid)) with ("book" ++ String "_" (str gid))%string.
    rewrite split_append, Hs by reflexivity. reflexivity.
  - change (payload (cb_cancel_booking gid))
      with ("cancel" ++ String "_" ("booking" ++ String "_" (str gid)))%string.
    rewrite !split_append, Hs by reflexivity. reflexivity.
  - change (payload (cb_delete_game gid))
      with ("delete" ++ String "_" ("game" ++ String "_" (str gid)))%string.
    rewrite !split_append, Hs by reflexivity. reflexivity.
Qed.

Lemma prefix_nil (s : string) : String.prefix "" s = true.
Proof. destruct s; reflexivity. Qed.

(** The handler [button] picks for each payload the keyboards carry. *)
Lemma route_payload (cb : Callback) :
  route (payload cb)
  = Some match cb with
         | cb_upcoming_games => to_show_upcoming_games
         | cb_create_game => to_create_game_step1
         | cb_game _ => to_game_details
         | cb_book _ => to_book_game
         | cb_cancel_booking _ => to_cancel_booking
         | cb_delete_game _ => to_delete_game
         | cb_my_bookings => to_show_my_bookings
         | cb_back_to_menu => to_menu
         end.
Proof.
  destruct cb; try reflexivity; unfold route, handlers, payload;
    cbn [find fst snd String.append]; simpl String.prefix;
    rewrite ?prefix_nil; reflexivity.
Qed.

(** X1.  Every payload the keyboards carry comes back to the handler it was
    rendered for, with the identifier it was rendered with: on such a
    payload [button], working on the text (prefix dispatch, [split('_')],
    [int]), does what the handler does on the decoded identifier.  For a
    cancellation that includes the failure of the closing [game_details],
    which reads the word [booking] where it expects the identifier. *)
Theorem button_reads_back_what_was_rendered (now : Time.datetime)
  (cb : Callback) (user : User) (c : Context) :
  button_data now (payload cb) user c = button now cb user c.
Proof.
  unfold button_data, button. rewrite route_payload.
  destruct (split_payload match cb with
                          | cb_game g | cb_book g | cb_cancel_booking g
                          | cb_delete_game g => g
                          | _ => 0
                          end) as (Hgame & Hbook & Hcancel & Hdelete).
  destruct cb as [| |gid|gid|gid|gid| |]; try reflexivity.
  - (* game_<id> *)
    unfold game_details_data, int_piece. rewrite Hgame. cbn [nth_error].
    rewrite python_int_str. reflexivity.
  - (* book_<id> *)
    unfold book_game_data, book_game, game_details_data, int_piece.
    rewrite Hbook. cbn [nth_error]. rewrite python_int_str.
    destruct (get_game_info (db c) gid) as [game|]; [|reflexivity].
    destruct ((0 <? info_max_players game)
              && (info_max_players game <=? info_current_players game));
      [reflexivity|].
    destruct (is_user_joined (db c) gid (user_id user)); [reflexivity|].
    destruct (insert_player (db c) gid (user_id user) (user_name user));
      [|reflexivity].
    rewrite app_nil_r. reflexivity.
  - (* cancel_booking_<id> *)
    unfold cancel_booking_data, cancel_booking, game_details_data, int_piece.
    rewrite Hcancel. cbn [nth_error]. rewrite python_int_str.
    change (Text.python_int "booking") with (@None Z).
    destruct (negb (is_user_joined (db c) gid (user_id user))); [reflexivity|].
    cbv zeta. unfold with_db.
    destruct (get_game_info (delete_player (db c) gid (user_id user)) gid);
      reflexivity.
  - (* delete_game_<id> *)
    unfold delete_game_data, int_piece. rewrite Hdelete. cbn [nth_error].
    rewrite python_int_str. reflexivity.
Qed.

(** X2.  The view that closes a handler reads the identifier from the second
    piece of the payload.  After a booking that is the identifier, and the
    game is shown; after a cancellation it is the word [booking]: the view
    raises after its first answer, whatever the identifier, so a cancellation
    that removed the row still ends with the error text. *)
Theorem closing_view_after_book_and_cancel (gid : Z) (user : User)
  (c : Context) :
  game_details_data (payload (cb_book gid)) user c
  = (game_details gid user c, false)
  /\ game_details_data (payload (cb_cancel_booking gid)) user c
     = ([answer None], true)
  /\ (is_user_joined (db c) gid (user_id user) = true ->
      exists notice,
        fst (cancel_booking_data (payload (cb_cancel_booking gid)) user c)
        = [answer None] ++ notice
          ++ [answer (Some BookingCancelled); answer None;
              answer (Some CancelError)]
        /\ is_user_joined
             (db (snd (cancel_booking_data (payload (cb_cancel_booking gid))
                         user c)))
             gid (user_id user) = false).
Proof.
  destruct (split_payload gid) as (_ & Hbook & Hcancel & _).
  assert (Hview : game_details_data (payload (cb_cancel_booking gid)) user
                    (with_db c (delete_player (db c) gid (user_id user)))
                  = ([answer None], true)).
  { unfold game_details_data, int_piece. rewrite Hcancel. reflexivity. }
  split; [|split].
  - unfold game_details_data, int_piece. rewrite Hbook. cbn [nth_error].
    rewrite python_int_str. reflexivity.
  - unfold game_details_data, int_piece. rewrite Hcancel. reflexivity.
  - intros Hj. unfold cancel_booking_data, int_piece. rewrite Hcancel.
    cbn [nth_error]. rewrite python_int_str, Hj. cbn [negb]. cbv zeta.
    rewrite Hview. cbn [fst snd with_db db].
    eexists. split; [reflexivity|].
    unfold is_user_joined, find_player, delete_player. cbn [players].
    rewrite (StoreFacts.find_filter_out
               (fun p => (player_game p =? gid) && (player_user p =? user_id user))).
    reflexivity.
Qed.

Lemma closing_view_after_book_and_cancel_witness :
  is_user_joined (db Scenario.four_seats_context) 2 (user_id Scenario.bob) = true
  /\ exists notice,
       fst (cancel_booking_data (payload (cb_cancel_booking 2)) Scenario.bob
              Scenario.four_seats_context)
       = [answer None] ++ notice
         ++ [answer (Some BookingCancelled); answer None;
             answer (Some CancelError)].
Proof.
  split; [reflexivity|].
  destruct (closing_view_after_book_and_cancel 2 Scenario.bob
              Scenario.four_seats_context) as (_ & _ & H).
  destruct (H eq_refl) as (notice & Hout & _). exists notice. exact Hout.
Defined.

End RouterFacts.

(** ** Cancelling *)
Module Cancelling.
Import Store Chat Reminders Handlers Engine Shape.
Import StoreFacts Joining.

Lemma find_filter_keeps {A : Type} (f h : A -> bool) (l : list A) :
  (forall x, f x = true -> h x = true) ->
  find f (filter h l) = find f l.
Proof.
  intros H. induction l as [|a l IH]; simpl; [reflexivity|].
  destruct (h a) eqn:Eh; simpl.
  - rewrite IH. reflexivity.
  - destruct (f a) eqn:Ef; [|exact IH]. rewrite (H a Ef) in Eh. discriminate.
Qed.

Lemma filter_all {A : Type} (f : A -> bool) (l : list A) :
  (forall x, In x l -> f x = true) -> filter f l = l.
Proof.
  induction l as [|a l IH]; simpl; intros H; [reflexivity|].
  rewrite (H a (or_introl eq_refl)), IH; [reflexivity|].
  intros x Hx. apply H. right. exact Hx.
Qed.

Lemma not_joined_no_row (d : Database) (gid uid : Z) :
  is_user_joined d gid uid = false ->
  forall p, In p (players d) -> negb (key_is gid uid p) = true.
Proof.
  unfold is_user_joined, find_player. intros H p Hin.
  destruct (find _ (players d)) eqn:E; [discriminate|].
  apply negb_true_iff. exact (find_none _ _ E p Hin).
Qed.

(** Who is joined after a row is deleted. *)
Lemma is_user_joined_delete (d : Database) (gid uid g u : Z) :
  is_user_joined (delete_player d gid uid) g u
  = if (g =? gid) && (u =? uid) then false else is_user_joined d g u.
Proof.
  unfold is_user_joined, find_player, delete_player. cbn [players].
  destruct (Z.eqb_spec g gid) as [->|Hg]; [destruct (Z.eqb_spec u uid) as [->|Hu]|];
    cbn [andb].
  - rewrite (find_filter_out
               (fun p => (player_game p =? gid) && (player_user p =? uid))).
    reflexivity.
  - rewrite find_filter_keeps; [reflexivity|]. intros x Hx.
    apply andb_true_iff in Hx as [_ Hx]. apply Z.eqb_eq in Hx.
    destruct (Z.eqb_spec (player_user x) uid); [lia|].
    rewrite andb_false_r. reflexivity.
  - rewrite find_filter_keeps; [reflexivity|]. intros x Hx.
    apply andb_true_iff in Hx as [Hx _]. apply Z.eqb_eq in Hx.
    destruct (Z.eqb_spec (player_game x) gid); [lia|]. reflexivity.
Qed.

(** With one row per key, deleting a joined user's row takes one away. *)
Lemma count_after_delete (l : list PlayerRow) (gid uid : Z) :
  NoDup (map player_key l) ->
  (exists p, In p l /\ key_is gid uid p = true) ->
  S (List.length
       (filter (fun p => player_game p =? gid)
          (filter (fun p => negb (key_is gid uid p)) l)))
  = List.length (filter (fun p => player_game p =? gid) l).
Proof.
  induction l as [|h l IH]; intros Hnd (p & Hin & Hp); [contradiction|].
  cbn [map] in Hnd. apply NoDup_cons_iff in Hnd as [Hh Hnd].
  cbn [filter]. destruct (key_is gid uid h) eqn:Eh; cbn [negb].
  - assert (Hg : (player_game h =? gid) = true)
      by (apply andb_true_iff in Eh as [E _]; exact E).
    rewrite Hg. cbn [List.length].
    rewrite (filter_all (fun p => negb (key_is gid uid p)) l); [reflexivity|].
    intros x Hx. apply negb_true_iff.
    destruct (key_is gid uid x) eqn:Ex; [|reflexivity].
    exfalso. apply Hh. apply in_map_iff. exists x. split; [|exact Hx].
    unfold key_is in *. apply andb_true_iff in Eh as [E1 E2].
    apply andb_true_iff in Ex as [E3 E4].
    apply Z.eqb_eq in E1, E2, E3, E4. unfold player_key. congruence.
  - assert (Hrest : exists q, In q l /\ key_is gid uid q = true).
    { destruct Hin as [->|Hin]; [congruence|]. exists p. auto. }
    specialize (IH Hnd Hrest). cbn [filter].
    destruct (player_game h =? gid); cbn [List.length]; lia.
Qed.

Lemma cancel_cases (gid : Z) (user : User) (c : Context) :
  cancel gid user c
  = if is_user_joined (db c) gid (user_id user)
    then (Some CancelOk, with_db c (delete_player (db c) gid (user_id user)))
    else (Some NotJoined, c).
Proof.
  unfold cancel, cancel_booking.
  destruct (is_user_joined (db c) gid (user_id user)); [|reflexivity].
  cbn [negb].
  destruct (get_game_info (delete_player (db c) gid (user_id user)) gid);
    reflexivity.
Qed.

(** X3.  [cancel_booking] by a user who holds no row of the game answers
    that they are not booked and changes nothing.  By a user who holds one
    it removes that user's row and nothing else: the games, the reminder
    rows, the wizard state and the queue stay, every other (game, user) pair
    is joined exactly as before, and, rows being unique per pair, the game
    has exactly one participant fewer. *)
Theorem cancel_removes_only_own_row (gid : Z) (user : User) (c : Context) :
  (is_user_joined (db c) gid (user_id user) = false ->
   cancel gid user c = (Some NotJoined, c))
  /\ (is_user_joined (db c) gid (user_id user) = true ->
      fst (cancel gid user c) = Some CancelOk
      /\ is_user_joined (db (snd (cancel gid user c))) gid (user_id user) = false
      /\ (forall g u, (g, u) <> (gid, user_id user) ->
            is_user_joined (db (snd (cancel gid user c))) g u
            = is_user_joined (db c) g u)
      /\ games (db (snd (cancel gid user c))) = games (db c)
      /\ reminders (db (snd (cancel gid user c))) = reminders (db c)
      /\ user_data (snd (cancel gid user c)) = user_data c
      /\ job_queue (snd (cancel gid user c)) = job_queue c
      /\ (NoDup (map player_key (players (db c))) ->
          count_players (db (snd (cancel gid user c))) gid
          = count_players (db c) gid - 1)).
Proof.
  rewrite cancel_cases. split; intros Hj; rewrite Hj; [reflexivity|].
  cbn [fst snd with_db db user_data job_queue].
  repeat split.
  - rewrite is_user_joined_delete, !Z.eqb_refl. reflexivity.
  - intros g u Hne. rewrite is_user_joined_delete.
    destruct (Z.eqb_spec g gid) as [->|]; [|reflexivity].
    destruct (Z.eqb_spec u (user_id user)) as [->|]; [congruence|reflexivity].
  - intros Hnd. unfold count_players, players_of, delete_player.
    cbn [players].
    assert (Hex : exists p, In p (players (db c))
                            /\ key_is gid (user_id user) p = true).
    { unfold is_user_joined, find_player in Hj.
      destruct (find _ (players (db c))) as [p|] eqn:E; [|discriminate].
      apply find_some in E. exists p. exact E. }
    pose proof (count_after_delete (players (db c)) gid (user_id user) Hnd Hex).
    unfold key_is in *. lia.
Qed.

Lemma cancel_removes_only_own_row_witness :
  is_user_joined (db Scenario.four_seats_context) 2 (user_id Scenario.bob) = true
  /\ NoDup (map player_key (players (db Scenario.four_seats_context)))
  /\ count_players (db (snd (cancel 2 Scenario.bob Scenario.four_seats_context))) 2
     = count_players (db Scenario.four_seats_context) 2 - 1
  /\ cancel 2 (mkUser 10 None) Scenario.four_seats_context
     = (Some NotJoined, Scenario.four_seats_context).
Proof.
  assert (Hnd : NoDup (map player_key (players (db Scenario.four_seats_context)))).
  { repeat constructor; simpl; intuition discriminate. }
  split; [reflexivity|]. split; [exact Hnd|].
  destruct (cancel_removes_only_own_row 2 Scenario.bob Scenario.four_seats_context)
    as [_ H].
  destruct (H eq_refl) as (_ & _ & _ & _ & _ & _ & _ & Hcount).
  split; [exact (Hcount Hnd)|].
  exact (proj1 (cancel_removes_only_own_row 2 (mkUser 10 None)
                  Scenario.four_seats_context) eq_refl).
Defined.

(** X4.  A join that is accepted and the cancellation that follows undo each
    other: the context is the one before the join; so joining, cancelling
    and joining again succeeds each time and ends where the first join
    ended. *)
Theorem join_cancel_join (gid : Z) (user : User) (c : Context)
  (game : GameInfo) :
  getEvent c gid = Some game ->
  is_full game = false ->
  is_user_joined (db c) gid (user_id user) = false ->
  fst (join gid user c) = Some Ok
  /\ cancel gid user (snd (join gid user c)) = (Some CancelOk, c)
  /\ join gid user (snd (cancel gid user (snd (join gid user c))))
     = join gid user c.
Proof.
  unfold getEvent. intros Hg Hfree Hnew.
  assert (Hjoin : join gid user c
                  = (Some Ok,
                     with_db c
                       (mkDb (games (db c))
                          (players (db c)
                           ++ [mkPlayer gid (user_id user) (user_name user)])
                          (reminders (db c)) (games_seq (db c)))))
    by (rewrite join_cases, Hg, Hfree, Hnew; reflexivity).
  assert (Hcancel : cancel gid user (snd (join gid user c)) = (Some CancelOk, c)).
  { rewrite Hjoin, cancel_cases. cbn [snd with_db db user_data job_queue].
    rewrite Race.is_user_joined_insert, !Z.eqb_refl, orb_true_r.
    unfold delete_player. cbn [games players reminders games_seq].
    rewrite filter_app. cbn [filter player_game player_user].
    rewrite !Z.eqb_refl. cbn [andb negb]. rewrite app_nil_r.
    pose proof (filter_all _ _ (not_joined_no_row (db c) gid (user_id user) Hnew))
      as Hf.
    unfold key_is in Hf. rewrite Hf.
    destruct c as [[gs ps rs sq] u q]. reflexivity. }
  split; [rewrite Hjoin; reflexivity|]. split; [exact Hcancel|].
  rewrite Hcancel. reflexivity.
Qed.

Lemma join_cancel_join_witness :
  getEvent Scenario.four_seats_context 2
  = Some (mkInfo "Catan" 900000 4 "bring snacks" None 3 (Some "ann"))
  /\ cancel 2 (mkUser 10 None) (snd (join 2 (mkUser 10 None) Scenario.four_seats_context))
     = (Some CancelOk, Scenario.four_seats_context).
Proof.
  split; [reflexivity|].
  exact (proj1 (proj2 (join_cancel_join 2 (mkUser 10 None)
                         Scenario.four_seats_context _ eq_refl eq_refl eq_refl))).
Defined.

End Cancelling.

(** ** What a view offers and what the handlers then do *)
Module ViewFacts.
Import Store Chat Reminders Handlers Engine Views Shape.
Import StoreFacts Joining Deleting Cancelling.

Lemma shown_control_game_details (gid : Z) (user : User) (c : Context)
  (game : GameInfo) :
  get_game_info (db c) gid = Some game ->
  shown_control (game_details gid user c)
  = Some (if is_user_creator (db c) gid (user_id user) then ctl_delete gid
          else if is_user_joined (db c) gid (user_id user) then ctl_cancel gid
          else if (info_max_players game =? 0)
                  || (info_current_players game <? info_max_players game)
               then ctl_book gid
          else ctl_no_seats).
Proof.
  intros Hg. unfold game_details. rewrite Hg.
  destruct (info_photo_id game); reflexivity.
Qed.

Lemma is_full_iff_no_seat (game : GameInfo) :
  0 <= info_max_players game ->
  is_full game
  = negb ((info_max_players game =? 0)
          || (info_current_players game <? info_max_players game)).
Proof.
  intros H. unfold is_full.
  destruct (Z.ltb_spec 0 (info_max_players game));
    destruct (Z.eqb_spec (info_max_players game) 0);
    destruct (Z.leb_spec (info_max_players game) (info_current_players game));
    destruct (Z.ltb_spec (info_current_players game) (info_max_players game));
    try reflexivity; lia.
Qed.

(** X5.  The button a game view offers is the action that will succeed if
    it is pressed at once, for an event whose capacity is not negative: the
    delete button is shown exactly to the user whose delete succeeds; a user
    shown the cancel button has a booking to cancel; a user shown the book
    button gets [Ok] from the join, and one shown "no seats" gets [Full];
    for a user who is neither creator nor participant the book button is
    shown exactly when the join would be accepted. *)
Theorem offered_control_succeeds (now : Time.datetime) (gid : Z) (user : User)
  (c : Context) (game : GameInfo) :
  getEvent c gid = Some game ->
  0 <= info_max_players game ->
  (shown_control (game_details gid user c) = Some (ctl_delete gid)
   <-> fst (deleteEvent now gid user c) = Some DeleteOk)
  /\ (shown_control (game_details gid user c) = Some (ctl_cancel gid) ->
      fst (cancel gid user c) = Some CancelOk)
  /\ (shown_control (game_details gid user c) = Some (ctl_book gid) ->
      fst (join gid user c) = Some Ok)
  /\ (shown_control (game_details gid user c) = Some ctl_no_seats ->
      fst (join gid user c) = Some Full)
  /\ (is_user_creator (db c) gid (user_id user) = false ->
      is_user_joined (db c) gid (user_id user) = false ->
      (shown_control (game_details gid user c) = Some (ctl_book gid)
       <-> fst (join gid user c) = Some Ok)).
Proof.
  unfold getEvent. intros Hg Hcap.
  rewrite (shown_control_game_details gid user c game Hg).
  rewrite join_cases, cancel_cases, Hg, (is_full_iff_no_seat game Hcap).
  destruct (get_game_info_inv _ _ _ Hg) as (g & Hfind & _).
  rewrite (deleteEvent_cases now gid user c g Hfind).
  unfold is_user_creator. rewrite Hfind.
  destruct (creator_id g =? user_id user);
    destruct (is_user_joined (db c) gid (user_id user));
    destruct ((info_max_players game =? 0)
              || (info_current_players game <? info_max_players game));
    cbn [negb fst]; repeat split; intros; try discriminate; try reflexivity;
    try congruence.
Qed.

Lemma offered_control_succeeds_witness :
  getEvent Scenario.four_seats_context 2
  = Some (mkInfo "Catan" 900000 4 "bring snacks" None 3 (Some "ann"))
  /\ 0 <= 4
  /\ shown_control (game_details 2 (mkUser 10 None) Scenario.four_seats_context)
     = Some (ctl_book 2)
  /\ fst (join 2 (mkUser 10 None) Scenario.four_seats_context) = Some Ok.
Proof.
  split; [reflexivity|]. split; [lia|]. split; [reflexivity|].
  destruct (offered_control_succeeds 0 2 (mkUser 10 None)
              Scenario.four_seats_context _ eq_refl) as (_ & _ & H & _).
  - simpl. lia.
  - apply H. reflexivity.
Defined.

(** With a negative capacity the view and the join would disagree: the view
    says "no seats", the join accepts. *)
Remark negative_capacity_view_and_join_disagree :
  shown_control
    (game_details 1 (mkUser 10 None)
       (mkContext (mkDb [mkGame 1 "Go" 0 7 (-1) "" None] [] [] 1) cleared None))
  = Some ctl_no_seats
  /\ fst (join 1 (mkUser 10 None)
            (mkContext (mkDb [mkGame 1 "Go" 0 7 (-1) "" None] [] [] 1) cleared None))
     = Some Ok.
Proof. split; reflexivity. Qed.

End ViewFacts.

(** ** Arming and running reminders *)
Module ReminderFacts.
Import Store Chat Reminders Handlers Engine.
Import StoreFacts Scheduling ReminderRun.

(** X6.  Which reminders an event gets depends on how far ahead of its
    start [schedule_reminders] runs: both when more than a day remains, only
    the hourly one when more than an hour and at most a day remains, none
    when at most an hour remains or the event does not exist. *)
Theorem schedule_reminders_by_lead_time (d : Database) (now : Time.datetime)
  (gid : Z) (q : JobQueue) :
  schedule_reminders d now gid q
  = q ++ match find_game d gid with
         | None => []
         | Some g =>
             if 86400 <? game_date g - now then
               [mkJob (game_date g - 86400) gid (before_1day, gid);
                mkJob (game_date g - 3600) gid (before_1hour, gid)]
             else if 3600 <? game_date g - now then
               [mkJob (game_date g - 3600) gid (before_1hour, gid)]
             else []
         end.
Proof.
  rewrite schedule_reminders_armed. f_equal. unfold armed.
  destruct (find_game d gid) as [g|]; [|reflexivity].
  change (offset_seconds before_1day) with 86400.
  change (offset_seconds before_1hour) with 3600.
  destruct (Z.ltb_spec now (game_date g - 86400));
    destruct (Z.ltb_spec now (game_date g - 3600));
    destruct (Z.ltb_spec 86400 (game_date g - now));
    destruct (Z.ltb_spec 3600 (game_date g - now));
    try reflexivity; lia.
Qed.

(** X7.  What a reminder says is decided by the time left when it runs,
    not by the offset it was armed for.  A job armed by
    [schedule_reminders] and run at or after its fire time, for a game that
    still has its row, writes to every participant of that moment; the
    hourly job always says "1 hour", and the daily job says "1 day" only if
    it runs less than an hour late. *)
Theorem reminder_text_by_lateness (d d' : Database) (now t : Time.datetime)
  (gid : Z) (g : GameRow) (j : Job) :
  find_game d gid = Some g ->
  find_game d' gid = Some g ->
  In j (armed d now gid) ->
  job_when j <= t ->
  send_reminder d' t (job_data j)
  = map (fun p =>
           send_message (to_user (player_user p))
             (Reminder (game_name g)
                match fst (job_name j) with
                | before_1hour => one_hour
                | before_1day =>
                    if t - job_when j <? 3600 then one_day else one_hour
                end
                (game_date g)))
      (players_of d' gid).
Proof.
  intros Hg Hg' Hj Hlate.
  apply armed_iff in Hj as (g0 & k & Hg0 & _ & ->).
  assert (g0 = g) by congruence. subst g0.
  cbn [job_data job_name job_when fst] in *.
  rewrite (send_reminder_found d' t gid g Hg').
  apply map_ext. intros p. do 2 f_equal.
  change (Time.timedelta_hours 23) with 82800.
  destruct k.
  - change (offset_seconds before_1day) with 86400 in *.
    destruct (Z.ltb_spec t (game_date g - 82800));
      destruct (Z.ltb_spec (t - (game_date g - 86400)) 3600);
      try reflexivity; lia.
  - change (offset_seconds before_1hour) with 3600 in *.
    destruct (Z.ltb_spec t (game_date g - 82800)); [lia | reflexivity].
Qed.

Lemma reminder_text_by_lateness_witness :
  find_game (db Scenario.single_seat_context) 1 = Some Scenario.single_seat
  /\ In (mkJob (66238106400 - 86400) 1 (before_1day, 1))
       (armed (db Scenario.single_seat_context) 0 1)
  /\ 66238106400 - 86400 <= 66238106400 - 82800
  /\ send_reminder (db Scenario.single_seat_context) (66238106400 - 82800) 1
     = [send_message (to_user 7) (Reminder "Go" one_hour 66238106400)].
Proof.
  assert (H1 : find_game (db Scenario.single_seat_context) 1
               = Some Scenario.single_seat) by reflexivity.
  assert (H2 : In (mkJob (66238106400 - 86400) 1 (before_1day, 1))
                 (armed (db Scenario.single_seat_context) 0 1))
    by (left; reflexivity).
  assert (H3 : 66238106400 - 86400 <= 66238106400 - 82800) by lia.
  split; [exact H1|]. split; [exact H2|]. split; [exact H3|].
  exact (reminder_text_by_lateness _ _ 0 (66238106400 - 82800) 1 _ _ H1 H1 H2 H3).
Defined.

End ReminderFacts.

(** ** The list of a user's bookings *)
Module BookingsFacts.
Import Store Chat Reminders Handlers Engine Views Shape.
Import StoreFacts Cancelling.

Lemma insert_by_date_perm (g : GameRow) (l : list GameRow) :
  Permutation (insert_by_date g l) (g :: l).
Proof.
  induction l as [|h t IH]; cbn [insert_by_date]; [reflexivity|].
  destruct (stored_date_leb g h); [reflexivity|].
  rewrite IH. apply perm_swap.
Qed.

Lemma order_by_date_perm (l : list GameRow) :
  Permutation (order_by_date l) l.
Proof.
  induction l as [|h t IH]; cbn [order_by_date]; [reflexivity|].
  rewrite insert_by_date_perm, IH. reflexivity.
Qed.

Lemma filter_perm {A : Type} (f : A -> bool) (l l' : list A) :
  Permutation l l' -> Permutation (filter f l) (filter f l').
Proof.
  induction 1 as [|x l l' _ IH|x y l|l l' l'' _ IH1 _ IH2]; cbn [filter].
  - constructor.
  - destruct (f x); [constructor|]; exact IH.
  - destruct (f x), (f y); try reflexivity. apply perm_swap.
  - etransitivity; eassumption.
Qed.

(** With one row per key, the join of a game with the user's rows yields the
    game once or not at all. *)
Lemma rows_of_user (d : Database) (gid uid : Z) :
  NoDup (map player_key (players d)) ->
  List.length (filter (fun p => (player_game p =? gid) && (player_user p =? uid))
                 (players d))
  = if is_user_joined d gid uid then 1%nat else 0%nat.
Proof.
  unfold is_user_joined, find_player.
  induction (players d) as [|h l IH]; intros Hnd; [reflexivity|].
  cbn [map] in Hnd. apply NoDup_cons_iff in Hnd as [Hh Hnd].
  cbn [filter find].
  destruct ((player_game h =? gid) && (player_user h =? uid)) eqn:E;
    [|exact (IH Hnd)].
  cbn [List.length]. f_equal.
  rewrite (Race.filter_none (fun p => (player_game p =? gid)
                                      && (player_user p =? uid)) l);
    [reflexivity|].
  apply Forall_forall. intros x Hx.
  destruct ((player_game x =? gid) && (player_user x =? uid)) eqn:Ex;
    [|reflexivity].
  exfalso. apply Hh. apply in_map_iff. exists x. split; [|exact Hx].
  apply andb_true_iff in E as [E1 E2]. apply andb_true_iff in Ex as [E3 E4].
  apply Z.eqb_eq in E1, E2, E3, E4. unfold player_key. congruence.
Qed.

Lemma joined_games (d : Database) (uid : Z) (gs : list GameRow) :
  NoDup (map player_key (players d)) ->
  flat_map
    (fun g =>
       map (fun _ => g)
         (filter (fun p => (player_game p =? game_id g)
                           && (player_user p =? uid))
            (players d)))
    gs
  = filter (fun g => is_user_joined d (game_id g) uid) gs.
Proof.
  intros Hnd. induction gs as [|g gs IH]; [reflexivity|].
  cbn [flat_map filter]. rewrite IH.
  pose proof (rows_of_user d (game_id g) uid Hnd) as Hlen.
  destruct (filter _ (players d)) as [|p [|p' l]];
    destruct (is_user_joined d (game_id g) uid);
    try discriminate Hlen; reflexivity.
Qed.

Lemma filter_comm {A : Type} (f h : A -> bool) (l : list A) :
  filter f (filter h l) = filter h (filter f l).
Proof.
  induction l as [|a l IH]; [reflexivity|]. cbn [filter].
  destruct (f a) eqn:Ef, (h a) eqn:Eh; cbn [filter]; rewrite ?Ef, ?Eh, IH;
    reflexivity.
Qed.

Lemma my_bookings_games (d : Database) (uid : Z) (now : Time.datetime) :
  map (fun r => fst (fst r)) (select_my_bookings d uid now)
  = order_by_date
      (filter (not_before now)
         (flat_map
            (fun g =>
               map (fun _ => g)
                 (filter (fun p => (player_game p =? game_id g)
                                   && (player_user p =? uid))
                    (players d)))
            (games d))).
Proof.
  unfold select_my_bookings. rewrite map_map. cbn [fst]. apply map_id.
Qed.

(** X8.  Where the current time and every stored start time lie in the
    years 1000 to 9999, the list of a user's bookings ([show_my_bookings])
    holds a game exactly when the game is stored, starts at or after the
    moment of the query and holds a row of the user, and it is in ascending
    order of start time.  Rows being unique per (game, user), it holds the
    games of the list of upcoming games that the user has joined, each as
    often as that list does. *)
Theorem my_bookings_are_the_joined_upcoming (d : Database) (uid : Z)
  (now : Time.datetime) :
  Time.four_digit_year now = true ->
  (forall g, In g (games d) -> Time.four_digit_year (game_date g) = true) ->
  (forall g, In g (map (fun r => fst (fst r)) (select_my_bookings d uid now))
             <-> In g (games d) /\ now <= game_date g
                 /\ is_user_joined d (game_id g) uid = true)
  /\ StronglySorted date_le
       (map (fun r => fst (fst r)) (select_my_bookings d uid now))
  /\ (NoDup (map player_key (players d)) ->
      Permutation
        (map (fun r => fst (fst r)) (select_my_bookings d uid now))
        (filter (fun g => is_user_joined d (game_id g) uid)
           (map fst (select_upcoming d now)))).
Proof.
  intros Hnow Hall. rewrite my_bookings_games.
  assert (Hjoin : forall g,
             In g (flat_map
                     (fun g =>
                        map (fun _ => g)
                          (filter (fun p => (player_game p =? game_id g)
                                            && (player_user p =? uid))
                             (players d)))
                     (games d))
             <-> In g (games d) /\ is_user_joined d (game_id g) uid = true).
  { intros g. rewrite in_flat_map. unfold is_user_joined, find_player. split.
    - intros (g0 & Hg0 & Hin). apply in_map_iff in Hin as (p & <- & Hp).
      apply filter_In in Hp as [Hp Hkey]. split; [exact Hg0|].
      destruct (find _ (players d)) eqn:E; [reflexivity|].
      rewrite (find_none _ _ E p Hp) in Hkey. discriminate.
    - intros (Hg & Hj). exists g. split; [exact Hg|].
      destruct (find _ (players d)) as [p|] eqn:E; [|discriminate].
      apply find_some in E as [Hp Hkey]. apply in_map_iff. exists p.
      split; [reflexivity|]. apply filter_In. auto. }
  split; [|split].
  - intros g. rewrite order_by_date_In, filter_In, Hjoin. split.
    + intros [[Hg Hj] Hnb]. rewrite not_before_plain in Hnb by auto.
      apply Z.leb_le in Hnb. auto.
    + intros (Hg & Hle & Hj). split; [auto|].
      rewrite not_before_plain by auto. apply Z.leb_le. exact Hle.
  - apply order_by_date_sorted. apply Forall_forall. intros g Hg.
    apply filter_In in Hg as [Hg _]. apply Hjoin in Hg as [Hg _]. auto.
  - intros Hnd. rewrite (joined_games d uid (games d) Hnd).
    rewrite order_by_date_perm, filter_comm.
    apply filter_perm. unfold select_upcoming. rewrite map_map. cbn [fst].
    rewrite map_id. symmetry. apply order_by_date_perm.
Qed.

Lemma my_bookings_are_the_joined_upcoming_witness :
  Time.four_digit_year Scenario.thirty_hours_before = true
  /\ (forall g, In g (games (db Scenario.single_seat_context)) ->
                Time.four_digit_year (game_date g) = true)
  /\ (In Scenario.single_seat
         (map (fun r => fst (fst r))
            (select_my_bookings (db Scenario.single_seat_context) 7
               Scenario.thirty_hours_before))
      <-> In Scenario.single_seat (games (db Scenario.single_seat_context))
          /\ Scenario.thirty_hours_before <= game_date Scenario.single_seat
          /\ is_user_joined (db Scenario.single_seat_context)
               (game_id Scenario.single_seat) 7 = true).
Proof.
  assert (H1 : Time.four_digit_year Scenario.thirty_hours_before = true)
    by (vm_compute; reflexivity).
  assert (H2 : forall g, In g (games (db Scenario.single_seat_context)) ->
                         Time.four_digit_year (game_date g) = true)
    by (intros g [<-|[]]; vm_compute; reflexivity).
  split; [exact H1|]. split; [exact H2|].
  exact (proj1 (my_bookings_are_the_joined_upcoming
                  (db Scenario.single_seat_context) 7
                  Scenario.thirty_hours_before H1 H2) Scenario.single_seat).
Defined.

(** Before year 1000 the query does not follow the time: in 2099 the
    creator of a game of the year 999 finds it among their bookings. *)
Lemma my_bookings_list_year_999 :
  map (fun r => fst (fst r))
    (select_my_bookings
       (mkDb [mkGame 1 "Old" 31493959200 7 0 "" None]
          [mkPlayer 1 7 (Some "ann")] [] 1)
       7 Scenario.thirty_hours_before)
  = [mkGame 1 "Old" 31493959200 7 0 "" None].
Proof. vm_compute. reflexivity. Qed.

End BookingsFacts.

(** ** The steps of the wizard *)
Module WizardFacts.
Import Store Chat Reminders Handlers Engine Shape.
Import StoreFacts Wizard.

Lemma create_game_in_db_state (now : Time.datetime) (user : User)
  (c : Context) :
  user_data (snd (create_game_in_db now user c)) = cleared.
Proof.
  unfold create_game_in_db. destruct (commit_draft now user c). reflexivity.
Qed.

(** X9.  Whatever the message, the wizard either stays where it is and
    changes nothing (a re-prompt), or moves to the step that follows the
    pending one, touching neither the store nor the queue nor any draft field
    other than the one that step asks for, or does exactly what
    [create_game_in_db] does, on the context as it is or, at the photo step,
    with the photo put into the draft; the commit is never run from one of
    the first three steps.  It never skips a step, never goes back, and
    never writes the store while a step stays pending. *)
Theorem wizard_moves_one_step (now : Time.datetime) (m : Message) (c : Context)
  (out : list Out) (c' : Context) :
  handle_message now m c = Some (out, c') ->
  c' = c
  \/ (exists a a',
        ud_action (user_data c) = Some a /\ next_step a = Some a'
        /\ ud_action (user_data c') = Some a'
        /\ db c' = db c /\ job_queue c' = job_queue c
        /\ (a <> creating_game ->
            ud_game_name (user_data c') = ud_game_name (user_data c))
        /\ (a <> setting_game_date ->
            ud_game_date (user_data c') = ud_game_date (user_data c))
        /\ (a <> setting_max_players ->
            ud_max_players (user_data c') = ud_max_players (user_data c))
        /\ (a <> setting_description ->
            ud_description (user_data c') = ud_description (user_data c))
        /\ ud_photo_id (user_data c') = ud_photo_id (user_data c))
  \/ ((ud_action (user_data c) = None
       \/ ud_action (user_data c) = Some setting_description
       \/ ud_action (user_data c) = Some setting_photo)
      /\ ((out, c') = create_game_in_db now (msg_from m) c
          \/ (ud_action (user_data c) = Some setting_photo
              /\ msg_photo m <> []
              /\ (out, c')
                 = create_game_in_db now (msg_from m)
                     (with_user_data c
                        (set_photo_id (user_data c)
                           (last (msg_photo m) "")))))).
Proof.
  unfold handle_message. destruct (msg_text m) as [raw|]; [|discriminate].
  intros H. injection H as H.
  destruct (ud_action (user_data c)) as [[]|] eqn:Ha;
    cbn [action_is Action_eqb andb] in H.
  - right. left. exists creating_game, setting_game_date.
    injection H as _ <-. repeat split; congruence.
  - destruct (Text.strptime_display raw);
      [|left; injection H as _ <-; reflexivity].
    right. left. exists setting_game_date, setting_max_players.
    injection H as _ <-. repeat split; congruence.
  - destruct (Text.python_int raw) as [n|];
      [|left; injection H as _ <-; reflexivity].
    destruct (n <? 0); [left; injection H as _ <-; reflexivity|].
    right. left. exists setting_max_players, setting_description.
    injection H as _ <-. repeat split; congruence.
  - destruct (negb (is_skip (Text.lower raw))).
    + right. left. exists setting_description, setting_photo.
      injection H as _ <-. repeat split; congruence.
    + right. right. split; [auto|]. left. symmetry. exact H.
  - destruct (negb (is_skip (Text.lower raw)));
      rewrite ?andb_true_r, ?andb_false_r in H.
    + destruct (msg_photo m) as [|f fs] eqn:Hp; cbn [negb] in H.
      * left. injection H as _ <-. reflexivity.
      * right. right. split; [auto|]. right.
        split; [reflexivity|]. split; [discriminate|]. symmetry. exact H.
    + right. right. split; [auto|]. left. symmetry. exact H.
  - right. right. split; [auto|]. left. symmetry. exact H.
Qed.

Lemma wizard_moves_one_step_witness :
  handle_message 0 (text_from Scenario.ann "tomorrow")
    (mkContext empty_db
       (set_action (set_game_name cleared "Go") setting_game_date) None)
  = Some ([reply_text BadDate],
          mkContext empty_db
            (set_action (set_game_name cleared "Go") setting_game_date) None)
  /\ handle_message 0 (text_from Scenario.ann "Go")
       (mkContext empty_db wizard_started None)
     = Some ([reply_text AskDate],
             mkContext empty_db
               (set_action (set_game_name cleared "Go") setting_game_date) None)
  /\ next_step creating_game = Some setting_game_date.
Proof.
  assert (H : handle_message 0 (text_from Scenario.ann "Go")
                (mkContext empty_db wizard_started None)
              = Some ([reply_text AskDate],
                      mkContext empty_db
                        (set_action (set_game_name cleared "Go")
                           setting_game_date) None)) by reflexivity.
  split; [reflexivity|]. split; [exact H|].
  destruct (wizard_moves_one_step _ _ _ _ _ H) as [Hsame|[Hadv|Hcommit]].
  - discriminate Hsame.
  - destruct Hadv as (a & a' & Ha & Hn & Ha' & _).
    cbn in Ha, Ha'. congruence.
  - destruct Hcommit as [[Ha|[Ha|Ha]] _]; discriminate Ha.
Defined.

(** X10.  Starting a creation does not empty the draft: [create_game_step1]
    only sets the pending step.  A description left by a creation that was
    given up (and a photo, had one been stored) goes into the next event
    when that event's description is skipped, for a capacity the store can
    hold (below 2^63). *)
Theorem abandoned_description_is_reused (now : Time.datetime) (user : User)
  (c : Context) (old title dtext ctext : string) (date : Time.datetime)
  (n : Z) :
  consistent (db c) ->
  ud_description (user_data c) = Some old ->
  Text.strptime_display dtext = Some date ->
  Text.python_int ctext = Some n ->
  0 <= n < 2 ^ 63 ->
  find_game
    (db (snd (feed now user [title; dtext; ctext; "/skip"]
                (snd (create_game_step1 c)))))
    (next_game_id (db c))
  = Some (mkGame (next_game_id (db c)) title date (user_id user) n old
            (ud_photo_id (user_data c))).
Proof.
  intros Hc Hold Hdate Hint Hn.
  unfold create_game_step1. cbn [snd feed].
  rewrite step_title by reflexivity.
  rewrite step_date by reflexivity. rewrite Hdate.
  rewrite step_capacity by reflexivity. rewrite Hint.
  destruct (Z.ltb_spec n 0); [lia|].
  rewrite step_description by reflexivity.
  change (is_skip (Text.lower "/skip")) with true. cbv iota.
  unfold create_game_in_db.
  set (u := mkUserData (Some setting_description) (Some title) (Some date)
              (Some n) (ud_description (user_data c))
              (ud_photo_id (user_data c))).
  change (commit_draft now user _)
    with (commit_draft now user (mkContext (db c) u (job_queue c))).
  rewrite (commit_draft_cases now user (mkContext (db c) u (job_queue c))
             title date Hc eq_refl eq_refl).
  assert (Hfit : fits_int64 (draft_capacity u) = true).
  { unfold fits_int64, draft_capacity, u. cbn [ud_max_players].
    apply andb_true_iff. split; [apply Z.leb_le | apply Z.ltb_lt]; lia. }
  cbn [db user_data job_queue]. rewrite Hfit.
  destruct (participants_of_committed (db c) user u title date Hc) as [Hf _].
  destruct (job_queue c) as [q|]; [destruct (Time.four_digit_year date)|];
    cbn [fst snd with_user_data db user_data job_queue app];
    rewrite Hf; unfold drafted, u;
    cbn [ud_max_players ud_description ud_photo_id]; rewrite Hold;
    reflexivity.
Qed.

Lemma abandoned_description_is_reused_witness :
  consistent empty_db
  /\ ud_description
       (user_data
          (snd (feed 0 Scenario.ann ["Go"; "31.12.2099 18:00"; "2"; "old notes"]
                  (mkContext empty_db wizard_started None))))
     = Some "old notes"
  /\ find_game
       (db (snd (feed 0 Scenario.ann ["Chess"; "31.12.2099 18:00"; "4"; "/skip"]
                   (snd (create_game_step1
                           (snd (feed 0 Scenario.ann
                                   ["Go"; "31.12.2099 18:00"; "2"; "old notes"]
                                   (mkContext empty_db wizard_started None))))))))
       1
     = Some (mkGame 1 "Chess" 66238106400 7 4 "old notes" None).
Proof.
  assert (H : consistent empty_db).
  { unfold consistent. simpl. repeat split; [lia | tauto | tauto]. }
  split; [exact H|]. split; [reflexivity|].
  exact (abandoned_description_is_reused 0 Scenario.ann
           (snd (feed 0 Scenario.ann ["Go"; "31.12.2099 18:00"; "2"; "old notes"]
                   (mkContext empty_db wizard_started None)))
           "old notes" "Chess" "31.12.2099 18:00" "4" 66238106400 4
           H eq_refl eq_refl eq_refl ltac:(lia)).
Defined.

End WizardFacts.

(** ** What the store keeps true over the life of the system *)
Module StoreLife.
Import Store Chat Reminders Handlers Engine Loop Shape.
Import StoreFacts Joining Deleting Wizard LoopFacts Cancelling.

Lemma NoDup_map_filter {A B : Type} (f : A -> B) (h : A -> bool) (l : list A) :
  NoDup (map f l) -> NoDup (map f (filter h l)).
Proof.
  induction l as [|a l IH]; cbn [map filter]; intros H; [constructor|].
  apply NoDup_cons_iff in H as [Ha Hl]. destruct (h a); [|auto].
  cbn [map]. constructor; [|auto].
  intros Hin. apply Ha. apply in_map_iff in Hin as (x & Hx & Hin).
  apply filter_In in Hin as [Hin _]. apply in_map_iff. exists x. auto.
Qed.

Lemma NoDup_snoc {A : Type} (l : list A) (x : A) :
  NoDup l -> ~ In x l -> NoDup (l ++ [x]).
Proof.
  intros Hl Hx. apply NoDup_app; [exact Hl | repeat constructor; tauto |].
  intros a Ha [<-|[]]. exact (Hx Ha).
Qed.

Lemma count_players_insert (d : Database) (gid uid : Z) (n : option string)
  (x : Z) :
  count_players
    (mkDb (games d) (players d ++ [mkPlayer gid uid n]) (reminders d)
       (games_seq d)) x
  = count_players d x + (if gid =? x then 1 else 0).
Proof.
  unfold count_players, players_of. cbn [players].
  rewrite filter_app, length_app. cbn [filter player_game].
  destruct (gid =? x); cbn [List.length]; lia.
Qed.

Lemma filter_length_le {A : Type} (f h : A -> bool) (l : list A) :
  (List.length (filter f (filter h l)) <= List.length (filter f l))%nat.
Proof.
  induction l as [|a l IH]; cbn [filter]; [lia|].
  destruct (h a), (f a) eqn:E; cbn [filter List.length]; rewrite ?E;
    cbn [List.length]; lia.
Qed.

(** The store after an accepted join. *)
Lemma orderly_insert_player (d : Database) (gid uid : Z) (n : option string)
  (g : GameRow) :
  Orderly d -> find_game d gid = Some g ->
  is_user_joined d gid uid = false ->
  (0 < max_players g -> count_players d gid < max_players g) ->
  Orderly (mkDb (games d) (players d ++ [mkPlayer gid uid n]) (reminders d)
             (games_seq d)).
Proof.
  intros [Hids Hkeys Horph Hcap] Hg Hnew Hfree. constructor.
  - exact Hids.
  - cbn [players]. rewrite map_app. apply NoDup_snoc; [exact Hkeys|].
    intros Hin. apply in_map_iff in Hin as (p & Hp & Hin).
    pose proof (not_joined_no_row d gid uid Hnew p Hin) as Hk.
    unfold player_key in Hp. cbn in Hp. inversion Hp as [[H1 H2]].
    unfold key_is in Hk. rewrite H1, H2, !Z.eqb_refl in Hk. discriminate.
  - cbn [players]. intros p Hin. unfold find_game. cbn [games].
    apply in_app_or in Hin as [Hin|[<-|[]]]; [exact (Horph p Hin)|].
    cbn [player_game]. fold (find_game d gid). congruence.
  - intros x g' Hx Hpos. rewrite count_players_insert.
    change (find_game d x = Some g') in Hx.
    destruct (Z.eqb_spec gid x) as [<-|Hne].
    + assert (g' = g) by congruence. subst g'. specialize (Hfree Hpos). lia.
    + specialize (Hcap x g' Hx Hpos). lia.
Qed.

(** The store after a cancellation. *)
Lemma orderly_delete_player (d : Database) (gid uid : Z) :
  Orderly d -> Orderly (delete_player d gid uid).
Proof.
  intros [Hids Hkeys Horph Hcap]. constructor.
  - exact Hids.
  - cbn [delete_player players]. apply NoDup_map_filter. exact Hkeys.
  - cbn [delete_player players]. intros p Hin.
    apply filter_In in Hin as [Hin _]. exact (Horph p Hin).
  - intros x g' Hx Hpos. change (find_game d x = Some g') in Hx.
    specialize (Hcap x g' Hx Hpos). unfold count_players, players_of in *.
    cbn [delete_player players].
    pose proof (filter_length_le (fun p => player_game p =? x)
                  (fun p => negb ((player_game p =? gid) && (player_user p =? uid)))
                  (players d)).
    lia.
Qed.

(** The store after a deletion. *)
Lemma orderly_without (d : Database) (gid : Z) :
  Orderly d -> Orderly (without d gid).
Proof.
  intros [Hids Hkeys Horph Hcap]. constructor.
  - cbn [without delete_reminders_of delete_players_of delete_game_row games].
    apply NoDup_map_filter. exact Hids.
  - cbn [without delete_reminders_of delete_players_of delete_game_row players].
    apply NoDup_map_filter. exact Hkeys.
  - cbn [without delete_reminders_of delete_players_of delete_game_row players].
    intros p Hin. apply filter_In in Hin as [Hin Hne].
    apply negb_true_iff, Z.eqb_neq in Hne.
    unfold find_game.
    cbn [without delete_reminders_of delete_players_of delete_game_row games].
    rewrite find_game_other by exact Hne. exact (Horph p Hin).
  - intros x g' Hx Hpos.
    destruct (Z.eq_dec x gid) as [->|Hne].
    + unfold find_game in Hx.
      cbn [without delete_reminders_of delete_players_of delete_game_row games]
        in Hx.
      rewrite find_filter_out in Hx. discriminate.
    + pose proof (find_game_without d gid x g' Hx) as Hx'.
      specialize (Hcap x g' Hx' Hpos).
      unfold count_players, players_of in *.
      cbn [without delete_reminders_of delete_players_of delete_game_row players].
      rewrite players_other by exact Hne. exact Hcap.
Qed.

(** The store after a commit. *)
Lemma orderly_committed (d : Database) (user : User) (u : UserData)
  (name : string) (date : Time.datetime) :
  Orderly d -> consistent d ->
  (forall n, ud_max_players u = Some n -> 0 <= n) ->
  Orderly (committed d user u name date).
Proof.
  intros [Hids Hkeys Horph Hcap] Hc Hn.
  pose proof Hc as (Hs & Hg & Hp).
  pose proof (next_game_id_fresh d) as [Hf1 Hf2].
  destruct (participants_of_committed d user u name date Hc) as [Hnew Hpart].
  constructor.
  - unfold committed. cbn [games]. rewrite map_app. apply NoDup_snoc; [exact Hids|].
    intros Hin. apply in_map_iff in Hin as (g & Hid & Hin).
    specialize (Hf2 g Hin). cbn in Hid. lia.
  - unfold committed. cbn [players]. rewrite map_app.
    apply NoDup_snoc; [exact Hkeys|].
    intros Hin. apply in_map_iff in Hin as (p & Hk & Hin).
    specialize (Hp p Hin). unfold player_key in Hk. cbn in Hk.
    inversion Hk. lia.
  - intros p Hin. unfold committed in Hin. cbn [players] in Hin.
    apply in_app_or in Hin as [Hin|[<-|[]]].
    + rewrite find_game_committed_old by (specialize (Hp p Hin); lia).
      exact (Horph p Hin).
    + cbn [player_game]. rewrite Hnew. discriminate.
  - intros x g' Hx Hpos.
    destruct (Z.eq_dec x (next_game_id d)) as [->|Hne].
    + rewrite Hnew in Hx. inversion Hx; subst g'; clear Hx.
      unfold count_players, players_of.
      unfold get_game_participants, players_of in Hpart.
      apply (f_equal (@List.length _)) in Hpart. rewrite length_map in Hpart.
      rewrite Hpart. cbn [List.length].
      unfold drafted in *. cbn [max_players] in *.
      destruct (ud_max_players u) as [n|]; lia.
    + rewrite find_game_committed_old in Hx by exact Hne.
      specialize (Hcap x g' Hx Hpos).
      unfold committed, count_players, players_of in *. cbn [players].
      rewrite filter_app, length_app. cbn [filter player_game].
      destruct (Z.eqb_spec (next_game_id d) x); [lia|].
      cbn [List.length]. lia.
Qed.

(** *** What one handler run leaves of the store *)

(** The commit appends at most one game and at most one player row, both
    under the next identifier, the row being the sender's. *)
Lemma create_game_in_db_appends (now : Time.datetime) (user : User)
  (c : Context) :
  (games (db (snd (create_game_in_db now user c))) = games (db c)
   \/ exists g, game_id g = next_game_id (db c)
                /\ games (db (snd (create_game_in_db now user c)))
                   = games (db c) ++ [g])
  /\ (players (db (snd (create_game_in_db now user c))) = players (db c)
      \/ players (db (snd (create_game_in_db now user c)))
         = players (db c)
           ++ [mkPlayer (next_game_id (db c)) (user_id user) (user_name user)]).
Proof.
  unfold create_game_in_db, commit_draft.
  destruct (ud_game_name (user_data c)) as [name|]; [|split; left; reflexivity].
  destruct (ud_game_date (user_data c)) as [date|]; [|split; left; reflexivity].
  unfold insert_game.
  destruct (fits_int64 _); [|split; left; reflexivity].
  unfold insert_player.
  destruct (is_user_joined _ _ _);
    [|destruct (job_queue c); [destruct (stored_date_parses _ _)|]];
    cbn [snd fst with_user_data with_db db games players];
    split; try (left; reflexivity); right; try reflexivity;
    eexists; (split; [|reflexivity]); reflexivity.
Qed.

Lemma create_game_in_db_orderly (now : Time.datetime) (user : User)
  (c : Context) :
  consistent (db c) ->
  (forall n, ud_max_players (user_data c) = Some n -> 0 <= n) ->
  Orderly (db c) ->
  Orderly (db (snd (create_game_in_db now user c))).
Proof.
  intros Hc Hw Ho. unfold create_game_in_db.
  destruct (ud_game_name (user_data c)) as [name|] eqn:Hn;
    [destruct (ud_game_date (user_data c)) as [date|] eqn:Hd|].
  - rewrite (commit_draft_cases now user c name date Hc Hn Hd).
    destruct (fits_int64 _); [|exact Ho].
    destruct (job_queue c); [destruct (Time.four_digit_year date)|];
      cbn [snd with_user_data db]; apply orderly_committed; assumption.
  - rewrite commit_draft_incomplete by (right; exact Hd). exact Ho.
  - rewrite commit_draft_incomplete by (left; exact Hn). exact Ho.
Qed.

(** A message either leaves the store alone or runs the commit on the store
    as it is. *)
Lemma handle_message_store (now : Time.datetime) (m : Message) (c : Context)
  (r : list Out * Context) :
  handle_message now m c = Some r ->
  db (snd r) = db c
  \/ exists u, (forall n, ud_max_players u = Some n ->
                         ud_max_players (user_data c) = Some n)
               /\ snd r
                  = snd (create_game_in_db now (msg_from m) (with_user_data c u)).
Proof.
  unfold handle_message. destruct (msg_text m) as [raw|]; [|discriminate].
  intros H. injection H as <-.
  assert (Hsame : forall c0 : Context,
             c0 = with_user_data c0 (user_data c0))
    by (intros [d u q]; reflexivity).
  destruct (ud_action (user_data c)) as [[]|];
    cbn [action_is Action_eqb andb].
  - left. reflexivity.
  - destruct (Text.strptime_display raw); left; reflexivity.
  - destruct (Text.python_int raw) as [n|]; [|left; reflexivity].
    destruct (n <? 0); left; reflexivity.
  - destruct (negb (is_skip (Text.lower raw))); [left; reflexivity|].
    right. exists (user_data c). split; [auto|]. rewrite <- Hsame. reflexivity.
  - destruct (negb (is_skip (Text.lower raw)));
      rewrite ?andb_true_r, ?andb_false_r.
    + destruct (negb match msg_photo m with [] => true | _ :: _ => false end);
        [|left; reflexivity].
      right. exists (set_photo_id (user_data c) (last (msg_photo m) "")).
      split; [auto | reflexivity].
    + right. exists (user_data c). split; [auto|]. rewrite <- Hsame. reflexivity.
  - right. exists (user_data c). split; [auto|]. rewrite <- Hsame. reflexivity.
Qed.

Lemma handle_message_orderly (now : Time.datetime) (m : Message) (c : Context)
  (r : list Out * Context) :
  handle_message now m c = Some r ->
  consistent (db c) -> wizard_ok (user_data c) -> Orderly (db c) ->
  Orderly (db (snd r)).
Proof.
  intros H Hc Hw Ho.
  destruct (handle_message_store now m c r H) as [->|(u & Hu & ->)];
    [exact Ho|].
  apply create_game_in_db_orderly; try assumption.
  intros n Hn. apply (proj2 Hw), Hu, Hn.
Qed.

Lemma button_orderly (now : Time.datetime) (cb : Callback) (user : User)
  (c : Context) :
  Orderly (db c) -> Orderly (db (snd (button now cb user c))).
Proof.
  intros Ho. unfold button.
  destruct cb as [| |gid|gid|gid|gid| |]; cbn [snd]; try exact Ho.
  - unfold book_game, get_game_info.
    destruct (find_game (db c) gid) as [g|] eqn:Hg; [|exact Ho].
    cbn [info_max_players info_current_players].
    destruct ((0 <? max_players g) && (max_players g <=? count_players (db c) gid))
      eqn:Hfull; [exact Ho|].
    unfold insert_player.
    destruct (is_user_joined (db c) gid (user_id user)) eqn:Hj; [exact Ho|].
    cbn [snd with_db db]. apply (orderly_insert_player _ _ _ _ g); auto.
    intros Hpos. apply andb_false_iff in Hfull as [H|H]; lia.
  - unfold cancel_booking.
    destruct (negb (is_user_joined (db c) gid (user_id user))); [exact Ho|].
    cbn [snd with_db db]. apply orderly_delete_player, Ho.
  - unfold delete_game.
    destruct (negb (is_user_creator (db c) gid (user_id user))); [exact Ho|].
    destruct (get_game_info (db c) gid); [|exact Ho].
    cbn [snd with_db db]. apply (orderly_without (db c) gid Ho).
Qed.

(** *** Over the runs of the event loop *)

Lemma run_snoc (events : list Event) (e : Event) (s : System) :
  run (events ++ [e]) s = step e (run events s).
Proof. unfold run. rewrite fold_left_app. reflexivity. Qed.

Lemma run_app (events events' : list Event) (s : System) :
  run (events ++ events') s = run events' (run events s).
Proof. unfold run. apply fold_left_app. Qed.

(** A property that every step keeps in a sound state holds after every
    run. *)
Lemma run_keeps (P : System -> Prop) :
  (forall e s, Sound s -> P s -> P (step e s)) ->
  forall events s, Sound s -> P s -> P (run events s).
Proof.
  intros Hstep events. induction events as [|e es IH]; intros s Hs HP;
    [exact HP|].
  apply IH; [apply sound_step, Hs | apply Hstep; assumption].
Qed.

Lemma orderly_step (e : Event) (s : System) :
  Sound s -> Orderly (sys_db s) -> Orderly (sys_db (step e s)).
Proof.
  intros Hs Ho. destruct e as [m|user cb|t]; cbn [step].
  - destruct (handle_message (sys_now s) m (context_of s (user_id (msg_from m))))
      as [r|] eqn:E; [|exact Ho].
    cbn [handled sys_db].
    apply (handle_message_orderly _ _ _ _ E);
      [apply (sound_store s Hs) | apply (sound_wizard s Hs) | exact Ho].
  - cbn [handled sys_db]. apply button_orderly. exact Ho.
  - destruct (t <? sys_now s); exact Ho.
Qed.

Lemma orderly_empty : Orderly empty_db.
Proof.
  constructor; cbn; try constructor; try tauto. discriminate.
Qed.

(** X11.  Whatever messages, button presses and clock ticks arrive, in any
    order and from any users, the store stays orderly: no identifier names
    two games, no user is recorded twice for one game, every participant
    row belongs to a game that still exists, and no game with a positive
    capacity holds more participants than its capacity. *)
Theorem store_stays_orderly (events : list Event) (with_queue : bool)
  (t0 : Time.datetime) :
  Orderly (sys_db (run events (boot with_queue t0))).
Proof.
  apply (run_keeps (fun s => Orderly (sys_db s))).
  - intros e s. apply orderly_step.
  - apply sound_boot.
  - destruct with_queue; exact orderly_empty.
Qed.

Lemma evolves_trans (d1 d2 d3 : Database) :
  evolves d1 d2 -> evolves d2 d3 -> evolves d1 d3.
Proof.
  intros [H1 F1] [H2 F2]. split; [lia|].
  intros x g Hx H. apply F1; [exact Hx|]. apply F2; [lia | exact H].
Qed.

Lemma evolves_step (e : Event) (s : System) :
  Sound s -> evolves (sys_db s) (sys_db (step e s)).
Proof.
  intros Hs. destruct e as [m|user cb|t]; cbn [step].
  - destruct (handle_message (sys_now s) m (context_of s (user_id (msg_from m))))
      as [r|] eqn:E; [|apply evolves_refl].
    cbn [handled sys_db].
    destruct (effect_handle_message _ _ _ _ E
                (sound_store s Hs) (sound_wizard s Hs _)
                (sound_capacity s Hs) (sound_reminders s Hs))
      as (_ & _ & _ & _ & H & _). exact H.
  - cbn [handled sys_db].
    destruct (effect_button (sys_now s) cb user (context_of s (user_id user))
                (sound_store s Hs) (sound_wizard s Hs _)
                (sound_capacity s Hs) (sound_reminders s Hs))
      as (_ & _ & _ & _ & H & _). exact H.
  - destruct (t <? sys_now s); apply evolves_refl.
Qed.

Lemma evolves_run (events : list Event) (s : System) :
  Sound s -> evolves (sys_db s) (sys_db (run events s)).
Proof.
  revert s. induction events as [|e es IH]; intros s Hs;
    [apply evolves_refl|].
  apply (evolves_trans _ (sys_db (step e s))).
  - apply evolves_step, Hs.
  - apply (IH (step e s)), sound_step, Hs.
Qed.

(** X12.  A game found in the store at some moment of a run is either the
    very row that was there at any earlier moment (same title, start time,
    creator, capacity, description), or carries an identifier larger than
    every identifier handed out up to that earlier moment: no handler
    rewrites a game, and the identifier of a deleted game is never given to
    another game. *)
Theorem games_are_never_rewritten (before after : list Event)
  (with_queue : bool) (t0 : Time.datetime) (gid : Z) (g : GameRow) :
  let earlier := run before (boot with_queue t0) in
  let later := run after earlier in
  find_game (sys_db later) gid = Some g ->
  find_game (sys_db earlier) gid = Some g
  \/ (games_seq (sys_db earlier) < gid
      /\ find_game (sys_db earlier) gid = None).
Proof.
  intros earlier later H.
  assert (Hs : Sound earlier) by apply sound_run.
  destruct (evolves_run after earlier Hs) as [_ Hold].
  destruct (Z.le_gt_cases gid (games_seq (sys_db earlier))) as [Hle|Hgt].
  - left. apply Hold; assumption.
  - right. split; [lia|].
    destruct (find_game (sys_db earlier) gid) as [g0|] eqn:E; [|reflexivity].
    exfalso. destruct (sound_store earlier Hs) as (_ & Hg & _).
    unfold find_game in E. apply find_some in E as [Hin Hid].
    apply Z.eqb_eq in Hid. specialize (Hg g0 Hin). lia.
Qed.

Lemma games_are_never_rewritten_witness :
  let earlier := run (Scenario.chess_night_inputs Scenario.ann) (boot true 0) in
  let later := run [ev_callback Scenario.bob (cb_book 1);
                    ev_callback Scenario.eve (cb_delete_game 1)] earlier in
  let g := mkGame 1 "Chess Night" 66238106400 7 4 "" None in
  find_game (sys_db later) 1 = Some g
  /\ (find_game (sys_db earlier) 1 = Some g
      \/ (games_seq (sys_db earlier) < 1
          /\ find_game (sys_db earlier) 1 = None)).
Proof.
  intros earlier later g.
  assert (H : find_game (sys_db later) 1 = Some g) by (vm_compute; reflexivity).
  split; [exact H|].
  exact (games_are_never_rewritten
           (Scenario.chess_night_inputs Scenario.ann)
           [ev_callback Scenario.bob (cb_book 1);
            ev_callback Scenario.eve (cb_delete_game 1)]
           true 0 1 g H).
Defined.

End StoreLife.

(** ** The drafts over the life of the system *)
Module WizardLife.
Import Store Chat Reminders Handlers Engine Loop Shape.
Import StoreFacts Wizard LoopFacts WizardFacts StoreLife.

(** The games a commit leaves: the old ones and at most the drafted row. *)
Lemma create_game_in_db_games (now : Time.datetime) (user : User)
  (c : Context) (g : GameRow) :
  In g (games (db (snd (create_game_in_db now user c)))) ->
  In g (games (db c))
  \/ (game_id g = next_game_id (db c) /\ creator_id g = user_id user
      /\ photo_id g = ud_photo_id (user_data c)).
Proof.
  unfold create_game_in_db, commit_draft.
  destruct (ud_game_name (user_data c)) as [name|]; [|left; assumption].
  destruct (ud_game_date (user_data c)) as [date|]; [|left; assumption].
  unfold insert_game. destruct (fits_int64 _); [|left; assumption].
  unfold insert_player.
  destruct (is_user_joined _ _ _);
    [|destruct (job_queue c); [destruct (stored_date_parses _ _)|]];
    cbn [snd fst with_user_data with_db db games]; intros H;
    apply in_app_or in H as [H|[<-|[]]]; auto.
Qed.

Lemma handle_message_draft_ready (now : Time.datetime) (m : Message)
  (c : Context) (r : list Out * Context) :
  handle_message now m c = Some r ->
  draft_ready (user_data c) -> draft_ready (user_data (snd r)).
Proof.
  unfold handle_message.
  destruct (msg_text m) as [raw|]; [|discriminate].
  intros E H. injection E as <-. unfold draft_ready in H.
  destruct (ud_action (user_data c)) as [[]|] eqn:Ha;
    cbn [action_is Action_eqb andb].
  - unfold draft_ready. cbn. discriminate.
  - destruct (Text.strptime_display raw); cbn [snd].
    + unfold draft_ready. cbn. split; [exact H | discriminate].
    + unfold draft_ready. rewrite Ha. exact H.
  - destruct (Text.python_int raw) as [n|];
      [destruct (n <? 0)|]; cbn [snd];
      try (unfold draft_ready; rewrite Ha; exact H).
    unfold draft_ready. cbn. exact H.
  - destruct (negb (is_skip (Text.lower raw))); cbn [snd].
    + unfold draft_ready. cbn. exact H.
    + rewrite create_game_in_db_state. exact I.
  - destruct (negb (is_skip (Text.lower raw)));
      rewrite ?andb_true_r, ?andb_false_r.
    + destruct (negb match msg_photo m with [] => true | _ :: _ => false end).
      * rewrite create_game_in_db_state. exact I.
      * unfold draft_ready. cbn [snd]. rewrite Ha. exact H.
    + rewrite create_game_in_db_state. exact I.
  - rewrite create_game_in_db_state. exact I.
Qed.

(** A button press changes of the draft at most the pending step, which it
    sets to the first. *)
Lemma button_user_data (now : Time.datetime) (cb : Callback) (user : User)
  (c : Context) :
  user_data (snd (button now cb user c)) = user_data c
  \/ user_data (snd (button now cb user c))
     = set_action (user_data c) creating_game.
Proof.
  unfold button.
  destruct cb as [| |gid|gid|gid|gid| |]; cbn [snd]; auto.
  - unfold book_game. destruct (get_game_info _ _); [|auto].
    destruct (_ && _); [auto|].
    destruct (is_user_joined _ _ _); [auto|].
    destruct (insert_player _ _ _ _); auto.
  - unfold cancel_booking. destruct (negb _); auto.
  - unfold delete_game. destruct (negb _); [auto|].
    destruct (get_game_info _ _); auto.
Qed.

Lemma draft_ready_step (e : Event) (s : System) :
  drafts_ready s -> drafts_ready (step e s).
Proof.
  intros H. destruct e as [m|user cb|t]; cbn [step].
  - destruct (handle_message (sys_now s) m (context_of s (user_id (msg_from m))))
      as [r|] eqn:E; [|exact H].
    intros uid. cbn [handled sys_user_data].
    destruct (uid =? user_id (msg_from m)); [|apply H].
    apply (handle_message_draft_ready _ _ _ _ E). apply H.
  - intros uid. cbn [handled sys_user_data].
    destruct (uid =? user_id user); [|apply H].
    destruct (button_user_data (sys_now s) cb user
                (context_of s (user_id user))) as [->| ->].
    + apply H.
    + exact I.
  - destruct (t <? sys_now s); exact H.
Qed.

Lemma drafts_ready_run (events : list Event) (with_queue : bool)
  (t0 : Time.datetime) :
  drafts_ready (run events (boot with_queue t0)).
Proof.
  apply (run_keeps drafts_ready).
  - intros e s _. apply draft_ready_step.
  - apply sound_boot.
  - intros uid. exact I.
Qed.

(** A skip at one of the last two steps goes to the commit on the context
    as it is. *)
Lemma skip_goes_to_commit (now : Time.datetime) (user : User) (raw : string)
  (c : Context) :
  ud_action (user_data c) = Some setting_description
  \/ ud_action (user_data c) = Some setting_photo ->
  Text.lower raw = "/skip" ->
  handle_message now (text_from user raw) c
  = Some (create_game_in_db now user c).
Proof.
  intros Ha Hskip. unfold handle_message. cbn [text_from msg_text msg_from].
  unfold is_skip. rewrite Hskip.
  destruct Ha as [-> | ->]; reflexivity.
Qed.

(** The commit of a draft that has a title and a start time. *)
Lemma create_game_in_db_cases (now : Time.datetime) (user : User)
  (c : Context) (name : string) (date : Time.datetime) :
  consistent (db c) ->
  ud_game_name (user_data c) = Some name ->
  ud_game_date (user_data c) = Some date ->
  create_game_in_db now user c
  = if fits_int64 (draft_capacity (user_data c)) then
      match job_queue c with
      | None =>
          ([reply_text (GameCreated (next_game_id (db c))); reply_text Menu],
           mkContext (committed (db c) user (user_data c) name date) cleared
             None)
      | Some q =>
          if Time.four_digit_year date then
            ([reply_text (GameCreated (next_game_id (db c))); reply_text Menu],
             mkContext (committed (db c) user (user_data c) name date) cleared
               (Some (schedule_reminders
                        (committed (db c) user (user_data c) name date) now
                        (next_game_id (db c)) q)))
          else
            ([reply_text CreateError; reply_text Menu],
             mkContext (committed (db c) user (user_data c) name date) cleared
               (Some q))
      end
    else ([reply_text CreateError; reply_text Menu], with_user_data c cleared).
Proof.
  intros Hc Hn Hd. unfold create_game_in_db.
  rewrite (commit_draft_cases now user c name date Hc Hn Hd).
  destruct (fits_int64 _); [|reflexivity].
  destruct (job_queue c); [destruct (Time.four_digit_year date)|];
    reflexivity.
Qed.

(** X13.  In every state the system can reach, a skip sent by a user whose
    wizard waits for the description or for the photo finds a draft with a
    title and a start time: the commit never fails for a missing field.
    The sender's draft is emptied.  With a capacity the store cannot hold
    (2^63 or more) nothing is stored and the answer is the error text.
    Otherwise the game is stored under the next identifier with the sender
    as its creator and first participant, and the answer is the
    confirmation with that identifier, unless there is a job queue and the
    start time lies before the year 1000: then the answer is the error
    text, the game being stored all the same. *)
Theorem skip_finds_the_draft_complete (events : list Event)
  (with_queue : bool) (t0 : Time.datetime) (user : User) (raw : string) :
  let s := run events (boot with_queue t0) in
  let u := sys_user_data s (user_id user) in
  let s' := step (ev_message (text_from user raw)) s in
  ud_action u = Some setting_description \/ ud_action u = Some setting_photo ->
  Text.lower raw = "/skip" ->
  exists name date,
    ud_game_name u = Some name /\ ud_game_date u = Some date
    /\ sys_user_data s' (user_id user) = cleared
    /\ (fits_int64 (draft_capacity u) = false ->
        sys_db s' = sys_db s
        /\ sys_sent s'
           = sys_sent s ++ [reply_text CreateError; reply_text Menu])
    /\ (fits_int64 (draft_capacity u) = true ->
        sys_db s' = committed (sys_db s) user u name date
        /\ sys_sent s'
           = sys_sent s
             ++ [reply_text
                   (if match sys_job_queue s with
                       | Some _ => negb (Time.four_digit_year date)
                       | None => false
                       end
                    then CreateError
                    else GameCreated (next_game_id (sys_db s)));
                 reply_text Menu]).
Proof.
  intros s u s' Ha Hskip.
  pose proof (sound_run events with_queue t0) as Hs. fold s in Hs.
  pose proof (drafts_ready_run events with_queue t0 (user_id user)) as Hr.
  fold s in Hr. fold u in Hr.
  assert (Hnd : ud_game_name u <> None /\ ud_game_date u <> None).
  { unfold draft_ready in Hr. destruct Ha as [Ha|Ha]; rewrite Ha in Hr; exact Hr. }
  destruct Hnd as [Hn Hd].
  destruct (ud_game_name u) as [name|] eqn:En; [|congruence].
  destruct (ud_game_date u) as [date|] eqn:Ed; [|congruence].
  exists name, date. split; [reflexivity|]. split; [reflexivity|].
  unfold s'. cbn [step text_from msg_from].
  change (mkMessage (Some raw) [] user) with (text_from user raw).
  rewrite (skip_goes_to_commit (sys_now s) user raw (context_of s (user_id user)))
    by assumption.
  rewrite (create_game_in_db_cases (sys_now s) user
             (context_of s (user_id user)) name date (sound_store s Hs) En Ed).
  cbn [context_of user_data job_queue db]. fold u.
  destruct (fits_int64 (draft_capacity u)).
  - destruct (sys_job_queue s) as [q|];
      [destruct (Time.four_digit_year date)|];
      cbn [handled snd fst sys_db sys_user_data sys_sent db user_data negb];
      rewrite Z.eqb_refl; (split; [reflexivity|]);
      (split; [discriminate|]); intros _; split; reflexivity.
  - cbn [handled snd fst sys_db sys_user_data sys_sent db user_data
         with_user_data].
    rewrite Z.eqb_refl. split; [reflexivity|].
    split; [intros _; split; reflexivity | discriminate].
Qed.

Lemma skip_finds_the_draft_complete_witness :
  let s := run [ev_callback Scenario.ann cb_create_game;
                ev_message (text_from Scenario.ann "Chess Night");
                ev_message (text_from Scenario.ann "31.12.2099 18:00");
                ev_message (text_from Scenario.ann "4")] (boot true 0) in
  ud_action (sys_user_data s 7) = Some setting_description
  /\ Text.lower "/SKIP" = "/skip"
  /\ sys_user_data (step (ev_message (text_from Scenario.ann "/SKIP")) s) 7
     = cleared.
Proof.
  intros s.
  assert (Ha : ud_action (sys_user_data s 7) = Some setting_description)
    by (vm_compute; reflexivity).
  assert (Hk : Text.lower "/SKIP" = "/skip") by (vm_compute; reflexivity).
  split; [exact Ha|]. split; [exact Hk|].
  destruct (skip_finds_the_draft_complete
              [ev_callback Scenario.ann cb_create_game;
               ev_message (text_from Scenario.ann "Chess Night");
               ev_message (text_from Scenario.ann "31.12.2099 18:00");
               ev_message (text_from Scenario.ann "4")]
              true 0 Scenario.ann "/SKIP" (or_introl Ha) Hk)
    as (name & date & _ & _ & H & _).
  exact H.
Defined.

(** X14.  In every state the system can reach, when [handle_message]
    answers with the creation error either the sender has no wizard step
    pending, or the step is the description or the photo and the draft,
    which then has its title and start time, has a capacity the store
    cannot hold (2^63 or more) or, with a job queue, a start time before
    the year 1000.  A user inside the wizard never gets the error for a
    missing field. *)
Theorem creation_error_causes (events : list Event)
  (with_queue : bool) (t0 : Time.datetime) (m : Message) (out : list Out)
  (c' : Context) :
  let s := run events (boot with_queue t0) in
  let u := sys_user_data s (user_id (msg_from m)) in
  handle_message (sys_now s) m (context_of s (user_id (msg_from m)))
  = Some (out, c') ->
  In (reply_text CreateError) out ->
  ud_action u = None
  \/ ((ud_action u = Some setting_description
       \/ ud_action u = Some setting_photo)
      /\ exists name date,
           ud_game_name u = Some name /\ ud_game_date u = Some date
           /\ (fits_int64 (draft_capacity u) = false
               \/ (sys_job_queue s <> None
                   /\ Time.four_digit_year date = false))).
Proof.
  intros s u E Hin.
  pose proof (sound_run events with_queue t0) as Hs. fold s in Hs.
  pose proof (drafts_ready_run events with_queue t0 (user_id (msg_from m)))
    as Hr. fold s in Hr.
  unfold u.
  change (sys_user_data s (user_id (msg_from m)))
    with (user_data (context_of s (user_id (msg_from m)))) in *.
  change (sys_job_queue s)
    with (job_queue (context_of s (user_id (msg_from m)))).
  assert (Hc : consistent (db (context_of s (user_id (msg_from m)))))
    by exact (sound_store s Hs).
  revert E Hr Hc. clear Hs u.
  generalize (context_of s (user_id (msg_from m))) as c.
  generalize (sys_now s) as now. clear s. intros now c E Hr Hc.
  assert (Hok : forall u,
             ud_game_name u = ud_game_name (user_data c) ->
             ud_game_date u = ud_game_date (user_data c) ->
             ud_max_players u = ud_max_players (user_data c) ->
             ud_game_name (user_data c) <> None ->
             ud_game_date (user_data c) <> None ->
             In (reply_text CreateError)
               (fst (create_game_in_db now (msg_from m)
                       (with_user_data c u))) ->
             exists name date,
               ud_game_name (user_data c) = Some name
               /\ ud_game_date (user_data c) = Some date
               /\ (fits_int64 (draft_capacity (user_data c)) = false
                   \/ (job_queue c <> None
                       /\ Time.four_digit_year date = false))).
  { intros u Hn Hd Hm Hn' Hd'.
    destruct (ud_game_name (user_data c)) as [name|] eqn:En; [|congruence].
    destruct (ud_game_date (user_data c)) as [date|] eqn:Ed; [|congruence].
    rewrite (create_game_in_db_cases _ _ (with_user_data c u) name date);
      [|exact Hc|exact Hn|exact Hd].
    cbn [with_user_data user_data job_queue db].
    assert (Hcap : draft_capacity u = draft_capacity (user_data c))
      by (unfold draft_capacity; rewrite Hm; reflexivity).
    rewrite Hcap. intros H. exists name, date.
    split; [reflexivity|]. split; [reflexivity|].
    destruct (fits_int64 (draft_capacity (user_data c))); [|left; reflexivity].
    right. destruct (job_queue c) as [q|].
    - destruct (Time.four_digit_year date).
      + cbn [fst] in H. destruct H as [H|[H|[]]]; discriminate.
      + split; [discriminate | reflexivity].
    - cbn [fst] in H. destruct H as [H|[H|[]]]; discriminate. }
  assert (Hsame : with_user_data c (user_data c) = c)
    by (destruct c; reflexivity).
  revert E. unfold handle_message.
  destruct (msg_text m) as [raw|]; [|discriminate].
  intros E. injection E as E. unfold draft_ready in Hr.
  destruct (ud_action (user_data c)) as [[]|] eqn:Ha; [..|left; reflexivity];
    revert E; cbn [action_is Action_eqb andb].
  - intros E. injection E as <- _. destruct Hin as [H|[]]; discriminate.
  - destruct (Text.strptime_display raw); intros E; injection E as <- _;
      destruct Hin as [H|[]]; discriminate.
  - destruct (Text.python_int raw) as [n|]; [destruct (n <? 0)|];
      intros E; injection E as <- _; destruct Hin as [H|[]]; discriminate.
  - destruct (negb (is_skip (Text.lower raw))).
    + intros E; injection E as <- _. destruct Hin as [H|[]]; discriminate.
    + intros E. right. split; [auto|].
      apply (Hok (user_data c)); try tauto.
      rewrite Hsame, E. exact Hin.
  - destruct (negb (is_skip (Text.lower raw)));
      rewrite ?andb_true_r, ?andb_false_r.
    + destruct (negb match msg_photo m with [] => true | _ :: _ => false end).
      * intros E. right. split; [auto|].
        apply (Hok (set_photo_id (user_data c) (last (msg_photo m) "")));
          try tauto.
        rewrite E. exact Hin.
      * intros E; injection E as <- _. destruct Hin as [H|[]]; discriminate.
    + intros E. right. split; [auto|].
      apply (Hok (user_data c)); try tauto.
      rewrite Hsame, E. exact Hin.
Qed.

Lemma creation_error_causes_witness :
  let s := run [ev_callback Scenario.ann cb_create_game;
                ev_message (text_from Scenario.ann "Go");
                ev_message (text_from Scenario.ann "31.12.2099 18:00");
                ev_message (text_from Scenario.ann "9223372036854775808")]
             (boot true 0) in
  handle_message (sys_now s) (text_from Scenario.ann "/skip") (context_of s 7)
  = Some ([reply_text CreateError; reply_text Menu],
          mkContext empty_db cleared (Some []))
  /\ ud_action (sys_user_data s 7) = Some setting_description
  /\ fits_int64 (draft_capacity (sys_user_data s 7)) = false.
Proof.
  intros s.
  assert (E : handle_message (sys_now s) (text_from Scenario.ann "/skip")
                (context_of s 7)
              = Some ([reply_text CreateError; reply_text Menu],
                      mkContext empty_db cleared (Some [])))
    by (vm_compute; reflexivity).
  split; [exact E|].
  destruct (creation_error_causes
              [ev_callback Scenario.ann cb_create_game;
               ev_message (text_from Scenario.ann "Go");
               ev_message (text_from Scenario.ann "31.12.2099 18:00");
               ev_message (text_from Scenario.ann "9223372036854775808")]
              true 0 (text_from Scenario.ann "/skip") _ _ E
              (or_introl eq_refl))
    as [Hnone|[_ (name & date & _ & Hd & [Hfit|[_ Hyear]])]].
  - vm_compute in Hnone. discriminate Hnone.
  - split; [vm_compute; reflexivity | exact Hfit].
  - exfalso. vm_compute in Hd. injection Hd as <-.
    vm_compute in Hyear. discriminate Hyear.
Defined.

(** *** The photo step *)

(** No button press adds a game. *)
Lemma button_games (now : Time.datetime) (cb : Callback) (user : User)
  (c : Context) (g : GameRow) :
  In g (games (db (snd (button now cb user c)))) -> In g (games (db c)).
Proof.
  unfold button.
  destruct cb as [| |gid|gid|gid|gid| |]; cbn [snd]; auto.
  - unfold book_game. destruct (get_game_info _ _); [|auto].
    destruct (_ && _); [auto|]. unfold insert_player.
    destruct (is_user_joined _ _ _); auto.
  - unfold cancel_booking. destruct (negb _); auto.
  - unfold delete_game. destruct (negb _); [auto|].
    destruct (get_game_info _ _); [|auto].
    cbn [snd with_db db delete_reminders_of delete_players_of delete_game_row
         games].
    intros H. apply filter_In in H as [H _]. exact H.
Qed.

Lemma handle_message_photoless (now : Time.datetime) (m : Message)
  (c : Context) (r : list Out * Context) :
  handle_message now m c = Some r -> delivered m ->
  ud_photo_id (user_data c) = None ->
  (forall g, In g (games (db c)) -> photo_id g = None) ->
  ud_photo_id (user_data (snd r)) = None
  /\ (forall g, In g (games (db (snd r))) -> photo_id g = None).
Proof.
  unfold handle_message, delivered.
  destruct (msg_text m) as [raw|]; [|discriminate].
  intros E Hm Hu Hg. injection E as <-.
  assert (Hp : msg_photo m = []).
  { destruct (msg_photo m) as [|f fs]; [reflexivity|].
    assert (H : Some raw = None) by (apply Hm; discriminate). discriminate. }
  rewrite Hp.
  assert (Hcommit :
            ud_photo_id
              (user_data (snd (create_game_in_db now (msg_from m) c))) = None
            /\ (forall g,
                  In g (games (db (snd (create_game_in_db now (msg_from m) c)))) ->
                  photo_id g = None)).
  { split; [rewrite create_game_in_db_state; reflexivity|].
    intros g H. apply create_game_in_db_games in H as [H|(_ & _ & H)];
      [auto | congruence]. }
  destruct (ud_action (user_data c)) as [[]|];
    cbn [action_is Action_eqb andb negb]; rewrite ?andb_false_r.
  - split; [exact Hu | exact Hg].
  - destruct (Text.strptime_display raw); split; auto.
  - destruct (Text.python_int raw) as [n|]; [destruct (n <? 0)|]; split; auto.
  - destruct (negb (is_skip (Text.lower raw))); [split; auto | exact Hcommit].
  - destruct (negb (is_skip (Text.lower raw))); [split; auto | exact Hcommit].
  - exact Hcommit.
Qed.

Lemma photoless_step (e : Event) (s : System) :
  event_delivered e -> photoless s -> photoless (step e s).
Proof.
  intros He [Hu Hg]. destruct e as [m|user cb|t]; cbn [step].
  - destruct (handle_message (sys_now s) m (context_of s (user_id (msg_from m))))
      as [r|] eqn:E; [|split; assumption].
    destruct (handle_message_photoless _ _ _ _ E He (Hu _) Hg) as [Hu' Hg'].
    split; cbn [handled sys_user_data sys_db]; [|exact Hg'].
    intros uid. destruct (uid =? user_id (msg_from m)); [exact Hu' | apply Hu].
  - split; cbn [handled sys_user_data sys_db].
    + intros uid. destruct (uid =? user_id user); [|apply Hu].
      destruct (button_user_data (sys_now s) cb user
                  (context_of s (user_id user))) as [->| ->]; apply Hu.
    + intros g H. apply button_games in H. exact (Hg g H).
  - destruct (t <? sys_now s); split; assumption.
Qed.

(** X15.  When messages arrive as the transport delivers them (a message
    with a photo carries no text), no run ever stores a photo: a photo
    message stops [handle_message] before it reads the photo, so every draft
    and every stored game is without one, and [game_details] never sends a
    photo. *)
Theorem no_photo_is_ever_stored (events : list Event) (with_queue : bool)
  (t0 : Time.datetime) :
  Forall event_delivered events ->
  photoless (run events (boot with_queue t0))
  /\ forall gid user photo text,
       ~ In (send_photo photo text)
           (game_details gid user
              (context_of (run events (boot with_queue t0)) (user_id user))).
Proof.
  intros Hev.
  assert (H : photoless (run events (boot with_queue t0))).
  { assert (H0 : photoless (boot with_queue t0)).
    { split; [intros uid; reflexivity|]. destruct with_queue; intros g []. }
    revert H0. generalize (boot with_queue t0) as s.
    induction Hev as [|e es He _ IH]; intros s Hs; [exact Hs|].
    apply (IH (step e s)), photoless_step; assumption. }
  split; [exact H|].
  intros gid user photo text. unfold game_details, get_game_info.
  cbn [context_of db].
  destruct (find_game (sys_db (run events (boot with_queue t0))) gid)
    as [g|] eqn:Eg.
  - cbn [info_photo_id].
    assert (Hg : photo_id g = None).
    { apply (proj2 H). unfold find_game in Eg.
      apply find_some in Eg as [Hin _]. exact Hin. }
    rewrite Hg. intros [Hin|[Hin|[]]]; discriminate.
  - intros [Hin|[Hin|[]]]; discriminate.
Qed.

Lemma no_photo_is_ever_stored_witness :
  Forall event_delivered
    [ev_callback Scenario.ann cb_create_game;
     ev_message (text_from Scenario.ann "Chess Night");
     ev_message (text_from Scenario.ann "31.12.2099 18:00");
     ev_message (text_from Scenario.ann "4");
     ev_message (text_from Scenario.ann "bring a clock");
     ev_message (photo_from Scenario.ann ["small"; "large"]);
     ev_message (text_from Scenario.ann "/skip")]
  /\ photoless
       (run [ev_callback Scenario.ann cb_create_game;
             ev_message (text_from Scenario.ann "Chess Night");
             ev_message (text_from Scenario.ann "31.12.2099 18:00");
             ev_message (text_from Scenario.ann "4");
             ev_message (text_from Scenario.ann "bring a clock");
             ev_message (photo_from Scenario.ann ["small"; "large"]);
             ev_message (text_from Scenario.ann "/skip")]
          (boot true 0)).
Proof.
  assert (H : Forall event_delivered
                [ev_callback Scenario.ann cb_create_game;
                 ev_message (text_from Scenario.ann "Chess Night");
                 ev_message (text_from Scenario.ann "31.12.2099 18:00");
                 ev_message (text_from Scenario.ann "4");
                 ev_message (text_from Scenario.ann "bring a clock");
                 ev_message (photo_from Scenario.ann ["small"; "large"]);
                 ev_message (text_from Scenario.ann "/skip")]).
  { repeat constructor; cbn; intros Hp; try reflexivity;
      exfalso; apply Hp; reflexivity. }
  split; [exact H|].
  exact (proj1 (no_photo_is_ever_stored _ true 0 H)).
Defined.

End WizardLife.

(** ** Who can change what *)
Module Authority.
Import Store Chat Reminders Handlers Engine Loop Shape.
Import StoreFacts Deleting Wizard LoopFacts Cancelling StoreLife.

Lemma find_snoc {A : Type} (f : A -> bool) (l : list A) (x : A) :
  find f (l ++ [x])
  = match find f l with
    | Some y => Some y
    | None => if f x then Some x else None
    end.
Proof.
  induction l as [|a l IH]; cbn [app find]; [reflexivity|].
  destruct (f a); [reflexivity | exact IH].
Qed.

Lemma find_filter_none {A : Type} (f h : A -> bool) (l : list A) :
  (forall x, f x = true -> h x = false) -> find f (filter h l) = None.
Proof.
  intros H. induction l as [|a l IH]; cbn [filter find]; [reflexivity|].
  destruct (h a) eqn:Eh; [|exact IH]. cbn [find].
  destruct (f a) eqn:Ef; [|exact IH]. rewrite (H a Ef) in Eh. discriminate.
Qed.

(** Membership reads the player rows only. *)
Lemma joined_same_players (d d' : Database) (g u : Z) :
  players d' = players d -> is_user_joined d' g u = is_user_joined d g u.
Proof. unfold is_user_joined, find_player. intros ->. reflexivity. Qed.

Lemma joined_one_more (d d' : Database) (gid uid : Z) (n : option string)
  (g u : Z) :
  players d' = players d ++ [mkPlayer gid uid n] ->
  is_user_joined d' g u
  = is_user_joined d g u || ((gid =? g) && (uid =? u)).
Proof.
  unfold is_user_joined, find_player. intros ->. rewrite find_snoc.
  cbn [player_game player_user].
  destruct (find _ (players d)); [reflexivity|].
  destruct ((gid =? g) && (uid =? u)); reflexivity.
Qed.

Lemma joined_without (d : Database) (gid g u : Z) :
  is_user_joined (without d gid) g u
  = if g =? gid then false else is_user_joined d g u.
Proof.
  unfold is_user_joined, find_player.
  cbn [without delete_reminders_of delete_players_of delete_game_row players].
  destruct (Z.eqb_spec g gid) as [->|Hne].
  - rewrite find_filter_none; [reflexivity|].
    intros p Hp. apply andb_true_iff in Hp as [Hp _]. rewrite Hp. reflexivity.
  - rewrite find_filter_keeps; [reflexivity|].
    intros p Hp. apply andb_true_iff in Hp as [Hp _].
    apply Z.eqb_eq in Hp. apply negb_true_iff, Z.eqb_neq. lia.
Qed.

Lemma find_game_kept (d d' : Database) (x : GameRow) (gid : Z) (g : GameRow) :
  games d' = games d ++ [x] ->
  find_game d gid = Some g -> find_game d' gid = Some g.
Proof.
  unfold find_game. intros -> H. rewrite find_snoc, H. reflexivity.
Qed.

(** What a message does to the games and to the memberships. *)
Lemma handle_message_rows (now : Time.datetime) (m : Message) (c : Context)
  (r : list Out * Context) :
  handle_message now m c = Some r ->
  (forall gid g, find_game (db c) gid = Some g ->
                 find_game (db (snd r)) gid = Some g)
  /\ (forall g u,
        is_user_joined (db (snd r)) g u = is_user_joined (db c) g u
        \/ is_user_joined (db (snd r)) g u
           = is_user_joined (db c) g u
             || ((next_game_id (db c) =? g) && (user_id (msg_from m) =? u))).
Proof.
  intros H.
  destruct (handle_message_store now m c r H) as [->|(u0 & _ & ->)];
    [split; auto|].
  destruct (create_game_in_db_appends now (msg_from m) (with_user_data c u0))
    as [Hg Hp].
  cbn [with_user_data db] in Hg, Hp.
  split.
  - intros gid g Hf. destruct Hg as [Hg|(x & _ & Hg)].
    + unfold find_game in *. rewrite Hg. exact Hf.
    + apply (find_game_kept (db c) _ x); assumption.
  - intros g u. destruct Hp as [Hp|Hp].
    + left. apply joined_same_players, Hp.
    + right. apply (joined_one_more _ _ _ _ _ _ _ Hp).
Qed.

(** X16.  A game leaves the store only when its creator presses its delete
    button: after any other message, button press or clock tick, from any
    user, a game that was in the store is still there, row unchanged. *)
Theorem only_the_creator_removes_a_game (e : Event) (s : System) (gid : Z)
  (g : GameRow) :
  find_game (sys_db s) gid = Some g ->
  find_game (sys_db (step e s)) gid = Some g
  \/ exists user, e = ev_callback user (cb_delete_game gid)
                  /\ user_id user = creator_id g.
Proof.
  intros Hg. destruct e as [m|user cb|t]; cbn [step].
  - left.
    destruct (handle_message (sys_now s) m (context_of s (user_id (msg_from m))))
      as [r|] eqn:E; [|exact Hg].
    cbn [handled sys_db].
    apply (proj1 (handle_message_rows _ _ _ _ E)). exact Hg.
  - cbn [handled sys_db]. unfold button.
    destruct cb as [| |x|x|x|x| |]; cbn [snd]; try (left; exact Hg).
    + left. unfold book_game. destruct (get_game_info _ _); [|exact Hg].
      destruct (_ && _); [exact Hg|]. unfold insert_player.
      destruct (is_user_joined _ _ _); exact Hg.
    + left. unfold cancel_booking. destruct (negb _); exact Hg.
    + unfold delete_game.
      destruct (is_user_creator (context_of s (user_id user)).(db) x
                  (user_id user)) eqn:Ec; cbn [negb]; [|left; exact Hg].
      destruct (get_game_info _ _); [|left; exact Hg].
      cbn [snd with_db db context_of] in *.
      destruct (Z.eq_dec gid x) as [->|Hne].
      * right. exists user. split; [reflexivity|].
        unfold is_user_creator in Ec. rewrite Hg in Ec.
        apply Z.eqb_eq in Ec. lia.
      * left. unfold find_game in *.
        cbn [delete_reminders_of delete_players_of delete_game_row games].
        rewrite find_game_other by assumption. exact Hg.
  - left. destruct (t <? sys_now s); exact Hg.
Qed.

Lemma only_the_creator_removes_a_game_witness :
  let s := run (Scenario.chess_night_inputs Scenario.ann) (boot true 0) in
  let g := mkGame 1 "Chess Night" 66238106400 7 4 "" None in
  find_game (sys_db s) 1 = Some g
  /\ find_game
       (sys_db (step (ev_callback Scenario.bob (cb_delete_game 1)) s)) 1
     = Some g.
Proof.
  intros s g.
  assert (Hg : find_game (sys_db s) 1 = Some g) by (vm_compute; reflexivity).
  split; [exact Hg|].
  destruct (only_the_creator_removes_a_game
              (ev_callback Scenario.bob (cb_delete_game 1)) s 1 g Hg)
    as [H|(user & He & Hu)]; [exact H|].
  injection He as <-. discriminate Hu.
Defined.

(** X17.  A user stops being a participant of a game only by pressing the
    game's cancel button themself, or when the game's creator deletes the
    game: no other message, button press or clock tick, and no action of
    another participant, removes a participant. *)
Theorem membership_ends_only_by_cancel_or_delete (e : Event) (s : System)
  (gid uid : Z) :
  is_user_joined (sys_db s) gid uid = true ->
  is_user_joined (sys_db (step e s)) gid uid = true
  \/ (exists user, e = ev_callback user (cb_cancel_booking gid)
                   /\ user_id user = uid)
  \/ (exists user, e = ev_callback user (cb_delete_game gid)
                   /\ is_user_creator (sys_db s) gid (user_id user) = true).
Proof.
  intros Hj. destruct e as [m|user cb|t]; cbn [step].
  - left.
    destruct (handle_message (sys_now s) m (context_of s (user_id (msg_from m))))
      as [r|] eqn:E; [|exact Hj].
    cbn [handled sys_db].
    destruct (proj2 (handle_message_rows _ _ _ _ E) gid uid) as [-> | ->];
      cbn [context_of db]; rewrite Hj; reflexivity.
  - cbn [handled sys_db]. unfold button.
    destruct cb as [| |x|x|x|x| |]; cbn [snd]; try (left; exact Hj).
    + left. unfold book_game. destruct (get_game_info _ _); [|exact Hj].
      destruct (_ && _); [exact Hj|]. unfold insert_player.
      destruct (is_user_joined _ x _); [exact Hj|].
      cbn [snd with_db db context_of].
      rewrite (joined_one_more (sys_db s) _ x (user_id user) (user_name user))
        by reflexivity.
      rewrite Hj. reflexivity.
    + unfold cancel_booking.
      destruct (negb (is_user_joined _ x _)); [left; exact Hj|].
      cbn [snd with_db db context_of]. rewrite is_user_joined_delete.
      destruct (Z.eqb_spec gid x) as [->|Hne]; cbn [andb]; [|left; exact Hj].
      destruct (Z.eqb_spec uid (user_id user)) as [->|Hne];
        [|left; exact Hj].
      right. left. exists user. split; reflexivity.
    + unfold delete_game.
      destruct (is_user_creator (context_of s (user_id user)).(db) x
                  (user_id user)) eqn:Ec; cbn [negb]; [|left; exact Hj].
      destruct (get_game_info _ _); [|left; exact Hj].
      cbn [snd with_db db context_of] in *.
      change (delete_reminders_of (delete_players_of (delete_game_row (sys_db s) x) x) x)
        with (without (sys_db s) x).
      rewrite joined_without.
      destruct (Z.eqb_spec gid x) as [->|Hne]; [|left; exact Hj].
      right. right. exists user. split; [reflexivity | exact Ec].
  - left. destruct (t <? sys_now s); exact Hj.
Qed.

Lemma membership_ends_only_by_cancel_or_delete_witness :
  let s := mkSystem (db Scenario.four_seats_context) (fun _ => cleared) None 0
             [] [] in
  is_user_joined (sys_db s) 2 8 = true
  /\ is_user_joined
       (sys_db (step (ev_callback Scenario.eve (cb_cancel_booking 2)) s)) 2 8
     = true.
Proof.
  intros s.
  assert (Hj : is_user_joined (sys_db s) 2 8 = true) by reflexivity.
  split; [exact Hj|].
  destruct (membership_ends_only_by_cancel_or_delete
              (ev_callback Scenario.eve (cb_cancel_booking 2)) s 2 8 Hj)
    as [H|[(user & He & Hu)|(user & He & _)]]; [exact H| |].
  - injection He as <-. discriminate Hu.
  - discriminate He.
Defined.

(** X18.  A user becomes a participant of a game only by pressing the game's
    book button themself, or by sending the message that creates the game
    (which then carries the next identifier): nobody can be signed up by
    someone else. *)
Theorem membership_starts_only_by_own_action (e : Event) (s : System)
  (gid uid : Z) :
  is_user_joined (sys_db s) gid uid = false ->
  is_user_joined (sys_db (step e s)) gid uid = true ->
  (exists user, e = ev_callback user (cb_book gid) /\ user_id user = uid
                /\ find_game (sys_db s) gid <> None)
  \/ (exists m, e = ev_message m /\ user_id (msg_from m) = uid
                /\ gid = next_game_id (sys_db s)).
Proof.
  intros Hj. destruct e as [m|user cb|t]; cbn [step].
  - destruct (handle_message (sys_now s) m (context_of s (user_id (msg_from m))))
      as [r|] eqn:E; [|congruence].
    cbn [handled sys_db].
    destruct (proj2 (handle_message_rows _ _ _ _ E) gid uid) as [-> | ->];
      cbn [context_of db]; rewrite Hj; [discriminate|].
    cbn [orb]. intros H. apply andb_true_iff in H as [H1 H2].
    apply Z.eqb_eq in H1, H2. right. exists m. auto.
  - cbn [handled sys_db]. unfold button.
    destruct cb as [| |x|x|x|x| |]; unfold create_game_step1;
      cbn [snd with_user_data db context_of]; try congruence.
    + unfold book_game, get_game_info. cbn [db context_of].
      destruct (find_game (sys_db s) x) eqn:Ef;
        [|cbn [snd db context_of]; congruence].
      destruct (_ && _); [cbn [snd db context_of]; congruence|].
      unfold insert_player. cbn [db context_of].
      destruct (is_user_joined (sys_db s) x (user_id user));
        [cbn [snd db context_of]; congruence|].
      cbn [snd with_db db context_of] in *.
      rewrite (joined_one_more (sys_db s) _ x (user_id user) (user_name user))
        by reflexivity.
      rewrite Hj. cbn [orb]. intros H. apply andb_true_iff in H as [H1 H2].
      apply Z.eqb_eq in H1, H2. subst x. left. exists user.
      split; [reflexivity|]. split; [exact H2 | congruence].
    + unfold cancel_booking.
      destruct (negb (is_user_joined _ x _));
        [cbn [snd db context_of]; congruence|].
      cbn [snd with_db db context_of]. rewrite is_user_joined_delete.
      destruct (_ && _); congruence.
    + unfold delete_game.
      destruct (negb _); [cbn [snd db context_of]; congruence|].
      destruct (get_game_info _ _); [|cbn [snd db context_of]; congruence].
      cbn [snd with_db db context_of] in *.
      change (delete_reminders_of (delete_players_of (delete_game_row (sys_db s) x) x) x)
        with (without (sys_db s) x).
      rewrite joined_without. destruct (gid =? x); congruence.
  - destruct (t <? sys_now s); cbn [sys_db]; congruence.
Qed.

Lemma membership_starts_only_by_own_action_witness :
  let s := mkSystem (db Scenario.four_seats_context) (fun _ => cleared) None 0
             [] [] in
  let e := ev_callback (mkUser 10 None) (cb_book 2) in
  is_user_joined (sys_db s) 2 10 = false
  /\ is_user_joined (sys_db (step e s)) 2 10 = true
  /\ ((exists user, e = ev_callback user (cb_book 2) /\ user_id user = 10
                    /\ find_game (sys_db s) 2 <> None)
      \/ (exists m, e = ev_message m /\ user_id (msg_from m) = 10
                    /\ 2 = next_game_id (sys_db s))).
Proof.
  intros s e.
  assert (H0 : is_user_joined (sys_db s) 2 10 = false) by reflexivity.
  assert (H1 : is_user_joined (sys_db (step e s)) 2 10 = true) by reflexivity.
  split; [exact H0|]. split; [exact H1|].
  exact (membership_starts_only_by_own_action e s 2 10 H0 H1).
Defined.

End Authority.

(** ** The notices to the creator *)
Module Notices.
Import Store Chat Reminders Handlers Engine Views Shape.
Import StoreFacts Cancelling.

Lemma game_details_sends_no_message (gid : Z) (user : User) (c : Context)
  (chat : Target) (msg : Msg) :
  ~ In (send_message chat msg) (game_details gid user c).
Proof.
  unfold game_details. destruct (get_game_info (db c) gid) as [game|].
  - destruct (info_photo_id game); intros [H|[H|[]]]; discriminate.
  - intros [H|[H|[]]]; discriminate.
Qed.

Lemma find_player_delete (d : Database) (gid uid u : Z) :
  find_player (delete_player d gid uid) gid u
  = if u =? uid then None else find_player d gid u.
Proof.
  unfold find_player, delete_player. cbn [players].
  destruct (Z.eqb_spec u uid) as [->|Hne].
  - apply (find_filter_out
             (fun p => (player_game p =? gid) && (player_user p =? uid))).
  - apply find_filter_keeps. intros x Hx.
    apply andb_true_iff in Hx as [_ Hx]. apply Z.eqb_eq in Hx.
    destruct (Z.eqb_spec (player_user x) uid); [lia|].
    rewrite andb_false_r. reflexivity.
Qed.

(** X19.  The only message [book_game] and [cancel_booking] send is the
    notice to the game's creator, and it is addressed by the user name
    stored in the creator's own participant row, not by the creator's
    identifier: the chat is position 6 of the game tuple.  With no such row
    (the creator has cancelled their own booking, or is the one cancelling)
    or no user name in it, the notice has no addressee. *)
Theorem notices_are_addressed_by_name (gid : Z) (user : User) (c : Context)
  (chat : Target) (msg : Msg) :
  (In (send_message chat msg) (fst (book_game gid user c)) ->
   exists g, find_game (db c) gid = Some g
             /\ chat = to_name (creator_name (db c) gid g)
             /\ msg = NewParticipant (game_name g) (user_name user)
                        (count_players (db c) gid + 1) (max_players g))
  /\ (In (send_message chat msg) (fst (cancel_booking gid user c)) ->
      exists g, find_game (db c) gid = Some g
                /\ chat = to_name (if creator_id g =? user_id user then None
                                   else creator_name (db c) gid g)
                /\ msg = ParticipantLeft (game_name g) (user_name user)).
Proof.
  split.
  - unfold book_game, get_game_info.
    destruct (find_game (db c) gid) as [g|] eqn:Hg;
      [|intros [H|[H|[]]]; discriminate].
    cbn [info_max_players info_current_players info_creator_name info_name].
    destruct (_ && _); [intros [H|[H|[]]]; discriminate|].
    destruct (is_user_joined (db c) gid (user_id user));
      [intros [H|[H|[]]]; discriminate|].
    destruct (insert_player (db c) gid (user_id user) (user_name user))
      as [d'|]; [|intros [H|[H|[]]]; discriminate].
    cbn [fst]. intros H. apply in_app_or in H as [H|H].
    + destruct H as [H|[H|[H|[]]]]; try discriminate.
      injection H as <- <-. exists g. auto.
    + exfalso. exact (game_details_sends_no_message _ _ _ _ _ H).
  - unfold cancel_booking.
    destruct (is_user_joined (db c) gid (user_id user)); cbn [negb];
      [|intros [H|[H|[]]]; discriminate].
    cbn [fst]. unfold get_game_info.
    change (find_game (delete_player (db c) gid (user_id user)) gid)
      with (find_game (db c) gid).
    destruct (find_game (db c) gid) as [g|] eqn:Hg.
    + cbn [info_creator_name info_name]. rewrite find_player_delete.
      intros [H|[H|[H|[H|[H|[]]]]]]; try discriminate.
      injection H as <- <-. exists g. split; [reflexivity|].
      split; [|reflexivity]. unfold creator_name.
      destruct (creator_id g =? user_id user); reflexivity.
    + intros [H|[H|[H|[H|[]]]]]; discriminate.
Qed.

Lemma notices_are_addressed_by_name_witness :
  In (send_message (to_name (Some "ann"))
        (ParticipantLeft "Catan" (Some "bob")))
    (fst (cancel_booking 2 Scenario.bob Scenario.four_seats_context))
  /\ exists g, find_game (db Scenario.four_seats_context) 2 = Some g
               /\ to_name (Some "ann")
                  = to_name (if creator_id g =? 8 then None
                             else creator_name
                                    (db Scenario.four_seats_context) 2 g).
Proof.
  assert (H : In (send_message (to_name (Some "ann"))
                    (ParticipantLeft "Catan" (Some "bob")))
                (fst (cancel_booking 2 Scenario.bob
                        Scenario.four_seats_context)))
    by (right; left; reflexivity).
  split; [exact H|].
  destruct (proj2 (notices_are_addressed_by_name 2 Scenario.bob
                     Scenario.four_seats_context _ _) H)
    as (g & Hg & Hc & _).
  exists g. split; [exact Hg | exact Hc].
Defined.

End Notices.
